(** * AvA Kintsugi: rolling-context generation pipeline

    A shallow embedding of [src/ava/services/context_manager.py] and
    [src/ava/services/generation_coordinator.py], and the properties of
    the generation pipeline proved over it.

    Conventions of the embedding.
    - Python [str] values are [string]s.  Case mapping, the alphabetic
      test and the whitespace class follow Python on the ASCII range;
      characters above it are carried through untouched, so that a
      property which depends on how Python classifies or maps
      characters is stated for ASCII text ([is_ascii]).
    - Python [float] values are IEEE 754 doubles, kept as the rational
      numbers they denote; each float operation rounds to the nearest
      double ([PyFloat]).
    - An exception is an instance of [Exception], or the
      [asyncio.CancelledError] that can reach a suspended coroutine and
      that no [except Exception] clause catches.
    - Python dictionaries used as maps are [gmap string _].  A dictionary
      whose iteration order is observed by the code ([existing_files],
      the one-entry argument of [update_session_context]) is an
      association list in insertion order.
    - Paths follow the POSIX flavour of [pathlib].
    - Exceptions and the mutable state are made explicit by the monad
      [M]: a computation takes a [world] and returns its result, a
      value or what it raised, together with the new [world].
    - The collaborators that live outside these two files (the symbol
      indexer, the model client, the dependency planner, the prompt
      templates) and Python's built-in [hash] are parameters. *)

From Stdlib Require Import Ascii String ZArith QArith Qminmax Qabs Lia Lqa.
From stdpp Require Import gmap strings list fin_maps pretty.

Local Open Scope string_scope.

(* ===================================================================== *)
(** * Strings with the Python operations the sources use                 *)
(* ===================================================================== *)

Module PyStr.

Definition LF : ascii := "010"%char.
Definition DQ : ascii := "034"%char.
Definition BQ : ascii := "096"%char.

Definition code (c : ascii) : N := N_of_ascii c.

Definition in_range (lo hi : N) (c : ascii) : bool :=
((lo <=? code c) && (code c <=? hi))%N.

(** [str.isspace] on one character: TAB..CR, FS..US and the blank. *)
Definition is_space (c : ascii) : bool :=
in_range 9 13 c || in_range 28 32 c.

Definition is_upper (c : ascii) : bool := in_range 65 90 c.
Definition is_lower (c : ascii) : bool := in_range 97 122 c.
Definition is_digit (c : ascii) : bool := in_range 48 57 c.
Definition is_alpha (c : ascii) : bool := is_upper c || is_lower c.

(** The regular-expression class [[a-zA-Z0-9_]]. *)
Definition is_word (c : ascii) : bool :=
is_alpha c || is_digit c || (code c =? 95)%N.

Definition lower_char (c : ascii) : ascii :=
if is_upper c then ascii_of_N (code c + 32) else c.
Definition upper_char (c : ascii) : ascii :=
if is_lower c then ascii_of_N (code c - 32) else c.

Fixpoint map_chars (f : ascii -> ascii) (s : string) : string :=
match s with
| EmptyString => EmptyString
| String c s' => String (f c) (map_chars f s')
end.

(** [s.lower()] *)
Definition lower (s : string) : string := map_chars lower_char s.

(** [s.capitalize()] *)
Definition capitalize (s : string) : string :=
match s with
| EmptyString => EmptyString
| String c s' => String (upper_char c) (lower s')
end.

Definition is_empty (s : string) : bool :=
match s with EmptyString => true | _ => false end.

Definition eqb_char (a b : ascii) : bool := (code a =? code b)%N.

(** [s.startswith(p)] *)
Fixpoint startswith (s p : string) : bool :=
match p, s with
| EmptyString, _ => true
| String _ _, EmptyString => false
| String a p', String b s' => eqb_char a b && startswith s' p'
end.

(** [s[n:]] *)
Fixpoint drop (n : nat) (s : string) : string :=
match n, s with
| O, _ => s
| S _, EmptyString => EmptyString
| S k, String _ s' => drop k s'
end.

(** [s.endswith(p)] *)
Definition endswith (s p : string) : bool :=
(String.length p <=? String.length s)%nat
&& startswith (drop (String.length s - String.length p) s) p.

(** [needle in s] *)
Fixpoint contains (s needle : string) : bool :=
startswith s needle
|| match s with
   | EmptyString => false
   | String _ s' => contains s' needle
   end.

(** [s.lstrip()], [s.rstrip()], [s.strip()] *)
Fixpoint lstrip (s : string) : string :=
match s with
| EmptyString => EmptyString
| String c s' => if is_space c then lstrip s' else s
end.

Fixpoint rstrip (s : string) : string :=
match s with
| EmptyString => EmptyString
| String c s' =>
    let r := rstrip s' in
    if is_space c && is_empty r then EmptyString else String c r
end.

Definition strip (s : string) : string := rstrip (lstrip s).

(** [s.replace(old, new)] for a non-empty [old] (every call site passes
  a non-empty literal): occurrences are replaced left to right and do
  not overlap.  [skip] counts the characters of the occurrence just
  replaced that are still to be passed over. *)
Fixpoint replace_from (skip : nat) (s old new : string) : string :=
match s with
| EmptyString => EmptyString
| String c s' =>
    match skip with
    | S k => replace_from k s' old new
    | O =>
        if startswith s old
        then new +:+ replace_from (String.length old - 1) s' old new
        else String c (replace_from 0 s' old new)
    end
end.

Definition replace (s old new : string) : string := replace_from 0 s old new.

(** [s.split()]: the maximal runs of non-whitespace characters. *)
Fixpoint split_ws_from (cur : string) (s : string) : list string :=
match s with
| EmptyString => if is_empty cur then [] else [cur]
| String c s' =>
    if is_space c
    then (if is_empty cur then split_ws_from EmptyString s'
          else cur :: split_ws_from EmptyString s')
    else split_ws_from (cur +:+ String c EmptyString) s'
end.

Definition split_ws (s : string) : list string := split_ws_from EmptyString s.

(** [s.split(sep)] for a non-empty separator. *)
Fixpoint split_sep_from (skip : nat) (cur : string) (s sep : string)
: list string :=
match s with
| EmptyString => [cur]
| String c s' =>
    match skip with
    | S k => split_sep_from k cur s' sep
    | O =>
        if startswith s sep
        then cur :: split_sep_from (String.length sep - 1) EmptyString s' sep
        else split_sep_from 0 (cur +:+ String c EmptyString) s' sep
    end
end.

Definition split_sep (s sep : string) : list string :=
split_sep_from 0 EmptyString s sep.

Fixpoint all_chars (p : ascii -> bool) (s : string) : bool :=
match s with
| EmptyString => true
| String c s' => p c && all_chars p s'
end.

(** [s.isascii()] *)
Definition is_ascii (s : string) : bool :=
all_chars (fun c => (code c <? 128)%N) s.

(** [s.isalpha()] *)
Definition isalpha (s : string) : bool :=
negb (is_empty s) && all_chars is_alpha s.

(** The longest prefix of [s] made of characters satisfying [p], and
  the rest. *)
Fixpoint span (p : ascii -> bool) (s : string) : string * string :=
match s with
| EmptyString => (EmptyString, EmptyString)
| String c s' =>
    if p c then let '(a, b) := span p s' in (String c a, b)
    else (EmptyString, s)
end.

End PyStr.

Import PyStr.

(* ===================================================================== *)
(** * Paths ([pathlib.PurePosixPath])                                    *)
(* ===================================================================== *)

Module PyPath.

(** [Path(p).name]: the last component of [p], where empty components
  and [.] components do not count. *)
Definition name (p : string) : string :=
List.last
  (List.filter (fun part => negb (is_empty part) && negb (String.eqb part "."))
               (split_sep p "/"))
  EmptyString.

(** Splits [s] at its last dot: the text before the dot, and the text
  from the dot on.  [None] when [s] has no dot. *)
Fixpoint split_last_dot (s : string) : option (string * string) :=
match s with
| EmptyString => None
| String c s' =>
    match split_last_dot s' with
    | Some (a, b) => Some (String c a, b)
    | None => if eqb_char c "." then Some (EmptyString, s) else None
    end
end.

(** [i = name.rfind('.')] and the test [0 < i < len(name) - 1]. *)
Definition split_suffix (p : string) : string * string :=
let n := name p in
match split_last_dot n with
| Some (a, b) =>
    if negb (is_empty a) && (1 <? String.length b)%nat then (a, b)
    else (n, EmptyString)
| None => (n, EmptyString)
end.

(** [Path(p).suffix] and [Path(p).stem] *)
Definition suffix (p : string) : string := snd (split_suffix p).
Definition stem (p : string) : string := fst (split_suffix p).

End PyPath.

(* ===================================================================== *)
(** * Output cleaning and the scene template                             *)
(* ===================================================================== *)

(** The closing part [\n```] of the fence pattern. *)
Definition fence_close : string :=
  String LF (String BQ (String BQ (String BQ EmptyString))).

(** The opening delimiter [```]. *)
Definition fence_open : string :=
  String BQ (String BQ (String BQ EmptyString)).

(** The lazy DOTALL group followed by the closing fence, anchored at the
    start of [s]: the group takes the shortest text that is followed by
    [fence_close]; the result is that text (group 1). *)
Fixpoint lazy_body (s : string) : option string :=
  if startswith s fence_close then Some EmptyString
  else match s with
       | EmptyString => None
       | String c s' =>
           match lazy_body s' with
           | Some b => Some (String c b)
           | None => None
           end
       end.

(** The whole pattern of [code_block_regex] anchored at the start of
    [s]: three backquotes, an optional greedy run of word characters
    (the language tag), a line feed, the lazy body and the closing
    fence.  The greedy tag takes every word character; giving some back
    cannot help, since the character after a shorter tag is a word
    character and the pattern wants a line feed there. *)
Definition code_block_at (s : string) : option string :=
  if startswith s fence_open then
    let '(_, rest) := span is_word (drop 3 s) in
    match rest with
    | String c body => if eqb_char c LF then lazy_body body else None
    | EmptyString => None
    end
  else None.

(** [code_block_regex.search(content)]: the match at the leftmost
    position that has one; the value is group 1. *)
Fixpoint code_block_search (s : string) : option string :=
  match code_block_at s with
  | Some b => Some b
  | None =>
      match s with
      | EmptyString => None
      | String _ s' => code_block_search s'
      end
  end.

(** [GenerationCoordinator.robust_clean_llm_output] *)
Definition robust_clean_llm_output (content : string) : string :=
  let content := strip content in
  match code_block_search content with
  | Some body => strip body
  | None => content
  end.

(** One or more whitespace characters, then a non-empty greedy run of
    word characters (group 1), anchored at the start of [s]. *)
Definition spaces_then_word (s : string) : option string :=
  let '(ws, rest) := span is_space s in
  let '(w, _) := span is_word rest in
  if is_empty ws || is_empty w then None else Some w.

(** One keyword of the alternation [Root node is | Extends] under
    IGNORECASE, followed by the rest of the pattern. *)
Definition keyword_then_word (kw s : string) : option string :=
  if startswith (lower s) (lower kw)
  then spaces_then_word (drop (String.length kw) s)
  else None.

Definition node_type_at (s : string) : option string :=
  match keyword_then_word "Root node is" s with
  | Some w => Some w
  | None => keyword_then_word "Extends" s
  end.

Fixpoint node_type_search (s : string) : option string :=
  match node_type_at s with
  | Some w => Some w
  | None =>
      match s with
      | EmptyString => None
      | String _ s' => node_type_search s'
      end
  end.

(** [GenerationCoordinator._extract_node_type_from_purpose] *)
Definition _extract_node_type_from_purpose (purpose : string) : string :=
  match node_type_search purpose with
  | Some w => w
  | None => "Node"
  end.

Section SceneTemplate.

(** Python's built-in [hash] on strings, as the running interpreter
    computes it. *)
Variable hash : string -> Z.

Definition quoted (s : string) : string :=
  String DQ s +:+ String DQ EmptyString.

(** [abs(hash(s)) % (10 ** 10)] printed in decimal. *)
Definition uid_digits (s : string) : string :=
  pretty (Z.abs (hash s) mod 10 ^ 10)%Z.

(** [create_tscn_content] *)
Definition create_tscn_content (node_type script_path : string) : string :=
  let script_uid := "uid://b" +:+ uid_digits script_path in
  "[gd_scene load_steps=2 format=3 uid="
    +:+ quoted ("uid://b" +:+ uid_digits (node_type +:+ script_path))
    +:+ "]" +:+ String LF EmptyString
    +:+ String LF EmptyString
    +:+ "[ext_resource type=" +:+ quoted "Script"
    +:+ " path=" +:+ quoted ("res://" +:+ script_path)
    +:+ " id=" +:+ quoted ("1_" +:+ script_uid) +:+ "]" +:+ String LF EmptyString
    +:+ String LF EmptyString
    +:+ "[node name=" +:+ quoted (capitalize (PyPath.stem script_path))
    +:+ " type=" +:+ quoted node_type +:+ "]" +:+ String LF EmptyString
    +:+ "script = ExtResource(" +:+ quoted ("1_" +:+ script_uid) +:+ ")"
    +:+ String LF EmptyString.

End SceneTemplate.


(* ===================================================================== *)
(** * Floats                                                             *)
(* ===================================================================== *)

(** A Python [float] is an IEEE 754 binary64 number.  A finite one is
    kept as the rational number it denotes; an operation gives the
    double nearest to the exact result, ties going to the even
    significand. *)
Module PyFloat.

(** [floor (log2 (a / b))] *)
Definition floor_log2 (a b : positive) : Z :=
  let e := (Z.log2 (Z.pos a) - Z.log2 (Z.pos b))%Z in
  let below :=
    if (0 <=? e)%Z then (Z.pos a <? Z.pos b * 2 ^ e)%Z
    else (Z.pos a * 2 ^ (- e) <? Z.pos b)%Z in
  if below then (e - 1)%Z else e.

(** The integer nearest to [n / d], the even one of the two when [n / d]
    is half-way between them ([0 <= n], [0 < d]). *)
Definition round_half_even (n d : Z) : Z :=
  let q := (n / d)%Z in
  match (2 * (n mod d) ?= d)%Z with
  | Lt => q
  | Gt => (q + 1)%Z
  | Eq => if Z.even q then q else (q + 1)%Z
  end.

(** The exponent of the unit in the last place of the doubles around
    [a / b]: 52 below the exponent of [a / b], and never below that of
    the subnormal numbers. *)
Definition ulp_exponent (a b : positive) : Z :=
  (Z.max (floor_log2 a b) (-1022) - 52)%Z.

(** The double nearest to the positive rational [a / b], or [None] when
    that is beyond the largest double. *)
Definition round_positive (a b : positive) : option Q :=
  let k := ulp_exponent a b in
  if (0 <=? k)%Z then
    let m := round_half_even (Z.pos a) (Z.pos b * 2 ^ k) in
    if (2 ^ 1024 <=? m * 2 ^ k)%Z then None else Some (inject_Z (m * 2 ^ k))
  else
    let m := round_half_even (Z.pos a * 2 ^ (- k)) (Z.pos b) in
    if (2 ^ 1024 * 2 ^ (- k) <=? m)%Z then None
    else Some (m # Z.to_pos (2 ^ (- k)))%Q.

(** The double nearest to a rational. *)
Definition round_double (q : Q) : option Q :=
  match Qnum q with
  | Z0 => Some 0%Q
  | Z.pos a => round_positive a (Qden q)
  | Z.neg a => Qopp <$> round_positive a (Qden q)
  end.

(** [a / b] on two [int]s, [b] not 0: the quotient correctly rounded;
    [None] stands for the [OverflowError] of a quotient too large for a
    float. *)
Definition int_true_div (a b : nat) : option Q :=
  round_double (Z.of_nat a # Pos.of_nat b).

(** [x * y] on two floats of absolute value at most 1 (the product
    cannot overflow). *)
Definition mul (x y : Q) : Q := default 0%Q (round_double (x * y)).

(** [min(1.0, x)] *)
Definition min_one (x : Q) : Q := Qmin 1 x.

End PyFloat.
(* ===================================================================== *)
(** * Data model                                                         *)
(* ===================================================================== *)

(** One entry of [plan['files']]. *)
Record file_info := FileInfo {
  fi_filename : string;
  fi_purpose : string
}.

(** The plan: [plan['files']] and [plan.get('dependencies', [])]. *)
Record Plan := MkPlan {
  plan_files : list file_info;
  plan_dependencies : list string
}.

(** One value of the [generation_session] dictionary.  The key
    [generated_code] is absent until the file is completed.  The
    dependency list is [list(set(...))] in the source, whose order is
    not defined: it is kept as the set. *)
Record session_entry := SessionEntry {
  se_purpose : string;
  se_status : string;
  se_dependencies : gset string;
  se_generated_code : option string
}.

(** The [generation_session] dictionary is a mutable object shared by
    reference: contexts hold its address, the object lives in the store
    of the [world]. *)
Definition loc := positive.

Record GenerationContext := MkContext {
  plan : Plan;
  project_index : gmap string string;
  living_design_context : gmap string string;
  dependency_order : list string;
  generation_session : loc;
  rag_context : string;
  relevance_scores : gmap string Q;
  existing_files : list (string * string)
}.

(* ===================================================================== *)
(** * Effects                                                            *)
(* ===================================================================== *)

(** An exception that is an instance of [Exception], by its message. *)
Definition exn := string.

(** What a [raise] carries, as far as the sources tell exceptions
    apart: an instance of [Exception], which each of their
    [except Exception] clauses catches, or [asyncio.CancelledError],
    which is a [BaseException] and passes through them.  A cancellation
    is delivered where a coroutine is suspended. *)
Inductive signal :=
| Exception (e : exn)
| CancelledError.

Inductive result (E A : Type) : Type :=
| Ok (a : A)
| Raised (e : E).
Arguments Ok {E A} a.
Arguments Raised {E A} e.

(** The result of a plain call: it returns or raises an [Exception]. *)
Definition outcome (A : Type) : Type := result exn A.

(** The result of a call that can be suspended ([await], [async for]):
    it may also be cancelled. *)
Definition awaited (A : Type) : Type := result signal A.

(** What the pipeline does to the outside, in order. *)
Inductive event :=
| Emit (name : string) (args : list string)   (* event_bus.emit *)
| Printed (text : string)                       (* print *)
| Traceback (e : exn)                         (* traceback.print_exc *)
| ModelResolve (role : string)                (* llm_client.get_model_for_role *)
| ModelStream (provider model prompt role : string).  (* llm_client.stream_chat *)

(** Bookkeeping of the embedding, with no counterpart effect in the
    source: each invocation of the content strategy with the arguments
    it receives, and each assignment to
    [generated_files_this_session]. *)
Inductive note :=
| Dispatched (filename : string) (context : GenerationContext)
             (other_generated_files : gmap string string)
| Stored (filename : string) (content : string).

Record world := MkWorld {
  store : gmap loc (gmap string session_entry);
  trace : list event;
  journal : list note
}.

Definition M (A : Type) : Type := world -> awaited A * world.

Definition ret {A} (a : A) : M A := fun w => (Ok a, w).

Definition bind {A B} (m : M A) (k : A -> M B) : M B :=
  fun w =>
    match m w with
    | (Ok a, w1) => k a w1
    | (Raised e, w1) => (Raised e, w1)
    end.

(** [raise] of an instance of [Exception] *)
Definition raise {A} (e : exn) : M A := fun w => (Raised (Exception e), w).

(** [try: body  except Exception as e: handler] *)
Definition try_catch {A} (body : M A) (handler : exn -> M A) : M A :=
  fun w =>
    match body w with
    | (Ok a, w1) => (Ok a, w1)
    | (Raised (Exception e), w1) => handler e w1
    | (Raised CancelledError, w1) => (Raised CancelledError, w1)
    end.

(** A plain call. *)
Definition lift {A} (o : outcome A) : M A :=
  fun w =>
    (match o with
     | Ok a => Ok a
     | Raised e => Raised (Exception e)
     end, w).

(** [await] of a call that can be suspended. *)
Definition await {A} (o : awaited A) : M A := fun w => (o, w).

Declare Scope py_scope.
Delimit Scope py_scope with py.
Notation "x ← m ; k" := (bind m (fun x => k))
  (at level 20, m at level 100, k at level 200, only parsing) : py_scope.
Notation "' x ← m ; k" := (bind m (fun x => k))
  (at level 20, x pattern, m at level 100, k at level 200, only parsing)
  : py_scope.
Notation "m ;; k" := (bind m (fun _ => k))
  (at level 100, k at level 200, only parsing, right associativity)
  : py_scope.
Local Open Scope py_scope.

Definition tell (e : event) : M unit :=
  fun w => (Ok tt, MkWorld (store w) (trace w ++ [e])%list (journal w)).

Definition jot (n : note) : M unit :=
  fun w => (Ok tt, MkWorld (store w) (trace w) (journal w ++ [n])%list).

(** Everything that has happened so far; the model client may answer
    differently each time it is asked. *)
Definition history : M (list event) := fun w => (Ok (trace w), w).

(** Reading and writing the session record at an address.  An address
    that holds nothing reads as the empty dictionary. *)
Definition read_session (l : loc) : M (gmap string session_entry) :=
  fun w => (Ok (default ∅ (store w !! l)), w).

Definition write_session (l : loc) (s : gmap string session_entry) : M unit :=
  fun w => (Ok tt, MkWorld (<[l := s]> (store w)) (trace w) (journal w)).

(** A new dictionary object: an address the store does not use yet. *)
Definition new_session (s : gmap string session_entry) : M loc :=
  fun w =>
    let l := fresh (dom (store w)) in
    (Ok l, MkWorld (<[l := s]> (store w)) (trace w) (journal w)).

(* ===================================================================== *)
(** * Collaborators                                                      *)
(* ===================================================================== *)

(** The symbol indexer ([get_project_indexer_service()]). *)
Record ProjectIndexer := MkIndexer {
  get_symbols_from_content : string -> string -> outcome (gmap string string);
  build_index : string -> outcome (gmap string string)
}.

(** The model client ([get_llm_client()]).  [get_model_for_role] yields
    the pair (provider, model), either of which may be [None];
    [stream_chat] is an asynchronous generator: it yields the chunks of
    the stream and, when the iteration ends by an exception or is
    cancelled, that exception. *)
Record LLMClient := MkLLM {
  get_model_for_role :
    list event -> string -> outcome (option string * option string);
  stream_chat :
    list event -> string -> string -> string -> string ->
    list string * option signal
}.

(** [service_manager]: [get_project_manager()] is [None] or an object
    whose [active_project_path] is [None] or a path. *)
Record ServiceManager := MkServices {
  get_project_indexer_service : ProjectIndexer;
  get_project_manager : option (option string);
  get_llm_client : LLMClient
}.

(** The prompt templates of [src.ava.prompts], each with its [format]
    call; the [json.dumps] of an argument is part of the template.
    [custom_format] is [str.format] on a caller-supplied template. *)
Record Prompts := MkPrompts {
  CODER_PROMPT :
    string -> string -> string -> Plan -> gmap string string ->
    gmap string string -> outcome string;
  SIMPLE_FILE_PROMPT :
    string -> string -> Plan -> gmap string string -> outcome string;
  GODOT_GDSCRIPT_CODER_PROMPT : string -> string -> Plan -> outcome string;
  GODOT_GENERIC_FILE_PROMPT : string -> string -> Plan -> outcome string;
  custom_format :
    string -> string -> string -> string -> Plan -> outcome string;
  textwrap_dedent : string -> string
}.

(** [await dependency_planner.plan_generation_order(context)], already
    mapped to the filenames of the specs it returns. *)
Definition DependencyPlanner : Type :=
  list event -> GenerationContext -> awaited (list string).

(* ===================================================================== *)
(** * context_manager.py                                                 *)
(* ===================================================================== *)

(** Python truthiness of an optional string. *)
Definition truthy (o : option string) : bool :=
  match o with
  | Some s => negb (is_empty s)
  | None => false
  end.

(** [filename.replace('.py', '').replace('/', '.')] *)
Definition module_path_of (filename : string) : string :=
  replace (replace filename ".py" EmptyString) "/" ".".

(** The table [dependency_patterns] of [_extract_file_dependencies]. *)
Definition dependency_patterns : list (string * list string) :=
  [ ("async", ["asyncio"]); ("path", ["pathlib"]); ("json", ["json"]);
    ("typing", ["typing"]); ("service", ["ava.core.event_bus"]);
    ("manager", ["pathlib"; "typing"]); ("ui", ["tkinter"; "PySide6"]);
    ("web", ["flask"; "fastapi"]); ("database", ["sqlite3"; "sqlalchemy"]);
    ("api", ["requests"; "aiohttp"]) ].

(** [ContextManager._extract_file_dependencies].  Its [try] has nothing
    to catch on a well-formed [file_info]. *)
Definition _extract_file_dependencies (fi : file_info) : gset string :=
  let purpose := lower (fi_purpose fi) in
  let filename := lower (fi_filename fi) in
  let dependencies :=
    List.flat_map
      (fun kd : string * list string =>
         if contains purpose (fst kd) || contains filename (fst kd)
         then snd kd else [])
      dependency_patterns in
  list_to_set dependencies.

(** The test [len(word) > 3 and word.isalpha()] and the value
    [word.strip().lower()] of the two comprehensions. *)
Definition keyword_words (text : string) : list string :=
  List.map (fun word => lower (strip word))
    (List.filter (fun word => (3 <? String.length word)%nat && isalpha word)
                 (split_ws text)).

(** [ContextManager._extract_keywords_from_plan] *)
Definition _extract_keywords_from_plan (p : Plan) : gset string :=
  let from_files :=
    List.flat_map
      (fun fi =>
         (keyword_words (fi_purpose fi)
          ++ keyword_words
               (replace (replace (fi_filename fi) ".py" EmptyString) "_" " "))%list)
      (plan_files p) in
  list_to_set from_files ∪ list_to_set (List.map lower (plan_dependencies p)).

(** [ContextManager._calculate_text_relevance].  The two quotients of
    integers and the product are float operations; the
    [OverflowError] of a quotient too large for a float is caught by
    the [except] branch, which returns 0. *)
Definition _calculate_text_relevance (text : string) (keywords : gset string) : Q :=
  if is_empty text || bool_decide (keywords = ∅) then 0%Q
  else
    let text_lower := lower text in
    let matches :=
      length (List.filter (fun keyword => contains text_lower keyword)
                          (elements keywords)) in
    let text_words := length (split_ws text) in
    let keyword_count := size keywords in
    if (text_words =? 0)%nat || (keyword_count =? 0)%nat then 0%Q
    else
      match PyFloat.int_true_div matches keyword_count with
      | Some base_score =>
          match PyFloat.int_true_div text_words 100 with
          | Some ratio =>
              let length_weight := PyFloat.min_one ratio in
              PyFloat.mul base_score length_weight
          | None => 0%Q
          end
      | None => 0%Q
      end.

Definition rag_separator : string := "--- Relevant Document Snippet".

(** The loop over [enumerate(rag_chunks)]. *)
Fixpoint score_rag_chunks (i : nat) (chunks : list string)
    (keywords : gset string) (scores : gmap string Q) : gmap string Q :=
  match chunks with
  | [] => scores
  | chunk :: rest =>
      let scores :=
        if negb (is_empty (strip chunk))
        then <[ "rag_chunk:" +:+ pretty i := _calculate_text_relevance chunk keywords ]> scores
        else scores in
      score_rag_chunks (S i) rest keywords scores
  end.

(** [ContextManager._calculate_relevance_scores] *)
Definition _calculate_relevance_scores (p : Plan)
    (index : gmap string string) (rag : string) : gmap string Q :=
  let plan_keywords := _extract_keywords_from_plan p in
  let relevance_scores : gmap string Q :=
    map_fold
      (fun module_name module_content scores =>
         <[ "project_index:" +:+ module_name :=
              _calculate_text_relevance module_content plan_keywords ]> scores)
      ∅ index in
  if negb (is_empty rag)
  then score_rag_chunks 0 (split_sep rag rag_separator) plan_keywords relevance_scores
  else relevance_scores.

(** The status change of [update_session_context]. *)
Definition mark_completed (code : string) (e : session_entry) : session_entry :=
  SessionEntry (se_purpose e) "completed" (se_dependencies e) (Some code).

(** The session dictionary built by [build_generation_context]: one
    assignment per entry of the plan, in order. *)
Definition planned_session (p : Plan) : gmap string session_entry :=
  List.fold_left
    (fun session fi =>
       <[ fi_filename fi :=
            SessionEntry (fi_purpose fi) "planned"
                         (_extract_file_dependencies fi) None ]> session)
    (plan_files p) ∅.

Section ContextManager.

Variable service_manager : ServiceManager.

(** The loop over [existing_files.items()]: later files overwrite
    the symbols of earlier ones. *)
Fixpoint index_existing_files (items : list (string * string))
    (index : gmap string string) : M (gmap string string) :=
  match items with
  | [] => ret index
  | (rel_path, content) :: rest =>
      if endswith rel_path ".py" then
        symbols_in_file ←
          lift (get_symbols_from_content
                  (get_project_indexer_service service_manager)
                  content (module_path_of rel_path));
        index_existing_files rest (symbols_in_file ∪ index)
      else index_existing_files rest index
  end.

(** [ContextManager.build_generation_context] *)
Definition build_generation_context (p : Plan) (rag : string)
    (existing : option (list (string * string))) : M GenerationContext :=
  let project_indexer := get_project_indexer_service service_manager in
  let active_path :=
    match get_project_manager service_manager with
    | Some path => if truthy path then path else None
    | None => None
    end in
  let files := default [] existing in
  initial_project_index ←
    match active_path, files with
    | Some _, _ :: _ => index_existing_files files ∅
    | Some path, [] => lift (build_index project_indexer path)
    | None, _ => ret ∅
    end;
  let living_design_context : gmap string string := ∅ in
  generation_session ← new_session (planned_session p);
  let relevance_scores :=
    _calculate_relevance_scores p initial_project_index rag in
  ret (MkContext p initial_project_index living_design_context []
                 generation_session rag relevance_scores files).

(** [list(d.items())[0]] *)
Definition first_item {A} (items : list A) : M A :=
  match items with
  | x :: _ => ret x
  | [] => raise "list index out of range"
  end.

(** The body of the [try] of [update_session_context]. *)
Definition update_session_context_body (context : GenerationContext)
    (newly_generated_file : list (string * string)) : M GenerationContext :=
  '(filename, code) ← first_item newly_generated_file;
  session ← read_session (generation_session context);
  (match session !! filename with
   | Some entry =>
       write_session (generation_session context)
                     (<[filename := mark_completed code entry]> session)
   | None => ret tt
   end) ;;
  let project_indexer := get_project_indexer_service service_manager in
  let updated_index := project_index context in
  updated_index ←
    (if endswith filename ".py" then
       let module_path := module_path_of filename in
       new_symbols ←
         lift (get_symbols_from_content project_indexer code module_path);
       let updated_index := new_symbols ∪ updated_index in
       tell (Printed ("[ContextManager] Updated symbol index with "
                      +:+ pretty (size new_symbols)
                      +:+ " symbols from new file: " +:+ filename)) ;;
       ret updated_index
     else ret updated_index);
  ret (MkContext (plan context) updated_index
                 (living_design_context context) (dependency_order context)
                 (generation_session context) (rag_context context)
                 (relevance_scores context) (existing_files context)).

(** [ContextManager.update_session_context] *)
Definition update_session_context (context : GenerationContext)
    (newly_generated_file : list (string * string)) : M GenerationContext :=
  try_catch
    (update_session_context_body context newly_generated_file)
    (fun e =>
       key ← first_item (List.map fst newly_generated_file);
       tell (Printed ("Error updating session context for " +:+ key
                      +:+ ": " +:+ e)) ;;
       tell (Traceback e) ;;
       ret context).

End ContextManager.

(* ===================================================================== *)
(** * generation_coordinator.py                                          *)
(* ===================================================================== *)

(** The value stored for an artifact whose strategy produced nothing. *)
Definition failure_placeholder (filename : string) : string :=
  "# ERROR: Failed to generate content for " +:+ filename.

(** [other_generated_files]: a copy of this run's outputs, without the
    entry of the current filename when there is one. *)
Definition other_generated_files_view
    (generated_files_this_session : gmap string string) (filename : string)
  : gmap string string :=
  let other_generated_files := generated_files_this_session in
  if bool_decide (filename ∈ dom other_generated_files)
  then delete filename other_generated_files
  else other_generated_files.

(** [next((f for f in plan['files'] if f['filename'] == filename), None)] *)
Definition find_file_info (p : Plan) (filename : string) : option file_info :=
  List.find (fun f => String.eqb (fi_filename f) filename) (plan_files p).

Section GenerationCoordinator.

Variable hash : string -> Z.
Variable service_manager : ServiceManager.
Variable prompts : Prompts.
Variable dependency_planner : DependencyPlanner.

Let llm_client : LLMClient := get_llm_client service_manager.

(** [GenerationCoordinator.log] *)
Definition log (level message : string) : M unit :=
  tell (Emit "log_message_received" ["GenerationCoordinator"; level; message]).

(** [GenerationCoordinator._build_python_coder_prompt] *)
Definition _build_python_coder_prompt (fi : file_info)
    (context : GenerationContext) (other_generated_files : gmap string string)
  : outcome string :=
  let filename := fi_filename fi in
  let original :=
    List.find (fun kv : string * string => String.eqb (fst kv) filename)
              (existing_files context) in
  let original_code_section :=
    match original with
    | Some (_, original_code) =>
        textwrap_dedent prompts
          (String LF EmptyString
           +:+ "                ---" +:+ String LF EmptyString
           +:+ "                **ORIGINAL CODE OF `" +:+ filename
           +:+ "` (You are modifying this file):**" +:+ String LF EmptyString
           +:+ "                ```python" +:+ String LF EmptyString
           +:+ "                " +:+ original_code +:+ String LF EmptyString
           +:+ "                ```" +:+ String LF EmptyString
           +:+ "            ")
    | None => EmptyString
    end in
  let python_files_this_session :=
    filter (fun kv : string * string => endswith (fst kv) ".py" = true)
           other_generated_files in
  CODER_PROMPT prompts filename (fi_purpose fi) original_code_section
               (plan context) (project_index context)
               python_files_this_session.

(** [_build_gdscript_coder_prompt], [_build_godot_generic_prompt] and
    [_build_simple_file_prompt] *)
Definition _build_gdscript_coder_prompt (fi : file_info)
    (context : GenerationContext) : outcome string :=
  GODOT_GDSCRIPT_CODER_PROMPT prompts (fi_filename fi) (fi_purpose fi)
                              (plan context).

Definition _build_godot_generic_prompt (fi : file_info)
    (context : GenerationContext) : outcome string :=
  GODOT_GENERIC_FILE_PROMPT prompts (fi_filename fi) (fi_purpose fi)
                            (plan context).

Definition _build_simple_file_prompt (fi : file_info)
    (context : GenerationContext) (other_generated_files : gmap string string)
  : outcome string :=
  SIMPLE_FILE_PROMPT prompts (fi_filename fi) (fi_purpose fi) (plan context)
                     other_generated_files.

(** The [async for] over the stream: every chunk is appended and
    published. *)
Fixpoint consume_stream (filename : string) (chunks : list string)
    (file_content : string) : M string :=
  match chunks with
  | [] => ret file_content
  | chunk :: rest =>
      tell (Emit "stream_code_chunk" [filename; chunk]) ;;
      consume_stream filename rest (file_content +:+ chunk)
  end.

(** [GenerationCoordinator._generate_single_file] *)
Definition _generate_single_file (fi : file_info)
    (context : GenerationContext) (other_generated_files : gmap string string)
    (custom_prompts : gmap string string) : M (option string) :=
  let filename := fi_filename fi in
  let purpose := fi_purpose fi in
  let file_extension := PyPath.suffix filename in
  if String.eqb file_extension ".tscn" then
    log "info" ("Programmatically generating placeholder scene for " +:+ filename) ;;
    let node_type := _extract_node_type_from_purpose purpose in
    let script_path := replace filename ".tscn" ".gd" in
    ret (Some (create_tscn_content hash node_type script_path))
  else
    prompt ←
      match custom_prompts !! file_extension with
      | Some prompt_template =>
          log "info" ("Using custom prompt for extension '" +:+ file_extension +:+ "'") ;;
          lift (custom_format prompts prompt_template filename
                              (PyPath.stem filename) purpose (plan context))
      | None =>
          if String.eqb file_extension ".py" then
            lift (_build_python_coder_prompt fi context other_generated_files)
          else if String.eqb file_extension ".gd" then
            lift (_build_gdscript_coder_prompt fi context)
          else if bool_decide (file_extension ∈ [".godot"; ".import"; ".svg"]) then
            lift (_build_godot_generic_prompt fi context)
          else
            lift (_build_simple_file_prompt fi context other_generated_files)
      end;
    if is_empty prompt then
      log "error" ("Could not determine a prompt for " +:+ filename +:+ ". Skipping.") ;;
      ret None
    else
      past ← history;
      tell (ModelResolve "coder") ;;
      '(provider, model) ← lift (get_model_for_role llm_client past "coder");
      match provider, model with
      | Some provider, Some model =>
          if is_empty provider || is_empty model then
            log "error" ("No model for 'coder' role. Cannot generate " +:+ filename +:+ ".") ;;
            ret None
          else
            past ← history;
            tell (ModelStream provider model prompt "coder") ;;
            let '(chunks, failure) := stream_chat llm_client past provider model prompt "coder" in
            file_content ← consume_stream filename chunks EmptyString;
            match failure with
            | None => ret (Some file_content)
            | Some (Exception e) =>
                log "error" ("LLM generation failed for " +:+ filename +:+ ": " +:+ e) ;;
                ret None
            | Some CancelledError => await (Raised CancelledError)
            end
      | _, _ =>
          log "error" ("No model for 'coder' role. Cannot generate " +:+ filename +:+ ".") ;;
          ret None
      end.

(** The state of the [for] loop of [coordinate_generation]. *)
Definition loop_state : Type := GenerationContext * gmap string string.

(** One iteration of the loop, for the pair [(i, filename)] of
    [enumerate(generation_order)]. *)
Definition loop_body (p : Plan) (custom_prompts : option (gmap string string))
    (total_files : nat) (i : nat) (filename : string) (st : loop_state)
  : M loop_state :=
  let '(context, generated_files_this_session) := st in
  tell (Emit "agent_status_changed"
             ["Coder"; "Writing " +:+ filename +:+ "..."; "fa5s.keyboard"]) ;;
  log "info" ("Generating file " +:+ pretty (i + 1)%nat +:+ "/"
                +:+ pretty total_files +:+ ": " +:+ filename) ;;
  match find_file_info p filename with
  | None =>
      log "error" ("Could not find file info for " +:+ filename
                     +:+ " in plan. Skipping.") ;;
      ret (context, generated_files_this_session)
  | Some fi =>
      let other_generated_files :=
        other_generated_files_view generated_files_this_session filename in
      jot (Dispatched filename context other_generated_files) ;;
      generated_content ←
        _generate_single_file fi context other_generated_files
                              (default ∅ custom_prompts);
      st' ←
        match generated_content with
        | Some generated_content =>
            let cleaned_content := robust_clean_llm_output generated_content in
            let generated_files_this_session :=
              <[filename := cleaned_content]> generated_files_this_session in
            jot (Stored filename cleaned_content) ;;
            context ←
              update_session_context service_manager context
                                     [(filename, cleaned_content)];
            ret (context, generated_files_this_session)
        | None =>
            log "error" ("Failed to generate content for " +:+ filename +:+ ".") ;;
            jot (Stored filename (failure_placeholder filename)) ;;
            ret (context,
                 <[filename := failure_placeholder filename]>
                   generated_files_this_session)
        end;
      tell (Emit "coordinated_generation_progress"
                 [filename; pretty (i + 1)%nat; pretty total_files]) ;;
      ret st'
  end.

(** [for i, filename in enumerate(generation_order): ...] *)
Fixpoint generation_loop (p : Plan) (custom_prompts : option (gmap string string))
    (total_files : nat) (i : nat) (generation_order : list string)
    (st : loop_state) : M loop_state :=
  match generation_order with
  | [] => ret st
  | filename :: rest =>
      st' ← loop_body p custom_prompts total_files i filename st;
      generation_loop p custom_prompts total_files (S i) rest st'
  end.

(** The body of the [try] of [coordinate_generation]. *)
Definition coordinate_generation_body (p : Plan) (rag : string)
    (existing : option (list (string * string)))
    (custom_prompts : option (gmap string string)) : M (gmap string string) :=
  log "info" "🚀 Starting unified generation with rolling context..." ;;
  context ← build_generation_context service_manager p rag existing;
  past ← history;
  generation_order ← await (dependency_planner past context);
  let generated_files_this_session : gmap string string := ∅ in
  let total_files := length generation_order in
  '(_, generated_files_this_session) ←
    generation_loop p custom_prompts total_files 0 generation_order
                    (context, generated_files_this_session);
  log "success" ("✅ Unified generation complete: "
                   +:+ pretty (size generated_files_this_session) +:+ "/"
                   +:+ pretty total_files +:+ " files generated.") ;;
  ret generated_files_this_session.

(** [GenerationCoordinator.coordinate_generation] *)
Definition coordinate_generation (p : Plan) (rag : string)
    (existing : option (list (string * string)))
    (custom_prompts : option (gmap string string)) : M (gmap string string) :=
  try_catch
    (coordinate_generation_body p rag existing custom_prompts)
    (fun e =>
       log "error" ("Coordinated generation failed: " +:+ e) ;;
       tell (Traceback e) ;;
       ret ∅).

End GenerationCoordinator.

(* ===================================================================== *)
(** * Concrete collaborators, used to run the pipeline on examples       *)
(* ===================================================================== *)

Module Demo.

(** An indexer that knows one symbol: a text that mentions
    [class User] defines [User] in its module. *)
Definition indexer : ProjectIndexer :=
  MkIndexer
    (fun code module_path =>
       if contains code "class User"
       then Ok ({[ "User" := module_path ]} : gmap string string)
       else Ok ∅)
    (fun _ => Ok ∅).

(** An indexer whose parser rejects every text. *)
Definition failing_indexer : ProjectIndexer :=
  MkIndexer (fun _ _ => Raised "invalid syntax") (fun _ => Ok ∅).

(** A model client that answers every prompt with the same fenced
    block, in three chunks. *)
Definition llm : LLMClient :=
  MkLLM
    (fun _ _ => Ok (Some "provider", Some "model"))
    (fun _ _ _ _ _ =>
       ([fence_open +:+ "python" +:+ String LF EmptyString;
         "class User: pass";
         fence_close], None)).

(** A model client whose stream is cancelled after one chunk. *)
Definition llm_cancelled : LLMClient :=
  MkLLM
    (fun _ _ => Ok (Some "provider", Some "model"))
    (fun _ _ _ _ _ => (["class "], Some CancelledError)).

(** A model client with no model configured for any role. *)
Definition llm_without_model : LLMClient :=
  MkLLM (fun _ _ => Ok (None, None)) (fun _ _ _ _ _ => ([], None)).

Definition services : ServiceManager := MkServices indexer None llm.
Definition services_failing_indexer : ServiceManager :=
  MkServices failing_indexer None llm.
Definition services_without_model : ServiceManager :=
  MkServices indexer None llm_without_model.
Definition services_cancelled : ServiceManager :=
  MkServices indexer None llm_cancelled.

(** Templates that render to the filename they are given. *)
Definition prompts : Prompts :=
  MkPrompts
    (fun filename _ _ _ _ _ => Ok ("code " +:+ filename))
    (fun filename _ _ _ => Ok ("simple " +:+ filename))
    (fun filename _ _ => Ok ("gdscript " +:+ filename))
    (fun filename _ _ => Ok ("generic " +:+ filename))
    (fun _ filename _ _ _ => Ok ("custom " +:+ filename))
    (fun s => s).

(** The same templates, except that the caller's template for [.md]
    names a placeholder that [format] is not given. *)
Definition prompts_bad_custom : Prompts :=
  MkPrompts
    (CODER_PROMPT prompts) (SIMPLE_FILE_PROMPT prompts)
    (GODOT_GDSCRIPT_CODER_PROMPT prompts) (GODOT_GENERIC_FILE_PROMPT prompts)
    (fun _ _ _ _ _ => Raised "KeyError: 'author'")
    (fun s => s).

(** A planner that keeps the order of the plan. *)
Definition planner : DependencyPlanner :=
  fun _ context => Ok (List.map fi_filename (plan_files (plan context))).

(** Two interpreter processes: the built-in [hash] of strings is
    salted per process, so each has its own. *)
Definition hash : string -> Z := fun s => Z.of_nat (String.length s).
Definition hash_of_other_process : string -> Z :=
  fun s => (- 1234567890123 - Z.of_nat (String.length s))%Z.

Definition plan2 : Plan :=
  MkPlan [FileInfo "models.py" "data models";
          FileInfo "service.py" "service using models"] [].

Definition plan_docs : Plan :=
  MkPlan [FileInfo "a.py" "first module"; FileInfo "b.md" "notes"] [].

(** A plan that names the same file twice. *)
Definition plan_twice : Plan :=
  MkPlan [FileInfo "a.py" "first module"; FileInfo "a.py" "second module"] [].

Definition w0 : world := MkWorld ∅ [] [].

(** The context and the world that [build_generation_context] makes
    of [plan_docs] in [w0]. *)
Definition context_docs : GenerationContext :=
  MkContext plan_docs ∅ ∅ [] 1%positive EmptyString ∅ [].

Definition world_docs : world :=
  MkWorld {[ 1%positive := planned_session plan_docs ]} [] [].

(** The same context once the index knows two symbols. *)
Definition context_indexed : GenerationContext :=
  MkContext plan_docs {[ "User" := "legacy"; "Helper" := "util" ]} ∅ []
            1%positive EmptyString ∅ [].

End Demo.

Module DemoRuns.

(** Two artifacts, both generated. *)
Definition run_plan2 : awaited (gmap string string) * world :=
  coordinate_generation_body Demo.hash Demo.services Demo.prompts
    Demo.planner Demo.plan2 EmptyString None None Demo.w0.

Definition generated_plan2 : gmap string string :=
  {[ "models.py" := "class User: pass"; "service.py" := "class User: pass" ]}.

(** Two artifacts; the template supplied for the second one cannot be
    formatted. *)
Definition custom_md : option (gmap string string) :=
  Some {[ ".md" := "{author}" ]}.

Definition run_bad_template : awaited (gmap string string) * world :=
  coordinate_generation_body Demo.hash Demo.services Demo.prompts_bad_custom
    Demo.planner Demo.plan_docs EmptyString None custom_md Demo.w0.

(** Two artifacts and no model for the coder role. *)
Definition run_without_model : awaited (gmap string string) * world :=
  coordinate_generation Demo.hash Demo.services_without_model Demo.prompts
    Demo.planner Demo.plan_docs EmptyString None None Demo.w0.

(** The same file planned twice, both times generated. *)
Definition run_twice : awaited (gmap string string) * world :=
  coordinate_generation_body Demo.hash Demo.services Demo.prompts
    Demo.planner Demo.plan_twice EmptyString None None Demo.w0.

(** Two artifacts; the task is cancelled while the first one is
    streamed. *)
Definition run_cancelled : awaited (gmap string string) * world :=
  coordinate_generation_body Demo.hash Demo.services_cancelled Demo.prompts
    Demo.planner Demo.plan_docs EmptyString None None Demo.w0.

End DemoRuns.

(* ===================================================================== *)
(** * Notions of the specification                                       *)
(* ===================================================================== *)

(** A fenced block as the specification describes it: a delimiter line
    carrying the language tag [tag] (possibly empty), the text [T], and
    a closing delimiter line. *)
Definition fenced (tag T : string) : string :=
  fence_open +:+ tag +:+ String LF EmptyString +:+ T +:+ fence_close.

(** A text that carries a fence line of its own. *)
Definition text_with_fence_line : string :=
  "a" +:+ fence_close +:+ String LF "b".

(** The number of keywords of the set that occur as substrings of the
    lowercased text. *)
Definition keyword_hits (text : string) (keywords : gset string) : nat :=
  size (filter (fun keyword => contains (lower text) keyword = true) keywords).

(** The word count of a text. *)
Definition word_count (text : string) : nat := length (split_ws text).

(** The relevance formula of the specification. *)
Definition relevance_formula (text : string) (keywords : gset string) : Q :=
  (inject_Z (Z.of_nat (keyword_hits text keywords))
   / inject_Z (Z.of_nat (size keywords))
   * Qmin 1 (inject_Z (Z.of_nat (word_count text)) / 100))%Q.

(** The same formula evaluated in floats: each of the two quotients
    and the product is rounded to the nearest double, and the value is
    0 when a quotient is too large for a float. *)
Definition relevance_formula_double (text : string) (keywords : gset string)
  : Q :=
  match PyFloat.int_true_div (keyword_hits text keywords) (size keywords) with
  | Some fraction =>
      match PyFloat.int_true_div (word_count text) 100 with
      | Some ratio => PyFloat.mul fraction (PyFloat.min_one ratio)
      | None => 0%Q
      end
  | None => 0%Q
  end.

(** The context with its project index replaced, every other field
    (the reference to the session record included) kept. *)
Definition with_project_index (context : GenerationContext)
    (index : gmap string string) : GenerationContext :=
  MkContext (plan context) index (living_design_context context)
            (dependency_order context) (generation_session context)
            (rag_context context) (relevance_scores context)
            (existing_files context).

(** The store once the entry of [filename] in the record at [l], if
    there is one, has been marked completed with [code]. *)
Definition store_after_completion (s : gmap loc (gmap string session_entry))
    (l : loc) (filename code : string) : gmap loc (gmap string session_entry) :=
  let session := default ∅ (s !! l) in
  match session !! filename with
  | Some entry => <[l := <[filename := mark_completed code entry]> session]> s
  | None => s
  end.

(** The session entry of [filename] in the record a context refers to. *)
Definition session_entry_of (w : world) (context : GenerationContext)
    (filename : string) : option session_entry :=
  default ∅ (store w !! generation_session context) !! filename.

(** The extension of a world by further events. *)
Definition says (w : world) (events : list event) : world :=
  MkWorld (store w) (trace w ++ events)%list (journal w).

(** A computation that only reads the history and adds events. *)
Definition only_tells {A} (m : M A) : Prop :=
  forall w, exists r events, m w = (r, says w events).

(** The outputs of a run as its journal tells them: every [Stored]
    note is an assignment, later ones overwrite earlier ones. *)
Fixpoint apply_stores (generated : gmap string string) (notes : list note)
  : gmap string string :=
  match notes with
  | [] => generated
  | Stored filename content :: rest =>
      apply_stores (<[filename := content]> generated) rest
  | Dispatched _ _ _ :: rest => apply_stores generated rest
  end.

(** Every strategy invocation of [notes] received the outputs stored
    before it, without the entry of its own filename, and a context
    that refers to the session record at [l]. *)
Fixpoint views_ok (l : loc) (generated : gmap string string)
    (notes : list note) : Prop :=
  match notes with
  | [] => True
  | Dispatched filename context other :: rest =>
      other = delete filename generated
      /\ generation_session context = l
      /\ views_ok l generated rest
  | Stored filename content :: rest =>
      views_ok l (<[filename := content]> generated) rest
  end.

(** What a run stores for an artifact, given what its strategy
    returned: the cleaned text of the content, or the failure
    placeholder when there is none. *)
Definition stored_value (filename : string)
    (generated_content : option string) : string :=
  match generated_content with
  | Some raw => robust_clean_llm_output raw
  | None => failure_placeholder filename
  end.

(** The world in which the strategy of [filename] is invoked by the
    iteration number [i] that starts in [w]: the status and the log
    message of the iteration have been emitted, and the journal notes
    the invocation. *)
Definition dispatch_world (w : world) (total_files i : nat)
    (filename : string) (context : GenerationContext)
    (other_generated_files : gmap string string) : world :=
  MkWorld (store w)
          (trace w ++
           [Emit "agent_status_changed"
                 ["Coder"; "Writing " +:+ filename +:+ "..."; "fa5s.keyboard"];
            Emit "log_message_received"
                 ["GenerationCoordinator"; "info";
                  "Generating file " +:+ pretty (i + 1)%nat +:+ "/"
                    +:+ pretty total_files +:+ ": " +:+ filename]])
          (journal w ++ [Dispatched filename context other_generated_files]).

Section RunNotes.

Variable hash : string -> Z.
Variable service_manager : ServiceManager.
Variable prompts : Prompts.
Variable p : Plan.
Variable custom_prompts : option (gmap string string).

(** The strategy of [filename], invoked on the plan entry of the
    filename, [context] and [other_generated_files] in a world whose
    journal is [j], returned [generated_content]. *)
Definition strategy_returned (j : list note) (filename : string)
    (context : GenerationContext) (other_generated_files : gmap string string)
    (generated_content : option string) : Prop :=
  exists fi w1 w2,
    find_file_info p filename = Some fi
    /\ journal w1 = j
    /\ _generate_single_file hash service_manager prompts fi context
         other_generated_files (default ∅ custom_prompts) w1
       = (Ok generated_content, w2).

(** The notes that a run adds to a journal [j]: for each invocation of
    a strategy that returns, the invocation and then the value stored
    for what the strategy returned; an invocation that raises ends the
    notes. *)
Inductive run_notes (j : list note) : list note -> Prop :=
| run_notes_end : run_notes j []
| run_notes_raised filename context other :
    run_notes j [Dispatched filename context other]
| run_notes_stored filename context other generated_content rest :
    strategy_returned (j ++ [Dispatched filename context other])
                      filename context other generated_content ->
    run_notes
      (j ++ [Dispatched filename context other;
             Stored filename (stored_value filename generated_content)])
      rest ->
    run_notes j
      (Dispatched filename context other
         :: Stored filename (stored_value filename generated_content)
         :: rest).

End RunNotes.

(** The filenames of the plan. *)
Definition planned_filenames (p : Plan) : list string :=
  List.map fi_filename (plan_files p).

(** The first log message of a run. *)
Definition start_message : event :=
  Emit "log_message_received"
       ["GenerationCoordinator"; "info";
        "🚀 Starting unified generation with rolling context..."].

(** The events of the handler of [coordinate_generation]. *)
Definition fatal_events (e : exn) : list event :=
  [Emit "log_message_received"
        ["GenerationCoordinator"; "error";
         "Coordinated generation failed: " +:+ e];
   Traceback e].



(* ===================================================================== *)
(** * context_manager.py: the context filter                             *)
(* ===================================================================== *)

(** [sep.join(parts)] *)
Fixpoint join (sep : string) (parts : list string) : string :=
  match parts with
  | [] => EmptyString
  | [x] => x
  | x :: rest => x +:+ sep +:+ join sep rest
  end.

(** [s[:n]] *)
Fixpoint take_chars (n : nat) (s : string) : string :=
  match n, s with
  | O, _ => EmptyString
  | S _, EmptyString => EmptyString
  | S k, String c s' => String c (take_chars k s')
  end.

(** The words that make a chunk relevant whatever the file. *)
Definition structure_words : list string :=
  ["class"; "function"; "method"; "import"].

(** The test of the loop of [_filter_rag_context]. *)
Definition chunk_is_relevant (filename : string) (chunk : string) : bool :=
  let file_stem := lower (PyPath.stem filename) in
  let chunk_lower := lower chunk in
  contains chunk_lower file_stem
  || contains chunk_lower (lower filename)
  || List.existsb (fun word => contains chunk_lower word) structure_words.

Definition paragraph_break : string := String LF (String LF EmptyString).

(** [ContextManager._filter_rag_context].  Its [except] branch has
    nothing to catch on strings. *)
Definition _filter_rag_context (filename rag_context : string) : string :=
  if is_empty rag_context then EmptyString
  else
    let chunks := split_sep rag_context rag_separator in
    let relevant_chunks :=
      List.map strip (List.filter (chunk_is_relevant filename) chunks) in
    let relevant_chunks :=
      match relevant_chunks, chunks with
      | [], _ :: _ => List.firstn 2 chunks
      | _, _ => relevant_chunks
      end in
    let result := join paragraph_break relevant_chunks in
    if (1000 <? String.length result)%nat
    then take_chars 1000 result +:+ "..."
    else result.

(** The loop of [_should_file_import_from] over the plan: the lowered
    purposes of the two files, each the one of the last entry that
    names the file; an entry that names [current_file] is never read as
    the other file. *)
Definition purposes_of (files : list file_info)
    (current_file other_file : string) : string * string :=
  List.fold_left
    (fun (acc : string * string) fi =>
       if String.eqb (fi_filename fi) current_file
       then (lower (fi_purpose fi), snd acc)
       else if String.eqb (fi_filename fi) other_file
            then (fst acc, lower (fi_purpose fi))
            else acc)
    files (EmptyString, EmptyString).

(** [ContextManager._should_file_import_from] *)
Definition _should_file_import_from (current_file other_file : string)
    (context : GenerationContext) : bool :=
  if String.eqb current_file "main.py" then true
  else
    let '(current_purpose, other_purpose) :=
      purposes_of (plan_files (plan context)) current_file other_file in
    let current_words : gset string := list_to_set (split_ws current_purpose) in
    let other_words : gset string := list_to_set (split_ws other_purpose) in
    if (1 <? size (current_words ∩ other_words))%nat then true
    else if contains (lower current_file) "service"
            && contains (lower other_file) "core"
         then true
         else false.

(** The module names that the loop of [_get_file_dependencies] adds. *)
Definition imported_modules (filename : string) (context : GenerationContext)
  : list string :=
  List.map (fun fi => module_path_of (fi_filename fi))
    (List.filter
       (fun fi =>
          negb (String.eqb (fi_filename fi) filename)
          && endswith (fi_filename fi) ".py"
          && _should_file_import_from filename (fi_filename fi) context)
       (plan_files (plan context))).

(** [ContextManager._get_file_dependencies]; the result is
    [list(set(...))], kept as the set. *)
Definition _get_file_dependencies (filename : string)
    (context : GenerationContext) : M (gset string) :=
  session ← read_session (generation_session context);
  let session_deps : gset string :=
    match session !! filename with
    | Some entry => se_dependencies entry
    | None => ∅
    end in
  ret (session_deps ∪ list_to_set (imported_modules filename context)).

(* ===================================================================== *)
(** * Notions used to state further properties                           *)
(* ===================================================================== *)

(** A text that is empty or starts with a character that is not
    whitespace. *)
Definition starts_clean (s : string) : Prop :=
  match s with
  | EmptyString => True
  | String c _ => is_space c = false
  end.

(** [project_manager and project_manager.active_project_path], as a
    truth value. *)
Definition has_active_project (service_manager : ServiceManager) : bool :=
  match get_project_manager service_manager with
  | Some path => truthy path
  | None => false
  end.

(** The symbols that the indexer finds in one file on disk. *)
Definition symbols_of_file (service_manager : ServiceManager)
    (rel_path content : string) : outcome (gmap string string) :=
  get_symbols_from_content (get_project_indexer_service service_manager)
                           content (module_path_of rel_path).

(** The prompt that [_generate_single_file] builds for a file that is
    not a scene: the caller's template for the extension if there is
    one, else the template of the extension. *)
Definition strategy_prompt (prompts : Prompts) (fi : file_info)
    (context : GenerationContext) (other_generated_files : gmap string string)
    (custom_prompts : gmap string string) : outcome string :=
  let file_extension := PyPath.suffix (fi_filename fi) in
  match custom_prompts !! file_extension with
  | Some prompt_template =>
      custom_format prompts prompt_template (fi_filename fi)
                    (PyPath.stem (fi_filename fi)) (fi_purpose fi)
                    (plan context)
  | None =>
      if String.eqb file_extension ".py" then
        _build_python_coder_prompt prompts fi context other_generated_files
      else if String.eqb file_extension ".gd" then
        _build_gdscript_coder_prompt prompts fi context
      else if bool_decide (file_extension ∈ [".godot"; ".import"; ".svg"]) then
        _build_godot_generic_prompt prompts fi context
      else
        _build_simple_file_prompt prompts fi context other_generated_files
  end.

(** The log message that announces a caller's template. *)
Definition custom_prompt_events (fi : file_info)
    (custom_prompts : gmap string string) : list event :=
  match custom_prompts !! PyPath.suffix (fi_filename fi) with
  | Some _ =>
      [Emit "log_message_received"
            ["GenerationCoordinator"; "info";
             "Using custom prompt for extension '"
               +:+ PyPath.suffix (fi_filename fi) +:+ "'"]]
  | None => []
  end.

(** One [stream_code_chunk] event per chunk. *)
Definition chunk_events (filename : string) (chunks : list string)
  : list event :=
  List.map (fun chunk => Emit "stream_code_chunk" [filename; chunk]) chunks.

(** The concatenation of the chunks. *)
Definition concat_chunks (chunks : list string) : string :=
  List.fold_right String.append EmptyString chunks.

Definition is_model_stream (e : event) : bool :=
  match e with
  | ModelStream _ _ _ _ => true
  | _ => false
  end.

Definition no_model_error (filename : string) : event :=
  Emit "log_message_received"
       ["GenerationCoordinator"; "error";
        "No model for 'coder' role. Cannot generate " +:+ filename +:+ "."].

Definition no_prompt_error (filename : string) : event :=
  Emit "log_message_received"
       ["GenerationCoordinator"; "error";
        "Could not determine a prompt for " +:+ filename +:+ ". Skipping."].

Definition stream_error (filename : string) (e : exn) : event :=
  Emit "log_message_received"
       ["GenerationCoordinator"; "error";
        "LLM generation failed for " +:+ filename +:+ ": " +:+ e].

(** The events that tell that the model client was consulted. *)
Definition is_model_event (e : event) : bool :=
  match e with
  | ModelResolve _ | ModelStream _ _ _ _ => true
  | _ => false
  end.

(** The filenames handed to a strategy, in order. *)
Fixpoint dispatched_filenames (notes : list note) : list string :=
  match notes with
  | [] => []
  | Dispatched filename _ _ :: rest => filename :: dispatched_filenames rest
  | Stored _ _ :: rest => dispatched_filenames rest
  end.

(** The filenames of the planner's order that the plan knows, in the
    planner's order. *)
Definition attempted (p : Plan) (generation_order : list string)
  : list string :=
  List.filter (fun filename => bool_decide (filename ∈ planned_filenames p))
              generation_order.

(** The project indexes handed to strategies only ever gain symbols:
    each has all the symbol names of [index] and of the ones before. *)
Fixpoint indexes_grow (index : gmap string string) (notes : list note) : Prop :=
  match notes with
  | [] => True
  | Dispatched _ context _ :: rest =>
      dom index ⊆ dom (project_index context)
      /\ indexes_grow (project_index context) rest
  | Stored _ _ :: rest => indexes_grow index rest
  end.

(** How session records may change: no record and no key appears or
    disappears, purposes and dependencies stay, and an entry either is
    what it was or is completed and holds content. *)
Definition session_evolves (s s' : gmap loc (gmap string session_entry)) : Prop :=
  dom s' = dom s
  /\ forall l,
       dom (default ∅ (s' !! l)) = dom (default ∅ (s !! l))
       /\ forall f e e',
            default ∅ (s !! l) !! f = Some e ->
            default ∅ (s' !! l) !! f = Some e' ->
            se_purpose e' = se_purpose e
            /\ se_dependencies e' = se_dependencies e
            /\ (e' = e
                \/ (se_status e' = "completed"
                    /\ is_Some (se_generated_code e'))).

Module DemoExtra.

(** A model client whose stream breaks after two chunks. *)
Definition llm_broken_stream : LLMClient :=
  MkLLM
    (fun _ _ => Ok (Some "provider", Some "model"))
    (fun _ _ _ _ _ =>
       (["class "; "User"], Some (Exception "connection reset"))).

Definition services_broken_stream : ServiceManager :=
  MkServices Demo.indexer None llm_broken_stream.

(** An active project whose indexer rejects every text. *)
Definition services_active_failing : ServiceManager :=
  MkServices Demo.failing_indexer (Some (Some "/project")) Demo.llm.

(** An active project with the indexer of [Demo]. *)
Definition services_active : ServiceManager :=
  MkServices Demo.indexer (Some (Some "/project")) Demo.llm.

Definition existing : list (string * string) :=
  [("README.md", "class User in prose");
   ("models.py", "class User: pass");
   ("old/models.py", "class User: legacy")].

Definition plan_main : Plan :=
  MkPlan [FileInfo "main.py" "entry point";
          FileInfo "models.py" "data models";
          FileInfo "README.md" "notes";
          FileInfo "core/bus.py" "event bus"] [].

Definition context_main : GenerationContext :=
  MkContext plan_main ∅ ∅ [] 1%positive EmptyString ∅ [].

Definition world_main : world :=
  MkWorld {[ 1%positive := planned_session plan_main ]} [] [].

(** The context and the world that [build_generation_context] makes
    of [Demo.plan_docs] and the files [existing] in an active
    project. *)
Definition context_existing : GenerationContext :=
  MkContext Demo.plan_docs {[ "User" := "old.models" ]} ∅ [] 1%positive
            EmptyString
            (_calculate_relevance_scores Demo.plan_docs
               {[ "User" := "old.models" ]} EmptyString)
            existing.

(** [Demo.context_docs] once the symbol of [a.py] is known. *)
Definition context_after_a : GenerationContext :=
  with_project_index Demo.context_docs {[ "User" := "a" ]}.

(** The context and the world that a run makes of [Demo.plan2] before
    it asks the planner. *)
Definition context_plan2 : GenerationContext :=
  MkContext Demo.plan2 ∅ ∅ [] 1%positive EmptyString ∅ [].

Definition world_plan2 : world :=
  MkWorld {[ 1%positive := planned_session Demo.plan2 ]} [start_message] [].

End DemoExtra.

(** The session entry that [build_generation_context] makes of one
    entry of the plan. *)
Definition planned_entry (fi : file_info) : session_entry :=
  SessionEntry (fi_purpose fi) "planned" (_extract_file_dependencies fi) None.

(** The last entry of the plan with a given filename. *)
Definition last_file_info (p : Plan) (filename : string) : option file_info :=
  List.find (fun fi => String.eqb (fi_filename fi) filename)
            (List.rev (plan_files p)).

(** A plan written in ASCII: the filenames, the purposes and the
    declared dependencies. *)
Definition plan_is_ascii (p : Plan) : bool :=
  forallb (fun fi => is_ascii (fi_filename fi) && is_ascii (fi_purpose fi))
          (plan_files p)
  && forallb is_ascii (plan_dependencies p).
(* ===================================================================== *)
(** * Properties of the string operations                                *)
(* ===================================================================== *)

Example strip_example :
  strip (" " +:+ String LF "  ab c " +:+ String LF EmptyString) = "ab c".
Proof. reflexivity. Qed.

Example lower_capitalize_example :
  lower "Hello World_2" = "hello world_2" /\ capitalize "pLAYER" = "Player".
Proof. split; reflexivity. Qed.

Example replace_example :
  replace "a.py/b.py" ".py" EmptyString = "a/b"
  /\ replace "levels.tscn" ".tscn" ".gd" = "levels.gd"
  /\ module_path_of "ava/core/models.py" = "ava.core.models".
Proof. repeat split; reflexivity. Qed.

Example split_example :
  split_ws "  data  models " = ["data"; "models"]
  /\ split_sep "a--b----c" "--" = ["a"; "b"; EmptyString; "c"]
  /\ split_sep EmptyString "--" = [EmptyString].
Proof. repeat split; reflexivity. Qed.

Example endswith_example :
  endswith "models.py" ".py" = true /\ endswith "py" ".py" = false
  /\ contains "user service" "ui" = false /\ contains "build ui" "ui" = true.
Proof. repeat split; reflexivity. Qed.

Example path_example :
  PyPath.suffix "scenes/player.tscn" = ".tscn"
  /\ PyPath.stem "scenes/player.gd" = "player"
  /\ PyPath.suffix ".bashrc" = EmptyString
  /\ PyPath.suffix "a.tscn/." = ".tscn"
  /\ PyPath.suffix "a." = EmptyString
  /\ PyPath.stem "a.tar.gz" = "a.tar".
Proof. repeat split; reflexivity. Qed.

Example node_type_example :
  _extract_node_type_from_purpose "Player scene. extends   CharacterBody2D now"
  = "CharacterBody2D"
  /\ _extract_node_type_from_purpose "The root node is Node2D." = "Node2D"
  /\ _extract_node_type_from_purpose "Extends" = "Node".
Proof. repeat split; reflexivity. Qed.

Example dependencies_example :
  _extract_file_dependencies (FileInfo "user_service.py" "async API client")
  = {[ "asyncio"; "ava.core.event_bus"; "requests"; "aiohttp" ]}.
Proof. vm_compute. reflexivity. Qed.

Example keywords_example :
  _extract_keywords_from_plan Demo.plan2
  = {[ "data"; "models"; "service"; "using" ]}.
Proof. vm_compute. reflexivity. Qed.

Section StringFacts.

Lemma app_nil_s (b : string) : EmptyString +:+ b = b.
Proof. reflexivity. Qed.

Lemma app_cons_s (x : ascii) (a b : string) :
  String x a +:+ b = String x (a +:+ b).
Proof. reflexivity. Qed.

Lemma app_assoc_s (a b c : string) : (a +:+ b) +:+ c = a +:+ (b +:+ c).
Proof.
  induction a as [|x a IH]; rewrite ?app_nil_s, ?app_cons_s;
    [reflexivity | now rewrite IH].
Qed.

Lemma eqb_char_refl c : eqb_char c c = true.
Proof. unfold eqb_char. apply N.eqb_refl. Qed.

Lemma startswith_app (p s : string) : startswith (p +:+ s) p = true.
Proof.
  induction p as [|c p IH]; rewrite ?app_nil_s, ?app_cons_s; simpl;
    [now destruct s |].
  now rewrite eqb_char_refl, IH.
Qed.

Lemma contains_unfold (s needle : string) :
  contains s needle
  = startswith s needle
    || match s with
       | EmptyString => false
       | String _ s' => contains s' needle
       end.
Proof. destruct s; reflexivity. Qed.

Lemma contains_app (a b c : string) : contains (a +:+ b +:+ c) b = true.
Proof.
  induction a as [|x a IH]; rewrite ?app_nil_s, ?app_cons_s.
  - rewrite contains_unfold, startswith_app. reflexivity.
  - rewrite contains_unfold, IH. apply orb_true_r.
Qed.

Lemma contains_app_r (a b needle : string) :
  contains b needle = true -> contains (a +:+ b) needle = true.
Proof.
  intros H. induction a as [|x a IH]; rewrite ?app_nil_s, ?app_cons_s;
    [exact H |].
  rewrite contains_unfold, IH. apply orb_true_r.
Qed.

Lemma startswith_app_both (a s p : string) :
  startswith (a +:+ s) (a +:+ p) = startswith s p.
Proof.
  induction a as [|x a IH]; rewrite ?app_nil_s, ?app_cons_s;
    [reflexivity |].
  simpl. now rewrite eqb_char_refl, IH.
Qed.

Lemma app_nonempty (a b : string) :
  is_empty b = false -> is_empty (a +:+ b) = false.
Proof. destruct a; rewrite ?app_nil_s, ?app_cons_s; simpl; auto. Qed.

(** Text that ends in something [rstrip] leaves alone is left alone. *)
Lemma rstrip_app_fixed (a b : string) :
  is_empty b = false -> rstrip b = b -> rstrip (a +:+ b) = a +:+ b.
Proof.
  intros Hne Hb.
  induction a as [|x a IH]; rewrite ?app_nil_s, ?app_cons_s; [exact Hb |].
  simpl. rewrite IH, (app_nonempty a b Hne), andb_false_r. reflexivity.
Qed.

Lemma span_word_tag (tag rest : string) :
  all_chars is_word tag = true ->
  span is_word (tag +:+ String LF rest) = (tag, String LF rest).
Proof.
  induction tag as [|c tag IH]; rewrite ?app_nil_s, ?app_cons_s; simpl;
    intros H.
  - reflexivity.
  - apply andb_true_iff in H as [Hc Ht]. rewrite Hc, (IH Ht). reflexivity.
Qed.

Lemma drop_app_length (p s : string) : drop (String.length p) (p +:+ s) = s.
Proof.
  induction p as [|c p IH]; rewrite ?app_nil_s, ?app_cons_s; simpl;
    [now destruct s | exact IH].
Qed.

(** The closing fence cannot straddle the end of the text: if the
    text followed by the fence starts with a fence, then the text is
    empty or starts with a fence itself. *)
Lemma fence_no_overlap (T : string) :
  startswith (T +:+ fence_close) fence_close = true ->
  T = EmptyString \/ startswith T fence_close = true.
Proof.
  unfold fence_close.
  destruct T as [|a [|b [|c [|d T]]]];
    rewrite ?app_nil_s, ?app_cons_s; simpl; intros H.
  - now left.
  - exfalso. revert H.
    destruct (eqb_char LF a); simpl; discriminate.
  - exfalso. revert H.
    destruct (eqb_char LF a), (eqb_char BQ b); simpl; discriminate.
  - exfalso. revert H.
    destruct (eqb_char LF a), (eqb_char BQ b), (eqb_char BQ c); simpl;
      discriminate.
  - right. revert H.
    destruct (eqb_char LF a), (eqb_char BQ b), (eqb_char BQ c),
      (eqb_char BQ d); simpl; intros H; try discriminate.
    now destruct T.
Qed.

Lemma lazy_body_fence (T : string) :
  contains T fence_close = false ->
  lazy_body (T +:+ fence_close) = Some T.
Proof.
  induction T as [|c T IH]; intros H.
  - reflexivity.
  - rewrite contains_unfold in H. apply orb_false_iff in H as [Hs Hc].
    rewrite app_cons_s. cbn [lazy_body].
    destruct (startswith (String c (T +:+ fence_close)) fence_close) eqn:E.
    + rewrite <- app_cons_s in E.
      apply fence_no_overlap in E as [E|E]; [discriminate | congruence].
    + now rewrite (IH Hc).
Qed.

(** Wrapping and then searching finds the wrapped text. *)
Lemma code_block_search_fenced (tag T : string) :
  all_chars is_word tag = true ->
  contains T fence_close = false ->
  code_block_search (fenced tag T) = Some T.
Proof.
  intros Htag HT.
  assert (Hat : code_block_at (fenced tag T) = Some T).
  { unfold code_block_at, fenced.
    rewrite startswith_app.
    change 3%nat with (String.length fence_open).
    rewrite drop_app_length, app_cons_s, app_nil_s.
    rewrite (span_word_tag _ _ Htag).
    rewrite eqb_char_refl. now apply lazy_body_fence. }
  destruct (fenced tag T) eqn:E; cbn [code_block_search]; now rewrite Hat.
Qed.

Lemma strip_fenced (tag T : string) : strip (fenced tag T) = fenced tag T.
Proof.
  unfold strip, fenced.
  assert (Hl : forall X, lstrip (fence_open +:+ X) = fence_open +:+ X)
    by reflexivity.
  rewrite Hl.
  assert (Hfc : is_empty fence_close = false) by reflexivity.
  repeat (apply rstrip_app_fixed; [repeat apply app_nonempty; exact Hfc |]).
  reflexivity.
Qed.

End StringFacts.
(* ===================================================================== *)
(** * Output cleaning                                                    *)
(* ===================================================================== *)

Example clean_keeps_unfenced :
  robust_clean_llm_output (String LF "  x = 1  ") = "x = 1".
Proof. reflexivity. Qed.

Example clean_fenced_non_word_tag :
  robust_clean_llm_output (fenced "c++" "int x;") = fenced "c++" "int x;".
Proof. reflexivity. Qed.

(** C4, as stated, fails: wrapping a text that contains a line starting
    with three backquotes and cleaning it returns only the part before
    that line, not the trimmed text. *)
Lemma clean_fenced_counterexample :
  strip text_with_fence_line = text_with_fence_line
  /\ robust_clean_llm_output (fenced "python" text_with_fence_line) = "a"
  /\ robust_clean_llm_output (fenced "python" text_with_fence_line)
     <> strip text_with_fence_line.
Proof. repeat split; vm_compute; discriminate. Qed.

(** C4 (amended): for every text [T] that contains no line feed followed
    by three backquotes, and every language tag made of letters, digits
    and underscores (the empty tag included), cleaning the fenced [T]
    returns [T] trimmed; hence the result is the same for any two such
    tags. *)
Theorem clean_fenced_roundtrip (tag tag' T : string) :
  all_chars is_word tag = true ->
  all_chars is_word tag' = true ->
  contains T fence_close = false ->
  robust_clean_llm_output (fenced tag T) = strip T
  /\ robust_clean_llm_output (fenced tag T)
     = robust_clean_llm_output (fenced tag' T).
Proof.
  intros Htag Htag' HT.
  assert (H : forall t, all_chars is_word t = true ->
                        robust_clean_llm_output (fenced t T) = strip T).
  { intros t Ht. unfold robust_clean_llm_output.
    rewrite strip_fenced, (code_block_search_fenced t T Ht HT). reflexivity. }
  split; [now apply H | now rewrite !H].
Qed.

Lemma clean_fenced_roundtrip_witness :
  all_chars is_word "python" = true
  /\ all_chars is_word EmptyString = true
  /\ contains ("  x = `1` " +:+ String LF EmptyString) fence_close = false
  /\ robust_clean_llm_output
       (fenced "python" ("  x = `1` " +:+ String LF EmptyString))
     = "x = `1`"
  /\ robust_clean_llm_output
       (fenced "python" ("  x = `1` " +:+ String LF EmptyString))
     = robust_clean_llm_output
         (fenced EmptyString ("  x = `1` " +:+ String LF EmptyString)).
Proof.
  split; [reflexivity |]. split; [reflexivity |]. split; [reflexivity |].
  apply (clean_fenced_roundtrip "python" EmptyString
           ("  x = `1` " +:+ String LF EmptyString));
    reflexivity.
Defined.

(* ===================================================================== *)
(** * Relevance score                                                    *)
(* ===================================================================== *)

Section Relevance.

Lemma filter_bool_length {A} (f : A -> bool) (l : list A) :
  length (List.filter f l) = length (filter (fun x => f x = true) l).
Proof.
  induction l as [|x l IH]; [reflexivity |].
  cbn [List.filter]. rewrite filter_cons.
  destruct (f x) eqn:E.
  - rewrite decide_True by reflexivity. simpl. now rewrite IH.
  - rewrite decide_False by discriminate. exact IH.
Qed.

(** Counting while iterating over the set counts the keywords that
    occur in the text. *)
Lemma hits_as_iteration (text : string) (keywords : gset string) :
  length (List.filter (fun keyword => contains (lower text) keyword)
                      (elements keywords))
  = keyword_hits text keywords.
Proof.
  unfold keyword_hits. rewrite filter_bool_length.
  unfold filter at 2, set_filter.
  rewrite size_list_to_set; [reflexivity |].
  apply NoDup_filter, NoDup_elements.
Qed.

Lemma hits_le_size (text : string) (keywords : gset string) :
  (keyword_hits text keywords <= size keywords)%nat.
Proof.
  rewrite <- hits_as_iteration, filter_bool_length.
  unfold size, set_size. simpl. apply length_filter.
Qed.

End Relevance.

Section FloatFacts.

Local Open Scope Z_scope.

Lemma round_half_even_error (n d : Z) :
  0 <= n -> 0 < d ->
  - d <= 2 * (PyFloat.round_half_even n d * d - n) <= d.
Proof.
  intros Hn Hd. unfold PyFloat.round_half_even.
  pose proof (Z.div_mod n d ltac:(lia)) as Hdm.
  pose proof (Z.mod_pos_bound n d Hd) as Hm.
  destruct (Z.compare_spec (2 * (n mod d)) d);
    [destruct (Z.even (n / d)) |..]; nia.
Qed.

Lemma round_half_even_le (n d N : Z) :
  0 <= n -> 0 < d -> n <= N * d -> PyFloat.round_half_even n d <= N.
Proof.
  intros Hn Hd HN. unfold PyFloat.round_half_even.
  pose proof (Z.div_mod n d ltac:(lia)) as Hdm.
  pose proof (Z.mod_pos_bound n d Hd) as Hm.
  assert (Hq : n / d <= N) by (apply Z.div_le_upper_bound; lia).
  destruct (Z.compare_spec (2 * (n mod d)) d);
    [destruct (Z.even (n / d)) |..]; nia.
Qed.

Lemma round_half_even_ge (n d N : Z) :
  0 <= n -> 0 < d -> N * d <= n -> N <= PyFloat.round_half_even n d.
Proof.
  intros Hn Hd HN. unfold PyFloat.round_half_even.
  assert (Hq : N <= n / d) by (apply Z.div_le_lower_bound; lia).
  destruct (Z.compare_spec (2 * (n mod d)) d);
    [destruct (Z.even (n / d)) |..]; lia.
Qed.

Lemma round_half_even_nonneg (n d : Z) :
  0 <= n -> 0 < d -> 0 <= PyFloat.round_half_even n d.
Proof. intros Hn Hd. apply round_half_even_ge; lia. Qed.

Lemma floor_log2_le_0 (a b : positive) :
  Z.pos a <= Z.pos b -> PyFloat.floor_log2 a b <= 0.
Proof.
  intros Hab. unfold PyFloat.floor_log2. cbv zeta.
  pose proof (Z.log2_le_mono _ _ Hab).
  destruct (if 0 <=? _ then _ else _); lia.
Qed.

Lemma floor_log2_ge_0 (a b : positive) :
  Z.pos b <= Z.pos a -> 0 <= PyFloat.floor_log2 a b.
Proof.
  intros Hab. unfold PyFloat.floor_log2. cbv zeta.
  pose proof (Z.log2_le_mono _ _ Hab) as Hlog.
  set (e := Z.log2 (Z.pos a) - Z.log2 (Z.pos b)) in *.
  destruct (0 <=? e) eqn:E; [| lia].
  destruct (Z.pos a <? Z.pos b * 2 ^ e) eqn:Hlt; [| lia].
  apply Z.ltb_lt in Hlt.
  destruct (Z.eq_dec e 0) as [He|He]; [| lia].
  rewrite He in Hlt. simpl in Hlt. lia.
Qed.

(** For a non-negative exponent, [2 ^ floor_log2 a b <= a / b]. *)
Lemma floor_log2_lower (a b : positive) :
  0 <= PyFloat.floor_log2 a b ->
  Z.pos b * 2 ^ PyFloat.floor_log2 a b <= Z.pos a.
Proof.
  unfold PyFloat.floor_log2. cbv zeta.
  set (e := Z.log2 (Z.pos a) - Z.log2 (Z.pos b)).
  destruct (0 <=? e) eqn:E.
  - destruct (Z.pos a <? Z.pos b * 2 ^ e) eqn:Hlt.
    + intros He.
      pose proof (Z.log2_spec (Z.pos a) ltac:(lia)) as [Ha _].
      pose proof (Z.log2_spec (Z.pos b) ltac:(lia)) as [_ Hb].
      pose proof (Z.log2_nonneg (Z.pos b)) as Hlb.
      assert (Hpow : 2 ^ Z.log2 (Z.pos a)
                     = 2 ^ (e - 1) * 2 ^ Z.succ (Z.log2 (Z.pos b))).
      { rewrite <- Z.pow_add_r by lia. f_equal. lia. }
      assert (0 < 2 ^ (e - 1)) by (apply Z.pow_pos_nonneg; lia).
      nia.
    + intros _. apply Z.ltb_ge in Hlt. lia.
  - destruct (Z.pos a * 2 ^ (- e) <? Z.pos b); apply Z.leb_gt in E; lia.
Qed.

Lemma ulp_exponent_small (a b : positive) :
  Z.pos a <= Z.pos b -> -1074 <= PyFloat.ulp_exponent a b <= -52.
Proof.
  intros Hab. unfold PyFloat.ulp_exponent.
  pose proof (floor_log2_le_0 a b Hab). lia.
Qed.

Local Open Scope Q_scope.

(** Rounding a rational of (0, 1]: the result exists, stays in [0, 1]
    and is within [2 ^ -53] of the rational. *)
Lemma round_positive_unit (a b : positive) :
  (Z.pos a <= Z.pos b)%Z ->
  exists z,
    PyFloat.round_positive a b = Some z
    /\ 0 <= z <= 1
    /\ - (1 # 2 ^ 53) <= z - (Z.pos a # b) <= 1 # 2 ^ 53.
Proof.
  intros Hab. unfold PyFloat.round_positive. cbv zeta.
  pose proof (ulp_exponent_small a b Hab) as Hk.
  set (k := PyFloat.ulp_exponent a b) in *.
  destruct (0 <=? k)%Z eqn:E; [apply Z.leb_le in E; lia |]. clear E.
  set (N := (2 ^ (- k))%Z).
  assert (HN : (2 ^ 52 <= N)%Z) by (apply Z.pow_le_mono_r; lia).
  set (m := PyFloat.round_half_even (Z.pos a * N) (Z.pos b)).
  assert (Hm0 : (0 <= m)%Z) by (apply round_half_even_nonneg; lia).
  assert (HmN : (m <= N)%Z) by (apply round_half_even_le; nia).
  pose proof (round_half_even_error (Z.pos a * N) (Z.pos b)
                ltac:(nia) ltac:(lia)) as Herr.
  fold m in Herr.
  destruct (2 ^ 1024 * N <=? m)%Z eqn:E; [apply Z.leb_le in E; nia |].
  eexists. split; [reflexivity |].
  assert (HP : Z.pos (Z.to_pos N) = N) by (apply Z2Pos.id; lia).
  unfold Qle, Qminus, Qplus, Qopp. cbn [Qnum Qden].
  rewrite ?Pos2Z.inj_mul, ?HP.
  change (Z.pos (2 ^ 53)) with (2 ^ 53)%Z.
  repeat split; nia.
Qed.

(** Rounding a rational that is at least 1 gives at least 1. *)
Lemma round_positive_above (a b : positive) (z : Q) :
  (Z.pos b <= Z.pos a)%Z ->
  PyFloat.round_positive a b = Some z -> 1 <= z.
Proof.
  intros Hab. unfold PyFloat.round_positive, PyFloat.ulp_exponent. cbv zeta.
  pose proof (floor_log2_ge_0 a b Hab) as He.
  pose proof (floor_log2_lower a b He) as Hlow.
  set (e := PyFloat.floor_log2 a b) in *.
  rewrite Z.max_l by lia.
  destruct (0 <=? e - 52)%Z eqn:E.
  - apply Z.leb_le in E.
    set (m := PyFloat.round_half_even (Z.pos a) (Z.pos b * 2 ^ (e - 52))).
    destruct (2 ^ 1024 <=? m * 2 ^ (e - 52))%Z; [discriminate |].
    intros [= <-].
    assert (Hpow : (0 < 2 ^ (e - 52))%Z) by (apply Z.pow_pos_nonneg; lia).
    assert (Hsplit : (2 ^ e = 2 ^ 52 * 2 ^ (e - 52))%Z).
    { rewrite <- Z.pow_add_r by lia. f_equal. lia. }
    assert (Hm : (1 <= m)%Z) by (apply round_half_even_ge; nia).
    unfold Qle, inject_Z. cbn [Qnum Qden]. nia.
  - apply Z.leb_gt in E.
    set (N := (2 ^ (- (e - 52)))%Z).
    assert (HN : (0 < N)%Z) by (apply Z.pow_pos_nonneg; lia).
    set (m := PyFloat.round_half_even (Z.pos a * N) (Z.pos b)).
    destruct (2 ^ 1024 * N <=? m)%Z; [discriminate |].
    intros [= <-].
    assert (Hm : (N <= m)%Z) by (apply round_half_even_ge; nia).
    assert (HP : Z.pos (Z.to_pos N) = N) by (apply Z2Pos.id; lia).
    unfold Qle. cbn [Qnum Qden]. rewrite HP. lia.
Qed.

Lemma round_double_unit (q : Q) :
  0 <= q <= 1 ->
  exists z,
    PyFloat.round_double q = Some z
    /\ 0 <= z <= 1
    /\ - (1 # 2 ^ 53) <= z - q <= 1 # 2 ^ 53.
Proof.
  destruct q as [n d]. unfold Qle at 1 2. cbn [Qnum Qden]. intros [H0 H1].
  unfold PyFloat.round_double. cbn [Qnum Qden].
  destruct n as [|a|a]; [| | lia].
  - exists 0. split; [reflexivity |]. repeat split; discriminate.
  - apply round_positive_unit. lia.
Qed.

Lemma round_double_above (q z : Q) :
  1 <= q -> PyFloat.round_double q = Some z -> 1 <= z.
Proof.
  destruct q as [n d]. unfold Qle at 1. cbn [Qnum Qden]. intros H1.
  unfold PyFloat.round_double. cbn [Qnum Qden].
  destruct n as [|a|a]; [lia | | lia].
  apply round_positive_above. lia.
Qed.

Lemma int_true_div_unit (m k : nat) :
  (m <= k)%nat -> k <> 0%nat ->
  exists z,
    PyFloat.int_true_div m k = Some z
    /\ 0 <= z <= 1
    /\ - (1 # 2 ^ 53) <= z - (Z.of_nat m # Pos.of_nat k) <= 1 # 2 ^ 53.
Proof.
  intros Hle Hk. apply round_double_unit.
  unfold Qle. cbn [Qnum Qden]. lia.
Qed.

Lemma mul_unit (x y : Q) :
  0 <= x <= 1 -> 0 <= y <= 1 ->
  0 <= PyFloat.mul x y <= 1
  /\ - (1 # 2 ^ 53) <= PyFloat.mul x y - x * y <= 1 # 2 ^ 53.
Proof.
  intros Hx Hy. unfold PyFloat.mul.
  assert (Hxy : 0 <= x * y <= 1) by nra.
  destruct (round_double_unit _ Hxy) as (z & -> & Hz & Herr). cbn. auto.
Qed.

Lemma min_one_unit (y : Q) : 0 <= y -> 0 <= PyFloat.min_one y <= 1.
Proof.
  intros Hy. unfold PyFloat.min_one. split.
  - apply Q.min_glb; [discriminate | exact Hy].
  - apply Q.le_min_l.
Qed.

End FloatFacts.

Section RelevanceFacts.

Local Open Scope Q_scope.

Lemma fraction_as_quotient (m k : nat) :
  k <> 0%nat ->
  Z.of_nat m # Pos.of_nat k == inject_Z (Z.of_nat m) / inject_Z (Z.of_nat k).
Proof.
  intros Hk. rewrite Qmake_Qdiv.
  replace (Z.pos (Pos.of_nat k)) with (Z.of_nat k) by lia. reflexivity.
Qed.

(** The score is the formula evaluated in floats. *)
Lemma text_relevance_as_formula (text : string) (keywords : gset string) :
  _calculate_text_relevance text keywords
  = if is_empty text || bool_decide (keywords = ∅) then 0
    else relevance_formula_double text keywords.
Proof.
  unfold _calculate_text_relevance, relevance_formula_double, word_count.
  destruct (is_empty text || bool_decide (keywords = ∅)) eqn:E;
    [reflexivity |].
  apply orb_false_iff in E as [_ Hk]. apply bool_decide_eq_false in Hk.
  assert (Hsize : size keywords <> 0%nat).
  { intros H. apply Hk. now apply size_empty_iff, leibniz_equiv in H. }
  rewrite hits_as_iteration.
  destruct (length (split_ws text)) as [|n] eqn:Ewords.
  - cbn [Nat.eqb orb].
    destruct (int_true_div_unit _ _ (hits_le_size text keywords) Hsize)
      as (z & -> & _).
    change (PyFloat.int_true_div 0 100) with (Some 0).
    unfold PyFloat.mul, PyFloat.round_double, PyFloat.min_one.
    change (Qmin 1 0) with 0. cbn [Qnum Qmult]. now rewrite Z.mul_0_r.
  - replace ((S n =? 0)%nat || (size keywords =? 0)%nat) with false
      by (symmetry; apply orb_false_iff; split;
          [reflexivity | now apply Nat.eqb_neq]).
    reflexivity.
Qed.

(** The float formula stays in [0, 1]. *)
Lemma relevance_formula_double_unit (text : string) (keywords : gset string) :
  keywords <> ∅ -> 0 <= relevance_formula_double text keywords <= 1.
Proof.
  intros Hk. unfold relevance_formula_double.
  assert (Hsize : size keywords <> 0%nat).
  { intros H. apply Hk. now apply size_empty_iff, leibniz_equiv in H. }
  destruct (int_true_div_unit _ _ (hits_le_size text keywords) Hsize)
    as (x & -> & Hx & _).
  destruct (PyFloat.int_true_div (word_count text) 100) as [y|] eqn:Ey;
    [| split; discriminate].
  assert (Hy : 0 <= y).
  { destruct (le_lt_dec (word_count text) 100) as [Hle|Hgt].
    - destruct (int_true_div_unit (word_count text) 100 Hle ltac:(lia))
        as (y' & Ey' & Hy' & _).
      rewrite Ey in Ey'. injection Ey' as <-. apply Hy'.
    - apply Qle_trans with 1; [discriminate |].
      apply (round_double_above (Z.of_nat (word_count text) # 100));
        [unfold Qle; cbn [Qnum Qden]; lia | exact Ey]. }
  apply mul_unit; [exact Hx | apply min_one_unit, Hy].
Qed.

Lemma text_relevance_unit (text : string) (keywords : gset string) :
  0 <= _calculate_text_relevance text keywords <= 1.
Proof.
  rewrite text_relevance_as_formula.
  destruct (is_empty text || bool_decide (keywords = ∅)) eqn:E;
    [split; discriminate |].
  apply orb_false_iff in E as [_ Hk]. apply bool_decide_eq_false in Hk.
  now apply relevance_formula_double_unit.
Qed.

(** A quotient of integers below [2 ^ j], [j < 1024], is not too large
    for a float. *)
Lemma round_positive_finite (a b : positive) (j : Z) :
  (0 <= j < 1024)%Z -> (Z.pos a <= Z.pos b * 2 ^ j)%Z ->
  PyFloat.round_positive a b <> None.
Proof.
  intros Hj Hab.
  assert (Hfl : (PyFloat.floor_log2 a b <= j)%Z).
  { unfold PyFloat.floor_log2. cbv zeta.
    pose proof (Z.log2_le_mono _ _ Hab) as Hlog.
    rewrite Z.log2_mul_pow2 in Hlog by lia.
    destruct (if (0 <=? _)%Z then _ else _); lia. }
  unfold PyFloat.round_positive. cbv zeta.
  assert (Hk : (PyFloat.ulp_exponent a b <= j - 52)%Z)
    by (unfold PyFloat.ulp_exponent; lia).
  set (k := PyFloat.ulp_exponent a b) in *.
  assert (H2j : (2 ^ j < 2 ^ 1024)%Z) by (apply Z.pow_lt_mono_r; lia).
  destruct (0 <=? k)%Z eqn:E.
  - apply Z.leb_le in E.
    assert (Hpk : (0 < 2 ^ k)%Z) by (apply Z.pow_pos_nonneg; lia).
    assert (Hsplit : (2 ^ j = 2 ^ (j - k) * 2 ^ k)%Z).
    { rewrite <- Z.pow_add_r by lia. f_equal. lia. }
    assert (Hm : (PyFloat.round_half_even (Z.pos a) (Z.pos b * 2 ^ k)
                  <= 2 ^ (j - k))%Z)
      by (apply round_half_even_le; nia).
    destruct (2 ^ 1024 <=? _)%Z eqn:E2; [| discriminate].
    apply Z.leb_le in E2. nia.
  - apply Z.leb_gt in E.
    set (N := (2 ^ (- k))%Z).
    assert (HN : (0 < N)%Z) by (apply Z.pow_pos_nonneg; lia).
    assert (Hpj : (0 < 2 ^ j)%Z) by (apply Z.pow_pos_nonneg; lia).
    assert (Hm : (PyFloat.round_half_even (Z.pos a * N) (Z.pos b)
                  <= 2 ^ j * N)%Z)
      by (apply round_half_even_le; nia).
    destruct (2 ^ 1024 * N <=? _)%Z eqn:E2; [| discriminate].
    apply Z.leb_le in E2. nia.
Qed.

Lemma word_ratio_finite (words : nat) :
  (Z.of_nat words < 2 ^ 1024)%Z -> PyFloat.int_true_div words 100 <> None.
Proof.
  intros Hw. unfold PyFloat.int_true_div, PyFloat.round_double.
  cbn [Qnum Qden].
  destruct (Z.of_nat words) as [|a|a] eqn:E; [discriminate | | lia].
  apply (round_positive_finite a 100 1018); [lia |].
  change (2 ^ 1024)%Z with (64 * 2 ^ 1018)%Z in Hw.
  change (Z.pos (Pos.of_nat 100)) with 100%Z.
  assert (0 < 2 ^ 1018)%Z by (apply Z.pow_pos_nonneg; lia). lia.
Qed.

(** The distance between the score and the exact value of the
    formula. *)
Lemma text_relevance_error (text : string) (keywords : gset string) :
  PyFloat.int_true_div (word_count text) 100 <> None ->
  Qabs (_calculate_text_relevance text keywords
        - relevance_formula text keywords) <= 3 # 2 ^ 53.
Proof.
  intros Hfinite. rewrite text_relevance_as_formula.
  unfold relevance_formula.
  set (hits := keyword_hits text keywords).
  set (words := word_count text) in *.
  destruct (is_empty text || bool_decide (keywords = ∅)) eqn:E.
  - assert (Hzero : inject_Z (Z.of_nat hits) / inject_Z (Z.of_nat (size keywords))
                    * Qmin 1 (inject_Z (Z.of_nat words) / 100) == 0).
    { apply orb_true_iff in E as [Ht | Hk].
      - destruct text; [| discriminate]. subst words.
        change (word_count EmptyString) with 0%nat.
        assert (Hmin : Qmin 1 (inject_Z (Z.of_nat 0) / 100) == 0)
          by (vm_compute; reflexivity).
        rewrite Hmin. ring.
      - apply bool_decide_eq_true in Hk. subst keywords.
        rewrite size_empty.
        assert (Hdiv : inject_Z (Z.of_nat hits) / inject_Z (Z.of_nat 0) == 0)
          by (unfold Qdiv; change (/ inject_Z (Z.of_nat 0)) with 0; ring).
        rewrite Hdiv. ring. }
    rewrite Hzero. discriminate.
  - apply orb_false_iff in E as [_ Hk]. apply bool_decide_eq_false in Hk.
    assert (Hsize : size keywords <> 0%nat).
    { intros H. apply Hk. now apply size_empty_iff, leibniz_equiv in H. }
    unfold relevance_formula_double. fold hits words.
    destruct (int_true_div_unit hits (size keywords)
                (hits_le_size text keywords) Hsize)
      as (x' & -> & Hx' & Hxe).
    destruct (PyFloat.int_true_div words 100) as [y'|] eqn:Ey;
      [| contradiction].
    rewrite <- (fraction_as_quotient hits _ Hsize).
    rewrite <- (Qmake_Qdiv (Z.of_nat words) 100).
    set (x := Z.of_nat hits # Pos.of_nat (size keywords)) in *.
    set (y := Z.of_nat words # 100) in *.
    assert (Hx : 0 <= x <= 1).
    { pose proof (hits_le_size text keywords). fold hits in H.
      subst x. unfold Qle. cbn [Qnum Qden]. lia. }
    assert (Hweight : 0 <= PyFloat.min_one y' <= 1
                      /\ - (1 # 2 ^ 53) <= PyFloat.min_one y' - Qmin 1 y
                         <= 1 # 2 ^ 53).
    { unfold PyFloat.min_one.
      destruct (le_lt_dec words 100) as [Hle|Hgt].
      - destruct (int_true_div_unit words 100 Hle ltac:(lia))
          as (y'' & Ey' & Hy' & Hye).
        rewrite Ey in Ey'. injection Ey' as <-.
        change (Z.of_nat words # Pos.of_nat 100) with y in Hye.
        assert (Hy1 : y <= 1) by (subst y; unfold Qle; cbn [Qnum Qden]; lia).
        rewrite (Q.min_r 1 y') by apply Hy'.
        rewrite (Q.min_r 1 y) by exact Hy1. auto.
      - assert (Hy1 : 1 <= y) by (subst y; unfold Qle; cbn [Qnum Qden]; lia).
        pose proof (round_double_above y y' Hy1 Ey) as Hy'.
        rewrite (Q.min_l 1 y') by exact Hy'.
        rewrite (Q.min_l 1 y) by exact Hy1.
        repeat split; discriminate. }
    destruct Hweight as [Hw Hwe].
    destruct (mul_unit x' (PyFloat.min_one y') Hx' Hw) as [_ Hme].
    set (w' := PyFloat.min_one y') in *. set (w0 := Qmin 1 y) in *.
    set (s := PyFloat.mul x' w') in *.
    apply Qabs_Qle_condition.
    change (3 # 2 ^ 53) with (3 * (1 # 2 ^ 53)).
    set (delta := 1 # 2 ^ 53) in *.
    assert (Hdelta : 0 <= delta) by discriminate.
    assert (Hw0 : 0 <= w0 <= 1).
    { subst w0. split; [apply Q.min_glb; [discriminate |] | apply Q.le_min_l].
      subst y. unfold Qle. cbn [Qnum Qden]. lia. }
    split; nra.
Qed.

End RelevanceFacts.

(** C9, as stated, fails: for two words and two keywords found out of
    three the formula gives 1/75, and the score, which is computed in
    floats, is the double 0.013333333333333332. *)
Lemma text_relevance_counterexample :
  (relevance_formula "aa bb" {[ "aa"; "bb"; "cc" ]} == 1 # 75)%Q
  /\ (_calculate_text_relevance "aa bb" {[ "aa"; "bb"; "cc" ]}
      == 3843071682022823 # 288230376151711744)%Q
  /\ ~ (_calculate_text_relevance "aa bb" {[ "aa"; "bb"; "cc" ]}
        == relevance_formula "aa bb" {[ "aa"; "bb"; "cc" ]})%Q.
Proof.
  split; [vm_compute; reflexivity |]. split; [vm_compute; reflexivity |].
  intros H. vm_compute in H. discriminate H.
Qed.

(** C9 (amended): the relevance score is the formula (keywords found
    in the lowercased text / size of the keyword set) * min(1, word
    count / 100) evaluated in floats, each of the two quotients and the
    product being rounded to the nearest double; it is 0 when the text
    or the keyword set is empty; it always lies in [0, 1]; and for a
    text of fewer than 2 ^ 1024 words it is within 3 * 2 ^ -53 of the
    exact value of the formula. *)
Theorem text_relevance_formula (text : string) (keywords : gset string) :
  _calculate_text_relevance text keywords
  = (if is_empty text || bool_decide (keywords = ∅) then 0%Q
     else relevance_formula_double text keywords)
  /\ (0 <= _calculate_text_relevance text keywords <= 1)%Q
  /\ ((2 ^ 1024 <= Z.of_nat (word_count text))%Z
      \/ (Qabs (_calculate_text_relevance text keywords
                - relevance_formula text keywords) <= 3 # 2 ^ 53)%Q).
Proof.
  split; [apply text_relevance_as_formula |].
  split; [apply text_relevance_unit |].
  destruct (Z_lt_le_dec (Z.of_nat (word_count text)) (2 ^ 1024)) as [Hlt|Hge];
    [right | now left].
  apply text_relevance_error, word_ratio_finite, Hlt.
Qed.

Example relevance_example :
  (_calculate_text_relevance "the data models of the service"
     {[ "data"; "models"; "user"; "payment" ]}
   == 1080863910568919 # 36028797018963968)%Q.
Proof. vm_compute. reflexivity. Qed.
(* ===================================================================== *)
(** * The context updater                                                *)
(* ===================================================================== *)

(** Facts about the store and the event log. *)

Lemma says_nil (w : world) : says w [] = w.
Proof. destruct w. unfold says. simpl. now rewrite app_nil_r. Qed.

Lemma says_says (w : world) (a b : list event) :
  says (says w a) b = says w (a ++ b)%list.
Proof. unfold says. simpl. now rewrite app_assoc. Qed.

Lemma dom_store_after_completion s l filename code :
  dom (store_after_completion s l filename code) = dom s.
Proof.
  unfold store_after_completion.
  destruct (s !! l) as [session|] eqn:El; simpl.
  - destruct (session !! filename); [| reflexivity].
    rewrite dom_insert_L. apply subseteq_union_1_L, singleton_subseteq_l.
    apply elem_of_dom. eauto.
  - rewrite lookup_empty. reflexivity.
Qed.

Lemma store_after_completion_absent s l filename code :
  default ∅ (s !! l) !! filename = None ->
  store_after_completion s l filename code = s.
Proof. unfold store_after_completion. intros Habs. now rewrite Habs. Qed.

Section UpdaterFacts.

Variable service_manager : ServiceManager.

(** What [update_session_context] does on a non-empty argument, case
    by case. *)
Lemma update_session_context_run context filename code rest w :
  update_session_context service_manager context ((filename, code) :: rest) w
  = let st := store_after_completion (store w) (generation_session context)
                                     filename code in
    if endswith filename ".py" then
      match get_symbols_from_content
              (get_project_indexer_service service_manager)
              code (module_path_of filename) with
      | Ok new_symbols =>
          (Ok (with_project_index context (new_symbols ∪ project_index context)),
           MkWorld st
             (trace w ++
              [Printed ("[ContextManager] Updated symbol index with "
                        +:+ pretty (size new_symbols)
                        +:+ " symbols from new file: " +:+ filename)])
             (journal w))
      | Raised e =>
          (Ok context,
           MkWorld st
             (trace w ++
              [Printed ("Error updating session context for " +:+ filename
                        +:+ ": " +:+ e);
               Traceback e])
             (journal w))
      end
    else
      (Ok (with_project_index context (project_index context)),
       MkWorld st (trace w) (journal w)).
Proof.
  unfold update_session_context, update_session_context_body, try_catch,
    bind, first_item, ret, read_session, store_after_completion.
  cbn [fst List.map].
  destruct (default ∅ (store w !! generation_session context) !! filename)
    as [entry|] eqn:Eentry;
    unfold write_session, ret, bind, lift, tell; cbn [store trace journal];
    destruct (endswith filename ".py");
    try destruct (get_symbols_from_content _ code (module_path_of filename));
    cbn [store trace journal]; rewrite <- ?app_assoc; try reflexivity;
    destruct w; reflexivity.
Qed.

Lemma store_after_completion_entries s l filename code l' g :
  default ∅ (store_after_completion s l filename code !! l') !! g
  = if bool_decide (l' = l /\ g = filename)
    then mark_completed code <$> (default ∅ (s !! l) !! filename)
    else default ∅ (s !! l') !! g.
Proof.
  unfold store_after_completion.
  destruct (default ∅ (s !! l) !! filename) as [entry|] eqn:E.
  - destruct (decide (l' = l)) as [->|Hl].
    + rewrite lookup_insert_eq. simpl.
      destruct (decide (g = filename)) as [->|Hg].
      * rewrite lookup_insert_eq.
        rewrite bool_decide_eq_true_2 by (split; reflexivity). reflexivity.
      * rewrite lookup_insert_ne by congruence.
        rewrite bool_decide_eq_false_2 by (intros [_ ?]; congruence).
        reflexivity.
    + rewrite lookup_insert_ne by congruence.
      rewrite bool_decide_eq_false_2 by (intros [? _]; congruence).
      reflexivity.
  - case_bool_decide as H; [| reflexivity].
    destruct H as [-> ->]. now rewrite E.
Qed.

Lemma update_session_context_empty context w :
  update_session_context service_manager context [] w
  = (Raised (Exception "list index out of range"), w).
Proof. reflexivity. Qed.


End UpdaterFacts.

Example build_docs_context :
  build_generation_context Demo.services_failing_indexer Demo.plan_docs
                           EmptyString None Demo.w0
  = (Ok Demo.context_docs, Demo.world_docs).
Proof. vm_compute. reflexivity. Qed.

(** C2, as stated, fails: when extraction fails for a planned file the
    call returns the input context, but the session record that context
    refers to no longer is what it was: the entry of the file has gone
    from planned to completed. *)
Lemma update_failure_counterexample :
  let '(r, w') :=
    update_session_context Demo.services_failing_indexer Demo.context_docs
                           [("a.py", "def f(:")] Demo.world_docs in
  r = Ok Demo.context_docs
  /\ se_status <$> session_entry_of Demo.world_docs Demo.context_docs "a.py"
     = Some "planned"
  /\ se_status <$> session_entry_of w' Demo.context_docs "a.py"
     = Some "completed"
  /\ store w' <> store Demo.world_docs.
Proof.
  rewrite update_session_context_run. cbv zeta.
  change (endswith "a.py" ".py") with true. cbv iota.
  change (get_symbols_from_content _ _ _)
    with (@Raised exn (gmap string string) "invalid syntax").
  cbv iota.
  assert (H1 : se_status <$> session_entry_of Demo.world_docs Demo.context_docs "a.py"
               = Some "planned") by (vm_compute; reflexivity).
  split; [reflexivity |]. split; [exact H1 |].
  unfold session_entry_of at 1. cbn [store].
  rewrite store_after_completion_entries.
  rewrite bool_decide_eq_true_2 by (split; reflexivity).
  assert (H2 : se_status <$>
                 (mark_completed "def f(:" <$>
                    default ∅ (store Demo.world_docs
                                 !! generation_session Demo.context_docs)
                    !! "a.py")
               = Some "completed") by (vm_compute; reflexivity).
  split; [exact H2 |].
  intros Heq.
  pose proof (store_after_completion_entries (store Demo.world_docs)
                (generation_session Demo.context_docs) "a.py" "def f(:"
                (generation_session Demo.context_docs) "a.py") as Hl.
  rewrite Heq, bool_decide_eq_true_2 in Hl by (split; reflexivity).
  unfold session_entry_of in H1. rewrite Hl in H1. rewrite H2 in H1.
  discriminate.
Qed.

(** C2 (amended): if symbol extraction raises, the call prints the
    failure and the traceback and returns the input context itself, so
    every field of the returned value, the project index and the
    reference to the session record included, is the one passed in, and
    nothing is raised.  The session record has by then been updated in
    place: the entry of the filename, if there is one, is marked
    completed and holds the new content; every other entry of every
    record is as before. *)
Theorem update_failure_returns_input_context
    (service_manager : ServiceManager) (context : GenerationContext)
    (filename code : string) (rest : list (string * string))
    (w : world) (e : exn) :
  endswith filename ".py" = true ->
  get_symbols_from_content (get_project_indexer_service service_manager)
                           code (module_path_of filename) = Raised e ->
  exists w',
    update_session_context service_manager context ((filename, code) :: rest) w
    = (Ok context, w')
    /\ trace w' = (trace w ++
                   [Printed ("Error updating session context for " +:+ filename
                             +:+ ": " +:+ e);
                    Traceback e])%list
    /\ journal w' = journal w
    /\ dom (store w') = dom (store w)
    /\ session_entry_of w' context filename
       = mark_completed code <$> session_entry_of w context filename
    /\ forall l g, ~ (l = generation_session context /\ g = filename) ->
         default ∅ (store w' !! l) !! g = default ∅ (store w !! l) !! g.
Proof.
  intros Hpy Hraise. rewrite update_session_context_run. cbv zeta.
  rewrite Hpy, Hraise. eexists. split; [reflexivity |].
  cbn [store trace journal]. repeat split.
  - apply dom_store_after_completion.
  - unfold session_entry_of. cbn [store].
    rewrite store_after_completion_entries.
    now rewrite bool_decide_eq_true_2 by (split; reflexivity).
  - intros l g Hne. rewrite store_after_completion_entries.
    now rewrite bool_decide_eq_false_2.
Qed.

Lemma update_failure_returns_input_context_witness :
  endswith "a.py" ".py" = true
  /\ get_symbols_from_content
       (get_project_indexer_service Demo.services_failing_indexer)
       "def f(:" (module_path_of "a.py") = Raised "invalid syntax"
  /\ exists w',
       update_session_context Demo.services_failing_indexer Demo.context_docs
                              [("a.py", "def f(:")] Demo.world_docs
       = (Ok Demo.context_docs, w')
       /\ trace w' = (trace Demo.world_docs ++
                      [Printed ("Error updating session context for " +:+ "a.py"
                                +:+ ": " +:+ "invalid syntax");
                       Traceback "invalid syntax"])%list
       /\ journal w' = journal Demo.world_docs
       /\ dom (store w') = dom (store Demo.world_docs)
       /\ session_entry_of w' Demo.context_docs "a.py"
          = mark_completed "def f(:"
              <$> session_entry_of Demo.world_docs Demo.context_docs "a.py"
       /\ forall l g, ~ (l = generation_session Demo.context_docs /\ g = "a.py") ->
            default ∅ (store w' !! l) !! g
            = default ∅ (store Demo.world_docs !! l) !! g.
Proof.
  split; [reflexivity |]. split; [reflexivity |].
  apply (update_failure_returns_input_context
           Demo.services_failing_indexer Demo.context_docs "a.py" "def f(:" []
           Demo.world_docs "invalid syntax");
    reflexivity.
Defined.

(** C3: after an update that returns normally, every symbol of the
    index before the call is still in the index of the returned
    context.  If the symbols extracted from the new content of the file
    define that very name, it now maps to the module they give (the
    last write wins); in every other case (the file is not a [.py]
    file, the extraction fails, or the extracted symbols do not define
    the name) it maps to what it mapped to before. *)
Theorem update_index_monotone
    (service_manager : ServiceManager) (context context' : GenerationContext)
    (filename code : string) (rest : list (string * string))
    (w w' : world) (symbol module : string) :
  update_session_context service_manager context ((filename, code) :: rest) w
  = (Ok context', w') ->
  project_index context !! symbol = Some module ->
  is_Some (project_index context' !! symbol)
  /\ (forall new_symbols module',
     endswith filename ".py" = true ->
     get_symbols_from_content (get_project_indexer_service service_manager)
       code (module_path_of filename) = Ok new_symbols ->
     new_symbols !! symbol = Some module' ->
     project_index context' !! symbol = Some module')
  /\ (endswith filename ".py" = false
      \/ (exists e,
            get_symbols_from_content
              (get_project_indexer_service service_manager)
              code (module_path_of filename) = Raised e)
      \/ (exists new_symbols,
            get_symbols_from_content
              (get_project_indexer_service service_manager)
              code (module_path_of filename) = Ok new_symbols
            /\ new_symbols !! symbol = None) ->
      project_index context' !! symbol = Some module).
Proof.
  rewrite update_session_context_run. cbv zeta. intros Hrun Hsym.
  destruct (endswith filename ".py") eqn:Hpy.
  - destruct (get_symbols_from_content _ code (module_path_of filename))
      as [new_symbols|e] eqn:Hget.
    + injection Hrun as <- _. cbn [project_index with_project_index].
      split; [apply lookup_union_is_Some; right; eauto |]. split.
      * intros ? module' _ [= <-] Hnew. now apply lookup_union_Some_l.
      * intros [[=] | [[e [=]] | (? & [= <-] & Hnone)]].
        now rewrite lookup_union_r.
    + injection Hrun as <- _. split; [eauto |].
      split; [intros ? ? _ [=] | intros _; exact Hsym].
  - injection Hrun as <- _. cbn [project_index with_project_index].
    split; [eauto |]. split; [intros ? ? [=] | intros _; exact Hsym].
Qed.

Lemma update_index_monotone_witness :
  update_session_context Demo.services Demo.context_indexed
                         [("a.py", "class User: pass")] Demo.world_docs
  = (Ok (with_project_index Demo.context_indexed
           {[ "User" := "a"; "Helper" := "util" ]}),
     snd (update_session_context Demo.services Demo.context_indexed
                                 [("a.py", "class User: pass")] Demo.world_docs))
  /\ project_index Demo.context_indexed !! "User" = Some "legacy"
  /\ is_Some (project_index
                (with_project_index Demo.context_indexed
                   {[ "User" := "a"; "Helper" := "util" ]}) !! "User")
  /\ (forall new_symbols module',
        endswith "a.py" ".py" = true ->
        get_symbols_from_content (get_project_indexer_service Demo.services)
          "class User: pass" (module_path_of "a.py") = Ok new_symbols ->
        new_symbols !! "User" = Some module' ->
        project_index
          (with_project_index Demo.context_indexed
             {[ "User" := "a"; "Helper" := "util" ]}) !! "User"
        = Some module')
  /\ (endswith "a.py" ".py" = false
      \/ (exists e,
            get_symbols_from_content
              (get_project_indexer_service Demo.services)
              "class User: pass" (module_path_of "a.py") = Raised e)
      \/ (exists new_symbols,
            get_symbols_from_content
              (get_project_indexer_service Demo.services)
              "class User: pass" (module_path_of "a.py") = Ok new_symbols
            /\ new_symbols !! "User" = None) ->
      project_index
        (with_project_index Demo.context_indexed
           {[ "User" := "a"; "Helper" := "util" ]}) !! "User"
      = Some "legacy").
Proof.
  split; [vm_compute; reflexivity |]. split; [vm_compute; reflexivity |].
  apply (update_index_monotone Demo.services Demo.context_indexed
           (with_project_index Demo.context_indexed
              {[ "User" := "a"; "Helper" := "util" ]})
           "a.py" "class User: pass" [] Demo.world_docs
           (snd (update_session_context Demo.services Demo.context_indexed
                   [("a.py", "class User: pass")] Demo.world_docs))
           "User" "legacy");
    vm_compute; reflexivity.
Defined.

(** In that update the name [User], which the index had under
    [legacy], is redefined by the new file and now maps to its module;
    [Helper], which the file does not define, keeps its module. *)
Example update_index_last_write_wins :
  (project_index <$>
     (match fst (update_session_context Demo.services Demo.context_indexed
                   [("a.py", "class User: pass")] Demo.world_docs) with
      | Ok c => Some c
      | Raised _ => None
      end))
  = Some ({[ "User" := "a"; "Helper" := "util" ]} : gmap string string).
Proof. vm_compute. reflexivity. Qed.

(** C10: when the filename is not a key of the session record, the
    update leaves the store as it is (no entry added, none changed),
    and for a filename ending in [.py] whose content the indexer
    accepts, the returned context carries the extracted symbols merged
    over the previous index. *)
Theorem update_unplanned_file
    (service_manager : ServiceManager) (context : GenerationContext)
    (filename code : string) (rest : list (string * string)) (w : world) :
  session_entry_of w context filename = None ->
  exists r w',
    update_session_context service_manager context ((filename, code) :: rest) w
    = (r, w')
    /\ store w' = store w
    /\ (endswith filename ".py" = true ->
        forall new_symbols,
          get_symbols_from_content
            (get_project_indexer_service service_manager)
            code (module_path_of filename) = Ok new_symbols ->
          r = Ok (with_project_index context
                    (new_symbols ∪ project_index context))
          /\ forall symbol,
               project_index (with_project_index context
                                (new_symbols ∪ project_index context)) !! symbol
               = match new_symbols !! symbol with
                 | Some module => Some module
                 | None => project_index context !! symbol
                 end).
Proof.
  intros Habsent. rewrite update_session_context_run. cbv zeta.
  rewrite (store_after_completion_absent _ _ _ _ Habsent).
  destruct (endswith filename ".py") eqn:Hpy.
  - destruct (get_symbols_from_content _ code (module_path_of filename))
      as [new_symbols|e] eqn:Hget.
    + eexists _, _. split; [reflexivity |]. split; [reflexivity |].
      intros _ ? [= <-]. split; [reflexivity |].
      intros symbol. cbn [project_index with_project_index].
      destruct (new_symbols !! symbol) as [module|] eqn:Hnew.
      * now apply lookup_union_Some_l.
      * now rewrite lookup_union_r.
    + eexists _, _. split; [reflexivity |]. split; [reflexivity |].
      intros _ ? [=].
  - eexists _, _. split; [reflexivity |]. split; [reflexivity |].
    intros [=].
Qed.

Lemma update_unplanned_file_witness :
  session_entry_of Demo.world_docs Demo.context_indexed "extra.py" = None
  /\ exists r w',
       update_session_context Demo.services Demo.context_indexed
                              [("extra.py", "class User: pass")] Demo.world_docs
       = (r, w')
       /\ store w' = store Demo.world_docs
       /\ (endswith "extra.py" ".py" = true ->
           forall new_symbols,
             get_symbols_from_content
               (get_project_indexer_service Demo.services)
               "class User: pass" (module_path_of "extra.py") = Ok new_symbols ->
             r = Ok (with_project_index Demo.context_indexed
                       (new_symbols ∪ project_index Demo.context_indexed))
             /\ forall symbol,
                  project_index
                    (with_project_index Demo.context_indexed
                       (new_symbols ∪ project_index Demo.context_indexed))
                    !! symbol
                  = match new_symbols !! symbol with
                    | Some module => Some module
                    | None => project_index Demo.context_indexed !! symbol
                    end).
Proof.
  split; [vm_compute; reflexivity |].
  apply (update_unplanned_file Demo.services Demo.context_indexed
           "extra.py" "class User: pass" [] Demo.world_docs).
  vm_compute; reflexivity.
Defined.

Example update_unplanned_file_example :
  let '(r, w') :=
    update_session_context Demo.services Demo.context_indexed
                           [("extra.py", "class User: pass")] Demo.world_docs in
  store w' = store Demo.world_docs
  /\ (project_index <$> (match r with Ok c => Some c | Raised _ => None end))
     = Some ({[ "User" := "extra"; "Helper" := "util" ]} : gmap string string).
Proof. vm_compute. split; reflexivity. Qed.

(* ===================================================================== *)
(** * The content strategies                                             *)
(* ===================================================================== *)

Lemma only_tells_ret {A} (a : A) : only_tells (ret a).
Proof. intros w. exists (Ok a), []. now rewrite says_nil. Qed.

Lemma only_tells_lift {A} (o : outcome A) : only_tells (lift o).
Proof. intros w. eexists _, []. unfold lift. now rewrite says_nil. Qed.

Lemma only_tells_await {A} (o : awaited A) : only_tells (await o).
Proof. intros w. exists o, []. now rewrite says_nil. Qed.

Lemma only_tells_history : only_tells history.
Proof. intros w. exists (Ok (trace w)), []. now rewrite says_nil. Qed.

Lemma only_tells_tell (e : event) : only_tells (tell e).
Proof. intros w. exists (Ok tt), [e]. reflexivity. Qed.

Lemma only_tells_log (level message : string) : only_tells (log level message).
Proof. apply only_tells_tell. Qed.

Lemma only_tells_bind {A B} (m : M A) (k : A -> M B) :
  only_tells m -> (forall a, only_tells (k a)) -> only_tells (bind m k).
Proof.
  intros Hm Hk w. unfold bind.
  destruct (Hm w) as (r & events & ->).
  destruct r as [a|e].
  - destruct (Hk a (says w events)) as (r' & events' & ->).
    exists r', (events ++ events')%list. now rewrite says_says.
  - exists (Raised e), events. reflexivity.
Qed.

Section StrategyFacts.

Variable hash : string -> Z.
Variable service_manager : ServiceManager.
Variable prompts : Prompts.

Lemma only_tells_consume_stream filename chunks file_content :
  only_tells (consume_stream filename chunks file_content).
Proof.
  revert file_content.
  induction chunks as [|chunk rest IH]; intros file_content; simpl.
  - apply only_tells_ret.
  - apply only_tells_bind; [apply only_tells_tell | intros _; apply IH].
Qed.

Ltac tells :=
  repeat first
    [ apply only_tells_ret
    | apply only_tells_lift
    | apply only_tells_await
    | apply only_tells_history
    | apply only_tells_log
    | apply only_tells_tell
    | apply only_tells_consume_stream
    | apply only_tells_bind; [| intros ?]
    | match goal with
      | |- only_tells (match ?x with _ => _ end) => destruct x
      | |- only_tells (let '(_, _) := ?x in _) => destruct x
      end ].

(** A content strategy touches neither the store nor the journal. *)
Lemma only_tells_generate_single_file fi context other custom_prompts :
  only_tells (_generate_single_file hash service_manager prompts
                                    fi context other custom_prompts).
Proof. unfold _generate_single_file. tells. Qed.

(** The scene strategy: one log message, no model call, and the
    document made from the filename and the purpose. *)
Lemma generate_tscn fi context other custom_prompts w :
  PyPath.suffix (fi_filename fi) = ".tscn" ->
  _generate_single_file hash service_manager prompts fi context other
                        custom_prompts w
  = (Ok (Some (create_tscn_content hash
                 (_extract_node_type_from_purpose (fi_purpose fi))
                 (replace (fi_filename fi) ".tscn" ".gd"))),
     says w [Emit "log_message_received"
               ["GenerationCoordinator"; "info";
                "Programmatically generating placeholder scene for "
                  +:+ fi_filename fi]]).
Proof.
  intros Hext. unfold _generate_single_file. rewrite Hext. reflexivity.
Qed.

(** The scene document names the script it is given, under the
    identifier derived from the script path. *)
Lemma create_tscn_content_reference node_type script_path :
  contains (create_tscn_content hash node_type script_path)
           ("[ext_resource type=" +:+ quoted "Script"
              +:+ " path=" +:+ quoted ("res://" +:+ script_path)
              +:+ " id="
              +:+ quoted ("1_" +:+ "uid://b" +:+ uid_digits hash script_path)
              +:+ "]")
  = true.
Proof.
  unfold create_tscn_content. cbv zeta.
  do 5 apply contains_app_r.
  rewrite contains_unfold. apply orb_true_iff. left.
  rewrite !startswith_app_both. apply startswith_app.
Qed.

(** The script line of the document uses the same identifier. *)
Lemma create_tscn_content_script_line node_type script_path :
  contains (create_tscn_content hash node_type script_path)
           ("script = ExtResource("
              +:+ quoted ("1_" +:+ "uid://b" +:+ uid_digits hash script_path)
              +:+ ")")
  = true.
Proof.
  unfold create_tscn_content. cbv zeta.
  do 20 apply contains_app_r.
  rewrite contains_unfold. apply orb_true_iff. left.
  rewrite !startswith_app_both. apply startswith_app.
Qed.

End StrategyFacts.

(** C7, as stated, fails: the document is not a function of the
    filename and the purpose alone.  Its identifiers come from the
    built-in [hash] of strings, which is salted per interpreter process:
    two processes give the same artifact two different documents. *)
Lemma tscn_strategy_counterexample :
  fst (_generate_single_file Demo.hash Demo.services Demo.prompts
         (FileInfo "player.tscn" "Extends CharacterBody2D")
         Demo.context_docs ∅ ∅ Demo.w0)
  <> fst (_generate_single_file Demo.hash_of_other_process Demo.services
            Demo.prompts
            (FileInfo "player.tscn" "Extends CharacterBody2D")
            Demo.context_docs ∅ ∅ Demo.w0).
Proof. vm_compute. discriminate. Qed.

(** C7 (amended): for an artifact whose filename has the suffix
    [.tscn] (filename and purpose in ASCII), the strategy returns, in
    any context and with any model client, prompts, earlier outputs and
    custom templates, the scene document spelled out below; its only
    effect is one log message (no model is resolved, no stream is
    opened).  The document declares the script path obtained by
    replacing [.tscn] by [.gd] as its script resource, under the
    identifier made of the decimal digits of [abs(hash(path)) % 10**10],
    and attaches the script by the same identifier; so it is a function
    of the filename, the purpose and the [hash] of the running
    interpreter. *)
Theorem tscn_strategy_is_template
    (hash : string -> Z) (service_manager : ServiceManager) (prompts : Prompts)
    (fi : file_info) (context : GenerationContext)
    (other custom_prompts : gmap string string) (w : world) :
  PyPath.suffix (fi_filename fi) = ".tscn" ->
  is_ascii (fi_filename fi) = true ->
  is_ascii (fi_purpose fi) = true ->
  let q := String DQ EmptyString in
  let line_end := String LF EmptyString in
  let script_path := replace (fi_filename fi) ".tscn" ".gd" in
  let node_type := _extract_node_type_from_purpose (fi_purpose fi) in
  let script_uid :=
    "uid://b" +:+ pretty (Z.abs (hash script_path) mod 10 ^ 10)%Z in
  let scene_uid :=
    "uid://b"
      +:+ pretty (Z.abs (hash (node_type +:+ script_path)) mod 10 ^ 10)%Z in
  _generate_single_file hash service_manager prompts fi context other
                        custom_prompts w
  = (Ok (Some
           ("[gd_scene load_steps=2 format=3 uid=" +:+ q +:+ scene_uid +:+ q
              +:+ "]" +:+ line_end
              +:+ line_end
              +:+ "[ext_resource type=" +:+ q +:+ "Script" +:+ q
              +:+ " path=" +:+ q +:+ "res://" +:+ script_path +:+ q
              +:+ " id=" +:+ q +:+ "1_" +:+ script_uid +:+ q
              +:+ "]" +:+ line_end
              +:+ line_end
              +:+ "[node name=" +:+ q
              +:+ capitalize (PyPath.stem script_path) +:+ q
              +:+ " type=" +:+ q +:+ node_type +:+ q +:+ "]" +:+ line_end
              +:+ "script = ExtResource(" +:+ q +:+ "1_" +:+ script_uid +:+ q
              +:+ ")" +:+ line_end)),
     MkWorld (store w)
             (trace w ++
              [Emit "log_message_received"
                 ["GenerationCoordinator"; "info";
                  "Programmatically generating placeholder scene for "
                    +:+ fi_filename fi]])
             (journal w)).
Proof.
  intros Hext _ _ q line_end script_path node_type script_uid scene_uid.
  rewrite (generate_tscn hash service_manager prompts fi context other
             custom_prompts w Hext).
  unfold says. do 3 f_equal.
  unfold create_tscn_content, quoted, uid_digits.
  fold script_path node_type. subst q line_end script_uid scene_uid.
  cbv zeta.
  rewrite ?app_assoc_s, ?app_cons_s, ?app_nil_s. reflexivity.
Qed.

(** The scenario of the specification in one interpreter process: the
    document for [player.tscn] with purpose [Extends CharacterBody2D]
    names the script [player.gd], the node [Player] and the type
    [CharacterBody2D]. *)
Lemma tscn_strategy_is_template_witness :
  PyPath.suffix (fi_filename (FileInfo "player.tscn" "Extends CharacterBody2D"))
  = ".tscn"
  /\ is_ascii (fi_filename (FileInfo "player.tscn" "Extends CharacterBody2D"))
     = true
  /\ is_ascii (fi_purpose (FileInfo "player.tscn" "Extends CharacterBody2D"))
     = true
  /\ Demo.hash_of_other_process "player.gd" = (- 1234567890132)%Z
  /\ Demo.hash_of_other_process "CharacterBody2Dplayer.gd"
     = (- 1234567890147)%Z
  /\ _generate_single_file Demo.hash_of_other_process Demo.services
       Demo.prompts (FileInfo "player.tscn" "Extends CharacterBody2D")
       Demo.context_docs ∅ ∅ Demo.w0
     = (Ok (Some
              ("[gd_scene load_steps=2 format=3 uid=" +:+ String DQ EmptyString
                 +:+ "uid://b4567890147" +:+ String DQ EmptyString
                 +:+ "]" +:+ String LF EmptyString
                 +:+ String LF EmptyString
                 +:+ "[ext_resource type=" +:+ String DQ EmptyString
                 +:+ "Script" +:+ String DQ EmptyString
                 +:+ " path=" +:+ String DQ EmptyString
                 +:+ "res://player.gd" +:+ String DQ EmptyString
                 +:+ " id=" +:+ String DQ EmptyString
                 +:+ "1_uid://b4567890132" +:+ String DQ EmptyString
                 +:+ "]" +:+ String LF EmptyString
                 +:+ String LF EmptyString
                 +:+ "[node name=" +:+ String DQ EmptyString
                 +:+ "Player" +:+ String DQ EmptyString
                 +:+ " type=" +:+ String DQ EmptyString
                 +:+ "CharacterBody2D" +:+ String DQ EmptyString
                 +:+ "]" +:+ String LF EmptyString
                 +:+ "script = ExtResource(" +:+ String DQ EmptyString
                 +:+ "1_uid://b4567890132" +:+ String DQ EmptyString
                 +:+ ")" +:+ String LF EmptyString)),
        MkWorld ∅
          [Emit "log_message_received"
             ["GenerationCoordinator"; "info";
              "Programmatically generating placeholder scene for player.tscn"]]
          []).
Proof.
  split; [reflexivity |]. split; [reflexivity |]. split; [reflexivity |].
  split; [reflexivity |]. split; [reflexivity |].
  pose proof (tscn_strategy_is_template Demo.hash_of_other_process
                Demo.services Demo.prompts
                (FileInfo "player.tscn" "Extends CharacterBody2D")
                Demo.context_docs ∅ ∅ Demo.w0 eq_refl eq_refl eq_refl) as H.
  cbv zeta in H. rewrite H. vm_compute. reflexivity.
Defined.
(* ===================================================================== *)
(** * The orchestration loop                                             *)
(* ===================================================================== *)

(** The monad laws the proofs step with, and facts about the journal. *)

Lemma bind_tell {B} (e : event) (k : unit -> M B) w :
  bind (tell e) k w = k tt (says w [e]).
Proof. reflexivity. Qed.

Lemma bind_jot {B} (n : note) (k : unit -> M B) w :
  bind (jot n) k w
  = k tt (MkWorld (store w) (trace w) (journal w ++ [n])).
Proof. reflexivity. Qed.

Lemma bind_ret {A B} (a : A) (k : A -> M B) w : bind (ret a) k w = k a w.
Proof. reflexivity. Qed.

Lemma bind_history {B} (k : list event -> M B) w :
  bind history k w = k (trace w) w.
Proof. reflexivity. Qed.

Lemma bind_lift_Ok {A B} (a : A) (k : A -> M B) w :
  bind (lift (Ok a)) k w = k a w.
Proof. reflexivity. Qed.

Lemma bind_lift_Raised {A B} (e : exn) (k : A -> M B) w :
  bind (lift (Raised e)) k w = (Raised (Exception e), w).
Proof. reflexivity. Qed.

Lemma bind_await_Ok {A B} (a : A) (k : A -> M B) w :
  bind (await (Ok a)) k w = k a w.
Proof. reflexivity. Qed.

Lemma bind_await_Raised {A B} (s : signal) (k : A -> M B) w :
  bind (await (Raised s)) k w = (Raised s, w).
Proof. reflexivity. Qed.

Lemma bind_assoc {A B C} (m : M A) (k : A -> M B) (h : B -> M C) w :
  bind (bind m k) h w = bind m (fun a => bind (k a) h) w.
Proof. unfold bind. destruct (m w) as [[a|e] w1]; reflexivity. Qed.

Lemma bind_step_Ok {A B} (m : M A) (k : A -> M B) w a w1 :
  m w = (Ok a, w1) -> bind m k w = k a w1.
Proof. unfold bind. now intros ->. Qed.

Lemma bind_step_Raised {A B} (m : M A) (k : A -> M B) w e w1 :
  m w = (Raised e, w1) -> bind m k w = (Raised e, w1).
Proof. unfold bind. now intros ->. Qed.

Lemma view_is_delete (generated : gmap string string) filename :
  other_generated_files_view generated filename = delete filename generated.
Proof.
  unfold other_generated_files_view. case_bool_decide as Hin; [reflexivity |].
  symmetry. apply delete_id. now apply not_elem_of_dom.
Qed.

Lemma apply_stores_app generated a b :
  apply_stores generated (a ++ b) = apply_stores (apply_stores generated a) b.
Proof.
  revert generated. induction a as [|[f c o|f c] a IH]; intros generated;
    simpl; auto.
Qed.



Lemma find_file_info_planned p filename :
  is_Some (find_file_info p filename) <-> filename ∈ planned_filenames p.
Proof.
  unfold find_file_info, planned_filenames.
  induction (plan_files p) as [|fi files IH]; simpl.
  - split; [intros [? [=]] | intros H; inversion H].
  - destruct (String.eqb (fi_filename fi) filename) eqn:E.
    + apply String.eqb_eq in E. subst. split; [intros _; left | eauto].
    + apply String.eqb_neq in E. rewrite IH. split.
      * intros H. now right.
      * intros H. inversion H; subst; [contradiction | assumption].
Qed.

Section LoopFacts.

Variable hash : string -> Z.
Variable service_manager : ServiceManager.
Variable prompts : Prompts.
Variable dependency_planner : DependencyPlanner.

(** The updater, called on one (filename, content) pair, returns. *)
Lemma update_session_context_returns context filename code w :
  exists context' st events,
    update_session_context service_manager context [(filename, code)] w
    = (Ok context', MkWorld st (trace w ++ events) (journal w))
    /\ dom st = dom (store w)
    /\ generation_session context' = generation_session context
    /\ plan context' = plan context.
Proof.
  rewrite update_session_context_run. cbv zeta.
  destruct (endswith filename ".py");
    [destruct (get_symbols_from_content _ code (module_path_of filename)) |].
  - eexists _, _, _. split; [reflexivity |].
    split; [apply dom_store_after_completion | split; reflexivity].
  - eexists _, _, _. split; [reflexivity |].
    split; [apply dom_store_after_completion | split; reflexivity].
  - eexists _, _, []. rewrite app_nil_r. split; [reflexivity |].
    split; [apply dom_store_after_completion | split; reflexivity].
Qed.

(** One iteration: either the filename is not in the plan and nothing
    is noted, or the strategy is invoked on the view and then either
    an exception escapes or exactly one output is stored. *)
Lemma loop_body_run p custom_prompts total i filename context generated w :
  exists r w' notes,
    loop_body hash service_manager prompts p custom_prompts total i filename
              (context, generated) w = (r, w')
    /\ dom (store w') = dom (store w)
    /\ journal w' = (journal w ++ notes)%list
    /\ match find_file_info p filename with
       | None => r = Ok (context, generated) /\ notes = []
       | Some _ =>
           (exists e, r = Raised e
              /\ notes = [Dispatched filename context
                                     (delete filename generated)])
           \/ (exists context' content,
                 r = Ok (context', <[filename := content]> generated)
                 /\ notes = [Dispatched filename context
                                        (delete filename generated);
                             Stored filename content]
                 /\ generation_session context'
                    = generation_session context
                 /\ plan context' = plan context)
       end.
Proof.
  unfold loop_body. rewrite view_is_delete. unfold log.
  rewrite !bind_tell.
  destruct (find_file_info p filename) as [fi|].
  2:{ rewrite bind_tell. unfold ret. eexists _, _, [].
      split; [reflexivity |]. cbn. rewrite app_nil_r.
      repeat split; reflexivity. }
  rewrite bind_jot.
  set (w1 := MkWorld _ _ _).
  destruct (only_tells_generate_single_file hash service_manager prompts fi
              context (delete filename generated)
              (default ∅ custom_prompts) w1) as (rg & events & Hg).
  destruct rg as [[raw|]|e].
  - rewrite (bind_step_Ok _ _ _ _ _ Hg).
    rewrite bind_assoc, bind_jot.
    set (w2 := MkWorld _ _ _).
    destruct (update_session_context_returns context filename
                (robust_clean_llm_output raw) w2)
      as (context' & st & events' & Hu & Hdom & Hgs & Hplan).
    rewrite bind_assoc, (bind_step_Ok _ _ _ _ _ Hu).
    rewrite bind_ret, bind_tell. unfold ret.
    eexists _, _, _. split; [reflexivity |]. cbn.
    split; [exact Hdom |]. split; [now rewrite <- app_assoc |].
    right. eauto 10.
  - rewrite (bind_step_Ok _ _ _ _ _ Hg).
    rewrite bind_assoc, bind_tell, bind_assoc, bind_jot.
    rewrite bind_ret, bind_tell. unfold ret.
    eexists _, _, _. split; [reflexivity |]. cbn.
    split; [reflexivity |]. split; [now rewrite <- app_assoc |].
    right. eauto 10.
  - rewrite (bind_step_Raised _ _ _ _ _ Hg).
    eexists _, _, _. split; [reflexivity |]. cbn.
    split; [reflexivity |]. split; [reflexivity |].
    left. eauto.
Qed.

(** The whole loop. *)
Lemma generation_loop_run p custom_prompts total order :
  forall i context generated w,
  exists r w' notes,
    generation_loop hash service_manager prompts p custom_prompts total i
                    order (context, generated) w = (r, w')
    /\ dom (store w') = dom (store w)
    /\ journal w' = (journal w ++ notes)%list
    /\ views_ok (generation_session context) generated notes
    /\ forall context' generated', r = Ok (context', generated') ->
         generated' = apply_stores generated notes
         /\ generation_session context' = generation_session context
         /\ forall g, g ∈ dom generated'
              <-> g ∈ dom generated
                  \/ (g ∈ order /\ g ∈ planned_filenames p).
Proof.
  induction order as [|filename rest IH]; intros i context generated w.
  - exists (Ok (context, generated)), w, []. cbn.
    rewrite app_nil_r.
    split; [reflexivity |]. split; [reflexivity |]. split; [reflexivity |].
    split; [exact I |].
    intros context' generated' [= <- <-].
    split; [reflexivity |]. split; [reflexivity |].
    intros g. split; [auto |].
    intros [H | [H _]]; [exact H | inversion H].
  - cbn [generation_loop].
    destruct (loop_body_run p custom_prompts total i filename context
                generated w)
      as (r1 & w1 & notes1 & Hb & Hdom1 & Hj1 & Hcase).
    unfold bind at 1. rewrite Hb.
    destruct r1 as [[context1 generated1]|e].
    + destruct (IH (S i) context1 generated1 w1)
        as (r2 & w2 & notes2 & Hl & Hdom2 & Hj2 & Hv2 & Hres).
      rewrite Hl. exists r2, w2, (notes1 ++ notes2)%list.
      split; [reflexivity |]. split; [congruence |].
      split; [rewrite Hj2, Hj1; now rewrite app_assoc |].
      destruct (find_file_info p filename) as [fi|] eqn:Efind.
      * destruct Hcase as [(e & [=] & _) | (c' & content & [= -> ->] & -> & Hgs & Hplan)].
        split.
        { cbn. split; [reflexivity |]. split; [reflexivity |].
          now rewrite <- Hgs. }
        intros context' generated' Hr.
        destruct (Hres _ _ Hr) as (Hgen & Hgs' & Hdom).
        split; [exact Hgen |]. split; [congruence |].
        intros g. rewrite Hdom, dom_insert, elem_of_union, elem_of_singleton.
        assert (Hin : filename ∈ planned_filenames p)
          by (apply find_file_info_planned; eauto).
        rewrite elem_of_cons. split.
        -- intros [[-> | H] | [H1 H2]]; auto.
        -- intros [H | [[-> | H1] H2]]; auto.
      * destruct Hcase as [[= -> ->] ->].
        split; [exact Hv2 |].
        intros context' generated' Hr.
        destruct (Hres _ _ Hr) as (Hgen & Hgs' & Hdom).
        split; [exact Hgen |]. split; [exact Hgs' |].
        intros g. rewrite Hdom, elem_of_cons.
        assert (Hnot : filename ∉ planned_filenames p).
        { intros H. apply find_file_info_planned in H as [? H].
          congruence. }
        split.
        -- intros [H | [H1 H2]]; auto.
        -- intros [H | [[-> | H1] H2]]; auto. contradiction.
    + exists (Raised e), w1, notes1.
      split; [reflexivity |]. split; [exact Hdom1 |]. split; [exact Hj1 |].
      split; [| discriminate].
      destruct (find_file_info p filename).
      * destruct Hcase as [(e' & _ & ->) | (? & ? & [=] & _)].
        cbn. auto.
      * destruct Hcase as [[=] _].
Qed.

(** One iteration on a filename of the plan, from what the strategy
    returns in the world of its invocation. *)
Lemma loop_body_dispatch p custom_prompts total i filename fi context
    generated w :
  find_file_info p filename = Some fi ->
  exists rg w2,
    _generate_single_file hash service_manager prompts fi context
      (delete filename generated) (default ∅ custom_prompts)
      (dispatch_world w total i filename context (delete filename generated))
    = (rg, w2)
    /\ store w2 = store w
    /\ journal w2
       = (journal w
          ++ [Dispatched filename context (delete filename generated)])%list
    /\ match rg with
       | Raised s =>
           loop_body hash service_manager prompts p custom_prompts total i
                     filename (context, generated) w
           = (Raised s, w2)
       | Ok generated_content =>
           exists context' w',
             loop_body hash service_manager prompts p custom_prompts total i
                       filename (context, generated) w
             = (Ok (context',
                    <[filename := stored_value filename generated_content]>
                      generated),
                w')
             /\ journal w'
                = (journal w
                   ++ [Dispatched filename context (delete filename generated);
                       Stored filename
                              (stored_value filename generated_content)])%list
             /\ match generated_content with
                | None => context' = context /\ store w' = store w
                | Some raw =>
                    store w'
                    = store_after_completion (store w)
                        (generation_session context) filename
                        (robust_clean_llm_output raw)
                    /\ (context' = context
                        \/ (endswith filename ".py" = true
                            /\ exists symbols,
                                 get_symbols_from_content
                                   (get_project_indexer_service
                                      service_manager)
                                   (robust_clean_llm_output raw)
                                   (module_path_of filename)
                                 = Ok symbols
                                 /\ context'
                                    = with_project_index context
                                        (symbols ∪ project_index context)))
                end
       end.
Proof.
  intros Hfind. unfold loop_body. rewrite view_is_delete. unfold log.
  rewrite !bind_tell, says_says, Hfind, bind_jot.
  change (MkWorld (store (says w _)) (trace (says w _))
                  (journal (says w _) ++ _))
    with (dispatch_world w total i filename context
            (delete filename generated)).
  set (w1 := dispatch_world _ _ _ _ _ _).
  destruct (only_tells_generate_single_file hash service_manager prompts fi
              context (delete filename generated)
              (default ∅ custom_prompts) w1) as (rg & events & Hg).
  exists rg, (says w1 events). split; [exact Hg |].
  split; [reflexivity |]. split; [reflexivity |].
  destruct rg as [[raw|]|s].
  - rewrite (bind_step_Ok _ _ _ _ _ Hg).
    rewrite bind_assoc, bind_jot, bind_assoc.
    set (w2 := MkWorld _ _ _).
    pose proof (update_session_context_run service_manager context filename
                  (robust_clean_llm_output raw) [] w2) as Hu.
    cbv zeta in Hu.
    destruct (endswith filename ".py") eqn:Epy;
      [destruct (get_symbols_from_content _ (robust_clean_llm_output raw)
                   (module_path_of filename)) as [symbols|e] eqn:Esym |];
      rewrite (bind_step_Ok _ _ _ _ _ Hu), bind_ret, bind_tell; unfold ret;
      eexists _, _; (split; [reflexivity |]); cbn;
      (split; [now rewrite <- app_assoc |]); (split; [reflexivity |]).
    + right. split; [reflexivity |]. exists symbols. auto.
    + now left.
    + left. now destruct context.
  - rewrite (bind_step_Ok _ _ _ _ _ Hg).
    rewrite bind_assoc, bind_tell, bind_assoc, bind_jot.
    rewrite bind_ret, bind_tell. unfold ret.
    eexists _, _. split; [reflexivity |]. cbn.
    split; [now rewrite <- app_assoc | auto].
  - now rewrite (bind_step_Raised _ _ _ _ _ Hg).
Qed.

(** One iteration on a filename that is not in the plan. *)
Lemma loop_body_skip p custom_prompts total i filename context generated w :
  find_file_info p filename = None ->
  exists events,
    loop_body hash service_manager prompts p custom_prompts total i filename
              (context, generated) w
    = (Ok (context, generated), says w events).
Proof.
  intros Hfind. unfold loop_body, log. rewrite !bind_tell, Hfind, bind_tell.
  unfold ret. rewrite !says_says. eauto.
Qed.

(** The notes of the whole loop. *)
Lemma generation_loop_notes p custom_prompts total order :
  forall i context generated w,
  exists r w' notes,
    generation_loop hash service_manager prompts p custom_prompts total i
                    order (context, generated) w = (r, w')
    /\ journal w' = (journal w ++ notes)%list
    /\ run_notes hash service_manager prompts p custom_prompts
                 (journal w) notes.
Proof.
  induction order as [|filename rest IH]; intros i context generated w.
  - exists (Ok (context, generated)), w, []. cbn. rewrite app_nil_r.
    split; [reflexivity |]. split; [reflexivity | constructor].
  - cbn [generation_loop].
    destruct (find_file_info p filename) as [fi|] eqn:Efind.
    + destruct (loop_body_dispatch p custom_prompts total i filename fi
                  context generated w Efind)
        as (rg & w2 & Hg & _ & Hj2 & Hcase).
      destruct rg as [generated_content|s].
      * destruct Hcase as (context' & w1 & Hb & Hj1 & _).
        unfold bind at 1. rewrite Hb.
        destruct (IH (S i) context'
                    (<[filename := stored_value filename generated_content]>
                       generated) w1)
          as (r & w' & notes & Hl & Hj & Hnotes).
        rewrite Hl. eexists _, _, _. split; [reflexivity |].
        split; [rewrite Hj, Hj1, <- app_assoc; reflexivity |].
        apply run_notes_stored; [| now rewrite <- Hj1].
        exists fi,
          (dispatch_world w total i filename context
             (delete filename generated)),
          w2.
        split; [exact Efind |]. split; [reflexivity | exact Hg].
      * unfold bind at 1. rewrite Hcase.
        eexists _, _, _. split; [reflexivity |]. split; [exact Hj2 |].
        constructor.
    + destruct (loop_body_skip p custom_prompts total i filename context
                  generated w Efind) as (events & Hb).
      unfold bind at 1. rewrite Hb.
      destruct (IH (S i) context generated (says w events))
        as (r & w' & notes & Hl & Hj & Hnotes).
      rewrite Hl. eexists _, _, _. split; [reflexivity |].
      split; [exact Hj | exact Hnotes].
Qed.

End LoopFacts.

(** Every value that the notes of a run store is what the run makes
    of the content that the strategy, invoked just before, returned. *)
Lemma run_notes_stored_value hash service_manager prompts p custom_prompts
    (j notes : list note) :
  run_notes hash service_manager prompts p custom_prompts j notes ->
  forall pre filename content post,
    notes = (pre ++ Stored filename content :: post)%list ->
    exists pre' context other generated_content,
      pre = (pre' ++ [Dispatched filename context other])%list
      /\ strategy_returned hash service_manager prompts p custom_prompts
           (j ++ pre) filename context other generated_content
      /\ content = stored_value filename generated_content.
Proof.
  induction 1 as [j | j f c o | j f c o r rest Hret Hrest IH];
    intros pre filename content post Heq.
  - now destruct pre.
  - destruct pre as [|n [|n' pre]]; discriminate.
  - destruct pre as [|n [|n' pre]]; [discriminate | |].
    + cbn in Heq. injection Heq as <- <- <- _. exists [], c, o, r. auto.
    + cbn in Heq. injection Heq as <- <- Heq.
      destruct (IH _ _ _ _ Heq) as (pre' & c' & o' & r' & -> & Hr & ->).
      exists (Dispatched f c o :: Stored f (stored_value f r) :: pre'),
             c', o', r'.
      split; [reflexivity |]. split; [| reflexivity].
      rewrite <- app_assoc in Hr. exact Hr.
Qed.


Section RunFacts.

Variable hash : string -> Z.
Variable service_manager : ServiceManager.
Variable prompts : Prompts.
Variable dependency_planner : DependencyPlanner.

Lemma index_existing_files_pure items :
  forall index w,
  exists r, index_existing_files service_manager items index w = (r, w).
Proof.
  induction items as [|[rel_path content] rest IH]; intros index w; simpl.
  - eauto.
  - destruct (endswith rel_path ".py"); [| apply IH].
    unfold bind, lift.
    destruct (get_symbols_from_content _ content (module_path_of rel_path));
      [apply IH | eauto].
Qed.

(** Context construction either raises before anything is allocated,
    or allocates the session record of the plan at a fresh address
    and returns a context that refers to it. *)
Lemma build_generation_context_run p rag existing w :
  (exists e,
     build_generation_context service_manager p rag existing w
     = (Raised e, w))
  \/ (exists context,
        build_generation_context service_manager p rag existing w
        = (Ok context,
           MkWorld (<[fresh (dom (store w)) := planned_session p]> (store w))
                   (trace w) (journal w))
        /\ plan context = p
        /\ generation_session context = fresh (dom (store w))).
Proof.
  unfold build_generation_context.
  set (index_step := match _ with Some _ => _ | None => _ end).
  assert (Hpure : exists r, index_step w = (r, w)).
  { subst index_step.
    destruct (match get_project_manager service_manager with
              | Some path => if truthy path then path else None
              | None => None
              end) as [path|].
    - destruct (default [] existing) eqn:E.
      + unfold lift. eauto.
      + apply index_existing_files_pure.
    - unfold ret. eauto. }
  destruct Hpure as [r Hr].
  destruct r as [index|e].
  - right. rewrite (bind_step_Ok _ _ _ _ _ Hr).
    unfold bind, new_session, ret. cbn. eauto.
  - left. rewrite (bind_step_Raised _ _ _ _ _ Hr). eauto.
Qed.

(** The body of the [try], step by step. *)
Lemma coordinate_generation_body_run p rag existing custom_prompts w :
  match build_generation_context service_manager p rag existing
                                 (says w [start_message]) with
  | (Raised e, _) =>
      coordinate_generation_body hash service_manager prompts
        dependency_planner p rag existing custom_prompts w
      = (Raised e, says w [start_message])
  | (Ok context0, wb) =>
      plan context0 = p
      /\ (generation_session context0 ∉ dom (store w))
      /\ exists r w' notes,
           coordinate_generation_body hash service_manager prompts
             dependency_planner p rag existing custom_prompts w = (r, w')
           /\ dom (store w') = {[generation_session context0]} ∪ dom (store w)
           /\ journal w' = (journal w ++ notes)%list
           /\ match dependency_planner (trace wb) context0 with
              | Raised e => r = Raised e /\ notes = []
              | Ok order =>
                  views_ok (generation_session context0) ∅ notes
                  /\ forall generated, r = Ok generated ->
                       generated = apply_stores ∅ notes
                       /\ forall g, g ∈ dom generated
                            <-> g ∈ order /\ g ∈ planned_filenames p
              end
  end.
Proof.
  unfold coordinate_generation_body, log, start_message.
  rewrite bind_tell.
  set (w0 := says w _).
  destruct (build_generation_context_run p rag existing w0)
    as [(e & Hb) | (context0 & Hb & Hplan & Hgs)].
  - rewrite Hb. now rewrite (bind_step_Raised _ _ _ _ _ Hb).
  - rewrite Hb. rewrite (bind_step_Ok _ _ _ _ _ Hb).
    split; [exact Hplan |].
    split; [rewrite Hgs; apply is_fresh |].
    set (wb := MkWorld _ _ _).
    assert (Hdomb : dom (store wb)
                    = {[generation_session context0]} ∪ dom (store w))
      by (subst wb; cbn; rewrite dom_insert_L, Hgs; reflexivity).
    rewrite bind_history.
    destruct (dependency_planner (trace wb) context0) as [order|e].
    2:{ rewrite bind_await_Raised.
        eexists _, _, []. split; [reflexivity |].
        split; [exact Hdomb |].
        split; [cbn; now rewrite app_nil_r |].
        split; reflexivity. }
    rewrite bind_await_Ok.
    destruct (generation_loop_run hash service_manager prompts p
                custom_prompts (length order) order 0 context0 ∅ wb)
      as (r & w' & notes & Hl & Hdom & Hj & Hv & Hres).
    destruct r as [[context' generated']|e].
    + rewrite (bind_step_Ok _ _ _ _ _ Hl). rewrite bind_tell. unfold ret.
        eexists _, _, notes. split; [reflexivity |]. cbn.
        split; [now rewrite Hdom |].
        split; [exact Hj |]. split; [exact Hv |].
        intros generated [= <-].
        destruct (Hres _ _ eq_refl) as (Hgen & _ & Hd).
        split; [exact Hgen |].
        intros g. rewrite Hd, dom_empty, elem_of_empty. tauto.
    + rewrite (bind_step_Raised _ _ _ _ _ Hl).
        eexists _, _, notes. split; [reflexivity |].
        split; [now rewrite Hdom |].
        split; [exact Hj |].
        split; [exact Hv | discriminate].
Qed.

(** The notes of a run are those of its loop. *)
Lemma coordinate_generation_body_notes p rag existing custom_prompts w :
  exists r w' notes,
    coordinate_generation_body hash service_manager prompts
      dependency_planner p rag existing custom_prompts w = (r, w')
    /\ journal w' = (journal w ++ notes)%list
    /\ run_notes hash service_manager prompts p custom_prompts
                 (journal w) notes.
Proof.
  unfold coordinate_generation_body, log, start_message.
  rewrite bind_tell.
  set (w0 := says w _).
  destruct (build_generation_context_run p rag existing w0)
    as [(e & Hb) | (context0 & Hb & _)].
  - rewrite (bind_step_Raised _ _ _ _ _ Hb).
    eexists _, _, []. split; [reflexivity |]. cbn. rewrite app_nil_r.
    split; [reflexivity | constructor].
  - rewrite (bind_step_Ok _ _ _ _ _ Hb).
    set (wb := MkWorld _ _ _).
    rewrite bind_history.
    destruct (dependency_planner (trace wb) context0) as [order|s].
    2:{ rewrite bind_await_Raised.
        eexists _, _, []. split; [reflexivity |]. cbn. rewrite app_nil_r.
        split; [reflexivity | constructor]. }
    rewrite bind_await_Ok.
    destruct (generation_loop_notes hash service_manager prompts p
                custom_prompts (length order) order 0 context0 ∅ wb)
      as (r & w' & notes & Hl & Hj & Hnotes).
    destruct r as [[context' generated']|s].
    + rewrite (bind_step_Ok _ _ _ _ _ Hl). rewrite bind_tell. unfold ret.
      eexists _, _, notes. split; [reflexivity |].
      split; [exact Hj | exact Hnotes].
    + rewrite (bind_step_Raised _ _ _ _ _ Hl).
      eexists _, _, notes. split; [reflexivity |].
      split; [exact Hj | exact Hnotes].
Qed.

(** The [try] around the body: an [Exception] is reported and turned
    into the empty mapping, a cancellation passes through. *)
Lemma coordinate_generation_of_body p rag existing custom_prompts w :
  coordinate_generation hash service_manager prompts dependency_planner
                        p rag existing custom_prompts w
  = match coordinate_generation_body hash service_manager prompts
            dependency_planner p rag existing custom_prompts w with
    | (Ok generated, w') => (Ok generated, w')
    | (Raised (Exception e), w') => (Ok ∅, says w' (fatal_events e))
    | (Raised CancelledError, w') => (Raised CancelledError, w')
    end.
Proof.
  unfold coordinate_generation, try_catch.
  destruct (coordinate_generation_body _ _ _ _ _ _ _ _ _) as [[g|[e|]] w'];
    [reflexivity | | reflexivity].
  unfold bind, log, tell, ret, says, fatal_events. cbn.
  now rewrite <- app_assoc.
Qed.

(** The caller receives a mapping unless the run is cancelled: no
    [Exception] is raised. *)
Lemma coordinate_generation_returns p rag existing custom_prompts w :
  (exists generated w',
     coordinate_generation hash service_manager prompts dependency_planner
                           p rag existing custom_prompts w
     = (Ok generated, w'))
  \/ (exists w',
        coordinate_generation hash service_manager prompts
                              dependency_planner p rag existing
                              custom_prompts w
        = (Raised CancelledError, w')).
Proof.
  rewrite coordinate_generation_of_body.
  destruct (coordinate_generation_body _ _ _ _ _ _ _ _ _) as [[g|[e|]] w'];
    eauto.
Qed.

End RunFacts.
(* ===================================================================== *)
(** * Properties of a run                                                *)
(* ===================================================================== *)


(** C1, as stated, fails: a plan may name the same file twice.  Both
    artifacts of [Demo.plan_twice] are in the planner's order, are
    found in the plan and are generated and stored, and the run
    returns one entry for the two of them. *)
Lemma coordinate_generation_entries_counterexample :
  planned_filenames Demo.plan_twice = ["a.py"; "a.py"]
  /\ (forall past context,
        plan context = Demo.plan_twice ->
        Demo.planner past context = Ok ["a.py"; "a.py"])
  /\ (exists context1 context2,
        journal (snd DemoRuns.run_twice)
        = [Dispatched "a.py" context1 ∅; Stored "a.py" "class User: pass";
           Dispatched "a.py" context2 ∅; Stored "a.py" "class User: pass"])
  /\ fst (coordinate_generation Demo.hash Demo.services Demo.prompts
            Demo.planner Demo.plan_twice EmptyString None None Demo.w0)
     = Ok {[ "a.py" := "class User: pass" ]}
  /\ size ({[ "a.py" := "class User: pass" ]} : gmap string string) = 1
  /\ length (plan_files Demo.plan_twice) = 2.
Proof.
  split; [reflexivity |].
  split; [intros past context Hplan; unfold Demo.planner; now rewrite Hplan |].
  split; [eexists _, _; vm_compute; reflexivity |].
  split; [vm_compute; reflexivity |].
  split; [apply map_size_singleton | reflexivity].
Qed.

(** C1 (amended): when no exception escapes the loop and the order the
    planner returned in this run contains every planned filename, the
    returned mapping is keyed by exactly the planned filenames: it has
    one entry per distinct planned filename, so N entries for N planned
    artifacts of pairwise distinct filenames, and a filename outside
    the plan has no entry. *)
Theorem coordinate_generation_entries
    (hash : string -> Z) (service_manager : ServiceManager) (prompts : Prompts)
    (dependency_planner : DependencyPlanner) (p : Plan) (rag : string)
    (existing : option (list (string * string)))
    (custom_prompts : option (gmap string string))
    (w wb w' : world) (context0 : GenerationContext)
    (generation_order : list string) (generated : gmap string string) :
  build_generation_context service_manager p rag existing
                           (says w [start_message])
  = (Ok context0, wb) ->
  dependency_planner (trace wb) context0 = Ok generation_order ->
  (forall f, f ∈ planned_filenames p -> f ∈ generation_order) ->
  coordinate_generation_body hash service_manager prompts dependency_planner
    p rag existing custom_prompts w = (Ok generated, w') ->
  coordinate_generation hash service_manager prompts dependency_planner
    p rag existing custom_prompts w = (Ok generated, w')
  /\ dom generated = list_to_set (planned_filenames p)
  /\ size generated = length (remove_dups (planned_filenames p))
  /\ (NoDup (planned_filenames p) -> size generated = length (plan_files p))
  /\ (forall f, f ∉ planned_filenames p -> generated !! f = None).
Proof.
  intros Hbuild Horder Hplanner Hbody.
  split; [rewrite coordinate_generation_of_body, Hbody; reflexivity |].
  pose proof (coordinate_generation_body_run hash service_manager prompts
                dependency_planner p rag existing custom_prompts w) as Hrun.
  rewrite Hbuild, Horder in Hrun.
  destruct Hrun as (Hplan & _ & r & w'' & notes & Hr & _ & _ & _ & Hres).
  rewrite Hbody in Hr. injection Hr as <- <-.
  destruct (Hres _ eq_refl) as [_ Hdom].
  assert (Hkeys : dom generated = list_to_set (planned_filenames p)).
  { apply set_eq. intros g. rewrite Hdom, elem_of_list_to_set. split.
    - tauto.
    - intros Hg. split; [| exact Hg]. now apply Hplanner. }
  assert (Hsize : size generated = length (remove_dups (planned_filenames p))).
  { rewrite <- size_dom, Hkeys.
    rewrite <- (size_list_to_set (C := gset string)
                  (remove_dups (planned_filenames p)))
      by apply NoDup_remove_dups.
    f_equal. apply set_eq. intros g.
    now rewrite !elem_of_list_to_set, elem_of_remove_dups. }
  split; [exact Hkeys |]. split; [exact Hsize |]. split.
  - intros Hnodup. rewrite <- size_dom, Hkeys, size_list_to_set by exact Hnodup.
    unfold planned_filenames. apply length_map.
  - intros f Hf. apply not_elem_of_dom. rewrite Hkeys, elem_of_list_to_set.
    exact Hf.
Qed.

Lemma coordinate_generation_entries_witness :
  build_generation_context Demo.services Demo.plan2 EmptyString None
                           (says Demo.w0 [start_message])
  = (Ok (MkContext Demo.plan2 ∅ ∅ [] 1%positive EmptyString ∅ []),
     MkWorld {[ 1%positive := planned_session Demo.plan2 ]}
             [start_message] [])
  /\ DemoRuns.run_plan2 = (Ok DemoRuns.generated_plan2, snd DemoRuns.run_plan2)
  /\ coordinate_generation Demo.hash Demo.services Demo.prompts Demo.planner
       Demo.plan2 EmptyString None None Demo.w0
     = (Ok DemoRuns.generated_plan2, snd DemoRuns.run_plan2)
  /\ dom DemoRuns.generated_plan2 = list_to_set (planned_filenames Demo.plan2)
  /\ size DemoRuns.generated_plan2
     = length (remove_dups (planned_filenames Demo.plan2))
  /\ (NoDup (planned_filenames Demo.plan2) ->
      size DemoRuns.generated_plan2 = length (plan_files Demo.plan2))
  /\ (forall f, f ∉ planned_filenames Demo.plan2 ->
      DemoRuns.generated_plan2 !! f = None).
Proof.
  assert (Hbuild :
            build_generation_context Demo.services Demo.plan2 EmptyString None
                                     (says Demo.w0 [start_message])
            = (Ok (MkContext Demo.plan2 ∅ ∅ [] 1%positive EmptyString ∅ []),
               MkWorld {[ 1%positive := planned_session Demo.plan2 ]}
                       [start_message] []))
    by (vm_compute; reflexivity).
  assert (Hrun : DemoRuns.run_plan2
                 = (Ok DemoRuns.generated_plan2, snd DemoRuns.run_plan2))
    by (vm_compute; reflexivity).
  split; [exact Hbuild |]. split; [exact Hrun |].
  exact (coordinate_generation_entries Demo.hash Demo.services Demo.prompts
           Demo.planner Demo.plan2 EmptyString None None Demo.w0 _
           (snd DemoRuns.run_plan2) _ (planned_filenames Demo.plan2)
           DemoRuns.generated_plan2 Hbuild eq_refl (fun f Hf => Hf) Hrun).
Defined.

(** C6, as stated, fails: the handler of the run is
    [except Exception], and a cancellation is not an [Exception].
    When the task is cancelled while the first artifact is streamed,
    [coordinate_generation] returns no mapping at all: the
    cancellation reaches the caller. *)
Lemma fatal_exception_counterexample :
  fst DemoRuns.run_cancelled = Raised CancelledError
  /\ fst (coordinate_generation Demo.hash Demo.services_cancelled
            Demo.prompts Demo.planner Demo.plan_docs EmptyString None None
            Demo.w0)
     = Raised CancelledError
  /\ forall w',
       coordinate_generation Demo.hash Demo.services_cancelled Demo.prompts
         Demo.planner Demo.plan_docs EmptyString None None Demo.w0
       <> (Ok ∅, w').
Proof.
  assert (H : fst (coordinate_generation Demo.hash Demo.services_cancelled
                     Demo.prompts Demo.planner Demo.plan_docs EmptyString
                     None None Demo.w0)
              = Raised CancelledError)
    by (vm_compute; reflexivity).
  split; [vm_compute; reflexivity |]. split; [exact H |].
  intros w' Heq. rewrite Heq in H. discriminate.
Qed.

(** C6 (amended): if something raised escapes the body of the [try],
    in particular the loop itself, then: when it is an instance of
    [Exception], the run returns the empty mapping, whatever had been
    generated before, after logging the failure and printing its
    traceback; when it is a cancellation, the run returns nothing and
    the cancellation reaches the caller. *)
Theorem fatal_exception_empties_result
    (hash : string -> Z) (service_manager : ServiceManager) (prompts : Prompts)
    (dependency_planner : DependencyPlanner) (p : Plan) (rag : string)
    (existing : option (list (string * string)))
    (custom_prompts : option (gmap string string))
    (w w1 : world) (s : signal) :
  coordinate_generation_body hash service_manager prompts dependency_planner
    p rag existing custom_prompts w = (Raised s, w1)
  \/ (exists context0 wb generation_order,
        build_generation_context service_manager p rag existing
                                 (says w [start_message])
        = (Ok context0, wb)
        /\ dependency_planner (trace wb) context0 = Ok generation_order
        /\ generation_loop hash service_manager prompts p custom_prompts
             (length generation_order) 0 generation_order (context0, ∅) wb
           = (Raised s, w1)) ->
  coordinate_generation hash service_manager prompts dependency_planner
    p rag existing custom_prompts w
  = match s with
    | Exception e => (Ok ∅, says w1 (fatal_events e))
    | CancelledError => (Raised CancelledError, w1)
    end.
Proof.
  intros H.
  assert (Hbody : coordinate_generation_body hash service_manager prompts
                    dependency_planner p rag existing custom_prompts w
                  = (Raised s, w1)).
  { destruct H as [H | (context0 & wb & order & Hbuild & Horder & Hloop)];
      [exact H |].
    unfold coordinate_generation_body, log. rewrite bind_tell.
    fold start_message.
    rewrite (bind_step_Ok _ _ _ _ _ Hbuild), bind_history, Horder,
      bind_await_Ok.
    now rewrite (bind_step_Raised _ _ _ _ _ Hloop). }
  rewrite coordinate_generation_of_body, Hbody. now destruct s.
Qed.

Lemma fatal_exception_empties_result_witness :
  (DemoRuns.run_bad_template
   = (Raised (Exception "KeyError: 'author'"), snd DemoRuns.run_bad_template)
   \/ (exists context0 wb generation_order,
         build_generation_context Demo.services Demo.plan_docs EmptyString
                                  None (says Demo.w0 [start_message])
         = (Ok context0, wb)
         /\ Demo.planner (trace wb) context0 = Ok generation_order
         /\ generation_loop Demo.hash Demo.services Demo.prompts_bad_custom
              Demo.plan_docs DemoRuns.custom_md (length generation_order) 0
              generation_order (context0, ∅) wb
            = (Raised (Exception "KeyError: 'author'"),
               snd DemoRuns.run_bad_template)))
  /\ coordinate_generation Demo.hash Demo.services Demo.prompts_bad_custom
       Demo.planner Demo.plan_docs EmptyString None DemoRuns.custom_md Demo.w0
     = (Ok ∅, says (snd DemoRuns.run_bad_template)
                   (fatal_events "KeyError: 'author'")).
Proof.
  assert (Hloop :
            exists context0 wb generation_order,
              build_generation_context Demo.services Demo.plan_docs
                EmptyString None (says Demo.w0 [start_message])
              = (Ok context0, wb)
              /\ Demo.planner (trace wb) context0 = Ok generation_order
              /\ generation_loop Demo.hash Demo.services
                   Demo.prompts_bad_custom Demo.plan_docs DemoRuns.custom_md
                   (length generation_order) 0 generation_order
                   (context0, ∅) wb
                 = (Raised (Exception "KeyError: 'author'"),
                    snd DemoRuns.run_bad_template)).
  { eexists _, _, _. split; [vm_compute; reflexivity |].
    split; [vm_compute; reflexivity | vm_compute; reflexivity]. }
  split; [right; exact Hloop |].
  exact (fatal_exception_empties_result Demo.hash Demo.services
           Demo.prompts_bad_custom Demo.planner Demo.plan_docs EmptyString None
           DemoRuns.custom_md Demo.w0 (snd DemoRuns.run_bad_template)
           (Exception "KeyError: 'author'") (or_intror Hloop)).
Defined.

(** In that run the first artifact had been generated and stored before
    the second one failed: its output is not part of the result. *)
Example fatal_run_discards_earlier_output :
  Stored "a.py" "class User: pass" ∈ journal (snd DemoRuns.run_bad_template).
Proof. vm_compute. apply list_elem_of_further, list_elem_of_here. Qed.



Example session_record_identity_example :
  dom (store (snd DemoRuns.run_without_model)) = {[ 1%positive ]}.
Proof. vm_compute. reflexivity. Qed.

(* ===================================================================== *)
(** * Further properties: cleaning, node types, the retrieval filter     *)
(* ===================================================================== *)

Lemma lstrip_starts_clean (s : string) : starts_clean (lstrip s).
Proof.
  induction s as [|c s IH]; simpl; [exact I |].
  destruct (is_space c) eqn:E; [exact IH | exact E].
Qed.

Lemma lstrip_fixed (s : string) : starts_clean s -> lstrip s = s.
Proof. destruct s as [|c s]; simpl; [reflexivity | now intros ->]. Qed.

Lemma rstrip_starts_clean (s : string) : starts_clean s -> starts_clean (rstrip s).
Proof.
  destruct s as [|c s]; simpl; [exact id |].
  intros H. rewrite H. simpl. exact H.
Qed.

Lemma rstrip_rstrip (s : string) : rstrip (rstrip s) = rstrip s.
Proof.
  induction s as [|c s IH]; simpl; [reflexivity |].
  destruct (is_space c && is_empty (rstrip s)) eqn:E; [reflexivity |].
  simpl. rewrite IH, E. reflexivity.
Qed.

Lemma strip_strip (s : string) : strip (strip s) = strip s.
Proof.
  unfold strip.
  rewrite (lstrip_fixed (rstrip (lstrip s)))
    by apply rstrip_starts_clean, lstrip_starts_clean.
  apply rstrip_rstrip.
Qed.

(** [rstrip] cuts a tail off, [lstrip] a head. *)
Lemma rstrip_prefix (s : string) : exists tail, s = rstrip s +:+ tail.
Proof.
  induction s as [|c s [tail IH]]; simpl; [now exists EmptyString |].
  destruct (is_space c && is_empty (rstrip s)).
  - now exists (String c s).
  - exists tail. rewrite app_cons_s. now rewrite <- IH.
Qed.

Lemma startswith_app_l (a b p : string) :
  startswith a p = true -> startswith (a +:+ b) p = true.
Proof.
  revert a. induction p as [|x p IH]; intros a; simpl.
  - intros _. now destruct (a +:+ b).
  - destruct a as [|y a]; [discriminate |]. rewrite app_cons_s.
    intros H. apply andb_true_iff in H as [H1 H2].
    simpl. now rewrite H1, (IH a H2).
Qed.

Lemma contains_app_l (a b needle : string) :
  contains a needle = true -> contains (a +:+ b) needle = true.
Proof.
  induction a as [|x a IH]; rewrite contains_unfold.
  - rewrite orb_false_r. intros H. rewrite app_nil_s.
    destruct needle; [now destruct b | discriminate].
  - intros H. apply orb_true_iff in H as [H | H].
    + rewrite contains_unfold, (startswith_app_l _ b _ H). reflexivity.
    + rewrite app_cons_s, contains_unfold, (IH H). apply orb_true_r.
Qed.

Lemma contains_lstrip (s needle : string) :
  contains (lstrip s) needle = true -> contains s needle = true.
Proof.
  induction s as [|c s IH]; simpl; [exact id |].
  destruct (is_space c); [| exact id].
  intros H. rewrite (IH H). apply orb_true_r.
Qed.

Lemma contains_strip (s needle : string) :
  contains (strip s) needle = true -> contains s needle = true.
Proof.
  unfold strip. intros H. apply contains_lstrip.
  destruct (rstrip_prefix (lstrip s)) as [tail E]. rewrite E.
  now apply contains_app_l.
Qed.

Lemma code_block_search_none (s : string) :
  contains s fence_open = false -> code_block_search s = None.
Proof.
  induction s as [|c s IH]; rewrite contains_unfold; intros H;
    apply orb_false_iff in H as [Hs Hc]; cbn [code_block_search];
    unfold code_block_at; rewrite Hs; [reflexivity | now apply IH].
Qed.

(** X1: whatever the model returned, the cleaned content has no
    whitespace at either end: trimming it again changes nothing. *)
Theorem clean_output_is_trimmed (content : string) :
  strip (robust_clean_llm_output content) = robust_clean_llm_output content.
Proof.
  unfold robust_clean_llm_output.
  destruct (code_block_search (strip content)); apply strip_strip.
Qed.

(** X2: on a text without three backquotes in a row, cleaning is
    trimming. *)
Theorem clean_unfenced_is_strip (content : string) :
  contains content fence_open = false ->
  robust_clean_llm_output content = strip content.
Proof.
  intros Hno.
  assert (Hstrip : contains (strip content) fence_open = false).
  { destruct (contains (strip content) fence_open) eqn:E; [| reflexivity].
    apply contains_strip in E. congruence. }
  unfold robust_clean_llm_output.
  now rewrite (code_block_search_none _ Hstrip).
Qed.

Lemma clean_unfenced_is_strip_witness :
  contains ("  x = `1` " +:+ String LF EmptyString) fence_open = false
  /\ robust_clean_llm_output ("  x = `1` " +:+ String LF EmptyString)
     = strip ("  x = `1` " +:+ String LF EmptyString).
Proof.
  split; [reflexivity |].
  apply (clean_unfenced_is_strip ("  x = `1` " +:+ String LF EmptyString)).
  reflexivity.
Defined.

Lemma eqb_char_true (a b : ascii) : eqb_char a b = true -> a = b.
Proof.
  unfold eqb_char, code. intros H. apply N.eqb_eq in H.
  rewrite <- (ascii_N_embedding a), <- (ascii_N_embedding b). now rewrite H.
Qed.

(** The lazy group takes a prefix of the text, the closing fence
    follows it, and the group holds no closing fence itself. *)
Lemma lazy_body_split (s b : string) :
  lazy_body s = Some b -> exists rest, s = b +:+ fence_close +:+ rest.
Proof.
  revert b. induction s as [|c s IH]; intros b; cbn [lazy_body].
  - change (startswith EmptyString fence_close) with false. discriminate.
  - destruct (startswith (String c s) fence_close) eqn:E.
    + intros [= <-].
      exists (drop (String.length fence_close) (String c s)).
      rewrite app_nil_s. revert E. unfold fence_close.
      destruct s as [|c2 [|c3 [|c4 s]]]; simpl;
        rewrite ?andb_false_r; try discriminate.
      intros E. repeat (apply andb_true_iff in E as [?%eqb_char_true E]).
      subst. reflexivity.
    + destruct (lazy_body s) as [b'|]; [| discriminate].
      intros [= <-]. destruct (IH b' eq_refl) as [rest ->].
      exists rest. reflexivity.
Qed.

Lemma lazy_body_minimal (s b : string) :
  lazy_body s = Some b -> contains b fence_close = false.
Proof.
  revert b. induction s as [|c s IH]; intros b; cbn [lazy_body].
  - change (startswith EmptyString fence_close) with false. discriminate.
  - destruct (startswith (String c s) fence_close) eqn:E.
    + intros [= <-]. reflexivity.
    + destruct (lazy_body s) as [b'|] eqn:El; [| discriminate].
      intros [= <-]. rewrite contains_unfold, (IH b' eq_refl), orb_false_r.
      destruct (startswith (String c b') fence_close) eqn:Es; [| reflexivity].
      destruct (lazy_body_split _ _ El) as [rest ->].
      rewrite <- app_cons_s in E.
      rewrite (startswith_app_l _ _ _ Es) in E. discriminate.
Qed.

Lemma contains_tail (c : ascii) (s needle : string) :
  contains s needle = true -> contains (String c s) needle = true.
Proof. intros H. rewrite contains_unfold, H. apply orb_true_r. Qed.

Lemma contains_drop (n : nat) (s needle : string) :
  contains (drop n s) needle = true -> contains s needle = true.
Proof.
  revert s. induction n as [|n IH]; intros [|c s]; simpl; auto.
  intros H. apply contains_tail, IH, H.
Qed.

Lemma contains_span_snd (p : ascii -> bool) (s needle : string) :
  contains (snd (span p s)) needle = true -> contains s needle = true.
Proof.
  induction s as [|c s IH]; simpl; [exact id |].
  destruct (p c); [| exact id].
  destruct (span p s) as [a b]. simpl in *.
  intros H. apply contains_tail, IH, H.
Qed.

(** A match needs a closing fence, and its group holds none. *)
Lemma code_block_search_some (s b : string) :
  code_block_search s = Some b ->
  contains s fence_close = true /\ contains b fence_close = false.
Proof.
  assert (Hat : forall t, code_block_at t = Some b ->
            contains t fence_close = true /\ contains b fence_close = false).
  { intros t. unfold code_block_at.
    destruct (startswith t fence_open); [| discriminate].
    pose proof (contains_span_snd is_word (drop 3 t) fence_close) as Hspan.
    destruct (span is_word (drop 3 t)) as [tag rest]. simpl in Hspan.
    destruct rest as [|c body]; [discriminate |].
    destruct (eqb_char c LF); [| discriminate].
    intros Hl. split; [| eapply lazy_body_minimal, Hl].
    apply (contains_drop 3), Hspan, contains_tail.
    destruct (lazy_body_split _ _ Hl) as [rest ->]. apply contains_app. }
  induction s as [|c s IH]; cbn [code_block_search].
  - change (code_block_at EmptyString) with (@None string). discriminate.
  - destruct (code_block_at (String c s)) eqn:E.
    + intros [= <-]. eapply Hat, E.
    + intros H. destruct (IH H) as [H1 H2].
      split; [now apply contains_tail | exact H2].
Qed.

Lemma code_block_search_unfenced (s : string) :
  contains s fence_close = false -> code_block_search s = None.
Proof.
  intros H. destruct (code_block_search s) as [b|] eqn:E; [| reflexivity].
  apply code_block_search_some in E as [E _]. congruence.
Qed.

(** X3: cleaning is idempotent: cleaning a cleaned text gives the same
    text, whether or not the first pass found a fenced block. *)
Theorem clean_idempotent (content : string) :
  robust_clean_llm_output (robust_clean_llm_output content)
  = robust_clean_llm_output content.
Proof.
  assert (Hfix : forall t, contains t fence_close = false ->
                           robust_clean_llm_output (strip t) = strip t).
  { intros t Ht. unfold robust_clean_llm_output. rewrite strip_strip.
    rewrite code_block_search_unfenced; [reflexivity |].
    destruct (contains (strip t) fence_close) eqn:E; [| reflexivity].
    apply contains_strip in E. congruence. }
  unfold robust_clean_llm_output at 2 3.
  destruct (code_block_search (strip content)) as [body|] eqn:E.
  - apply Hfix. now apply code_block_search_some in E.
  - unfold robust_clean_llm_output. now rewrite strip_strip, E.
Qed.

Lemma span_fst_all (p : ascii -> bool) (s : string) :
  all_chars p (fst (span p s)) = true.
Proof.
  induction s as [|c s IH]; simpl; [reflexivity |].
  destruct (p c) eqn:E; [| reflexivity].
  destruct (span p s) as [a b]. simpl in *. now rewrite E, IH.
Qed.

Lemma spaces_then_word_is_word (s w : string) :
  spaces_then_word s = Some w ->
  is_empty w = false /\ all_chars is_word w = true.
Proof.
  unfold spaces_then_word.
  destruct (span is_space s) as [ws rest].
  pose proof (span_fst_all is_word rest) as Hall.
  destruct (span is_word rest) as [w' tail]. simpl in Hall.
  destruct (is_empty ws || is_empty w') eqn:E; [discriminate |].
  intros [= <-]. apply orb_false_iff in E as [_ E]. auto.
Qed.

Lemma node_type_search_is_word (s w : string) :
  node_type_search s = Some w ->
  is_empty w = false /\ all_chars is_word w = true.
Proof.
  assert (Hat : forall t, node_type_at t = Some w ->
                          is_empty w = false /\ all_chars is_word w = true).
  { intros t. unfold node_type_at, keyword_then_word.
    destruct (startswith (lower t) (lower "Root node is")).
    - destruct (spaces_then_word _) eqn:E1.
      + intros [= <-]. eapply spaces_then_word_is_word, E1.
      + destruct (startswith (lower t) (lower "Extends")); [| discriminate].
        apply spaces_then_word_is_word.
    - destruct (startswith (lower t) (lower "Extends")); [| discriminate].
      apply spaces_then_word_is_word. }
  induction s as [|c s IH]; cbn [node_type_search].
  - destruct (node_type_at EmptyString) eqn:E; [| discriminate].
    intros [= <-]. eapply Hat, E.
  - destruct (node_type_at (String c s)) eqn:E.
    + intros [= <-]. eapply Hat, E.
    + exact IH.
Qed.

(** X4: the node type put into a scene is always a non-empty run of
    letters, digits and underscores, whatever the purpose says. *)
Theorem node_type_is_identifier (purpose : string) :
  is_empty (_extract_node_type_from_purpose purpose) = false
  /\ all_chars is_word (_extract_node_type_from_purpose purpose) = true.
Proof.
  unfold _extract_node_type_from_purpose.
  destruct (node_type_search purpose) as [w|] eqn:E.
  - eapply node_type_search_is_word, E.
  - split; reflexivity.
Qed.

Lemma node_type_search_none (s : string) :
  contains (lower s) "root node is" = false ->
  contains (lower s) "extends" = false ->
  node_type_search s = None.
Proof.
  induction s as [|c s IH]; intros H1 H2;
    rewrite contains_unfold in H1, H2;
    apply orb_false_iff in H1 as [H1 H1'];
    apply orb_false_iff in H2 as [H2 H2'];
    cbn [node_type_search]; unfold node_type_at, keyword_then_word;
    change (lower "Root node is") with "root node is";
    change (lower "Extends") with "extends";
    rewrite H1, H2; [reflexivity | now apply IH].
Qed.

(** X5: a purpose written in ASCII that mentions neither
    [root node is] nor [extends], in any letter case, gives the default
    node type [Node]. *)
Theorem node_type_default (purpose : string) :
  is_ascii purpose = true ->
  contains (lower purpose) "root node is" = false ->
  contains (lower purpose) "extends" = false ->
  _extract_node_type_from_purpose purpose = "Node".
Proof.
  intros _ H1 H2. unfold _extract_node_type_from_purpose.
  now rewrite (node_type_search_none _ H1 H2).
Qed.

Lemma node_type_default_witness :
  is_ascii "The player EXTENDED scene" = true
  /\ contains (lower "The player EXTENDED scene") "root node is" = false
  /\ contains (lower "The player EXTENDED scene") "extends" = false
  /\ _extract_node_type_from_purpose "The player EXTENDED scene" = "Node".
Proof.
  split; [reflexivity |]. split; [reflexivity |]. split; [reflexivity |].
  apply (node_type_default "The player EXTENDED scene"); reflexivity.
Defined.

Lemma length_app_s (a b : string) :
  String.length (a +:+ b) = (String.length a + String.length b)%nat.
Proof.
  induction a as [|c a IH]; rewrite ?app_nil_s, ?app_cons_s; simpl;
    [reflexivity | now rewrite IH].
Qed.

Lemma length_take_chars (n : nat) (s : string) :
  (String.length (take_chars n s) <= n)%nat.
Proof.
  revert s. induction n as [|n IH]; intros [|c s]; simpl; try lia.
  specialize (IH s). lia.
Qed.

(** X6: the retrieval text kept for a file is never longer than 1003
    characters (1000 and the ellipsis), and an empty retrieval text
    gives the empty text. *)
Theorem filter_rag_context_bounded (filename rag_context : string) :
  (String.length (_filter_rag_context filename rag_context) <= 1003)%nat
  /\ (_filter_rag_context filename EmptyString = EmptyString).
Proof.
  split; [| reflexivity].
  unfold _filter_rag_context.
  destruct (is_empty rag_context); [simpl; lia |].
  cbv zeta.
  match goal with
  | |- context [(1000 <? String.length ?r)%nat] =>
      destruct (1000 <? String.length r)%nat eqn:E
  end.
  - rewrite length_app_s.
    match goal with
    | |- context [take_chars 1000 ?r] =>
        pose proof (length_take_chars 1000 r)
    end.
    change (String.length "...") with 3%nat. lia.
  - apply Nat.ltb_ge in E. lia.
Qed.

Example filter_rag_context_example :
  _filter_rag_context "models.py"
    ("intro" +:+ rag_separator +:+ " 1 --- how to IMPORT things "
       +:+ rag_separator +:+ " 2 --- cooking")
  = "1 --- how to IMPORT things"
  /\ _filter_rag_context "models.py"
       ("intro" +:+ rag_separator +:+ " cooking" +:+ rag_separator +:+ " tea")
     = "intro" +:+ paragraph_break +:+ " cooking".
Proof. split; vm_compute; reflexivity. Qed.

(* ===================================================================== *)
(** * Further properties: the context builder                            *)
(* ===================================================================== *)

Lemma find_snoc {A} (f : A -> bool) (l : list A) (x : A) :
  List.find f (l ++ [x])
  = match List.find f l with
    | Some y => Some y
    | None => if f x then Some x else None
    end.
Proof.
  induction l as [|a l IH]; simpl; [reflexivity |].
  destruct (f a); [reflexivity | exact IH].
Qed.

Lemma planned_session_fold (files : list file_info)
    (acc : gmap string session_entry) (filename : string) :
  List.fold_left
    (fun session fi => <[fi_filename fi := planned_entry fi]> session)
    files acc !! filename
  = match List.find (fun fi => String.eqb (fi_filename fi) filename)
                    (List.rev files) with
    | Some fi => Some (planned_entry fi)
    | None => acc !! filename
    end.
Proof.
  revert acc. induction files as [|fi files IH]; intros acc; simpl;
    [reflexivity |].
  rewrite IH, find_snoc.
  destruct (List.find _ (List.rev files)); [reflexivity |].
  destruct (String.eqb (fi_filename fi) filename) eqn:E.
  - apply String.eqb_eq in E. subst. apply lookup_insert_eq.
  - apply String.eqb_neq in E. now apply lookup_insert_ne.
Qed.

Lemma find_filename_Some (files : list file_info) (filename : string) :
  is_Some (List.find (fun fi => String.eqb (fi_filename fi) filename) files)
  <-> filename ∈ List.map fi_filename files.
Proof.
  induction files as [|fi files IH]; simpl.
  - split; [intros [? [=]] | intros H; inversion H].
  - destruct (String.eqb (fi_filename fi) filename) eqn:E.
    + apply String.eqb_eq in E. subst. split; [intros _; left | eauto].
    + apply String.eqb_neq in E. rewrite IH. split.
      * intros H. now right.
      * intros H. inversion H; subst; [contradiction | assumption].
Qed.

Lemma planned_session_lookup (p : Plan) (filename : string) :
  planned_session p !! filename = planned_entry <$> last_file_info p filename.
Proof.
  unfold planned_session, last_file_info.
  change (fun session fi =>
            <[fi_filename fi :=
                SessionEntry (fi_purpose fi) "planned"
                             (_extract_file_dependencies fi) None]> session)
    with (fun session fi => <[fi_filename fi := planned_entry fi]>
                              (session : gmap string session_entry)).
  rewrite planned_session_fold, lookup_empty.
  now destruct (List.find _ _).
Qed.

Lemma find_rev_is_Some (files : list file_info) (filename : string) :
  is_Some (List.find (fun fi => String.eqb (fi_filename fi) filename)
                     (List.rev files))
  <-> is_Some (List.find (fun fi => String.eqb (fi_filename fi) filename)
                         files).
Proof.
  rewrite !find_filename_Some, List.map_rev, !list_elem_of_In.
  symmetry. apply List.in_rev.
Qed.

Lemma dom_planned_session (p : Plan) :
  dom (planned_session p) = list_to_set (planned_filenames p).
Proof.
  apply set_eq. intros f.
  rewrite elem_of_dom, planned_session_lookup, elem_of_list_to_set.
  unfold last_file_info, planned_filenames.
  rewrite <- find_filename_Some, <- find_rev_is_Some. apply fmap_is_Some.
Qed.

(** X7: the session record made for a plan has one entry per planned
    filename and no other; each entry is planned, holds no content, and
    carries the purpose and the dependencies of the last entry of the
    plan with that filename. *)
Theorem planned_session_entries (p : Plan) (filename : string) :
  planned_session p !! filename
  = planned_entry <$> last_file_info p filename
  /\ dom (planned_session p) = list_to_set (planned_filenames p).
Proof. split; [apply planned_session_lookup | apply dom_planned_session]. Qed.

Lemma find_filename_None (files : list file_info) (filename : string) :
  filename ∉ List.map fi_filename files ->
  List.find (fun fi => String.eqb (fi_filename fi) filename) files = None.
Proof.
  intros H. destruct (List.find _ files) eqn:E; [| reflexivity].
  exfalso. apply H, find_filename_Some. rewrite E. eauto.
Qed.

Lemma find_rev_nodup (files : list file_info) (filename : string) :
  NoDup (List.map fi_filename files) ->
  List.find (fun fi => String.eqb (fi_filename fi) filename) (List.rev files)
  = List.find (fun fi => String.eqb (fi_filename fi) filename) files.
Proof.
  induction files as [|fi files IH]; simpl; [reflexivity |].
  intros Hnd. apply NoDup_cons in Hnd as [Hnotin Hnd].
  rewrite find_snoc, (IH Hnd).
  destruct (String.eqb (fi_filename fi) filename) eqn:E.
  - apply String.eqb_eq in E. subst.
    now rewrite (find_filename_None _ _ Hnotin).
  - now destruct (List.find _ files).
Qed.

(** X8: when the filenames of the plan are distinct, the session entry
    of a file carries the purpose of the very plan entry that the loop
    generates the file from.  (With a repeated filename the loop reads
    the first entry and the session record keeps the last.) *)
Theorem session_purpose_is_generated_purpose (p : Plan) (filename : string)
    (fi : file_info) :
  NoDup (planned_filenames p) ->
  find_file_info p filename = Some fi ->
  planned_session p !! filename = Some (planned_entry fi).
Proof.
  intros Hnd Hfind.
  rewrite planned_session_lookup. unfold last_file_info. rewrite (find_rev_nodup _ _ Hnd).
  unfold find_file_info in Hfind. now rewrite Hfind.
Qed.

Lemma session_purpose_is_generated_purpose_witness :
  NoDup (planned_filenames Demo.plan2)
  /\ find_file_info Demo.plan2 "service.py"
     = Some (FileInfo "service.py" "service using models")
  /\ planned_session Demo.plan2 !! "service.py"
     = Some (planned_entry (FileInfo "service.py" "service using models")).
Proof.
  assert (Hnd : NoDup (planned_filenames Demo.plan2)).
  { apply NoDup_cons. split; [| apply NoDup_singleton].
    intros H. apply list_elem_of_singleton in H. discriminate. }
  split; [exact Hnd |]. split; [reflexivity |].
  exact (session_purpose_is_generated_purpose Demo.plan2 "service.py"
           (FileInfo "service.py" "service using models") Hnd eq_refl).
Defined.

(** With a repeated filename the two differ. *)
Example repeated_filename_purposes :
  let p := MkPlan [FileInfo "a.py" "first"; FileInfo "a.py" "second"] [] in
  (fi_purpose <$> find_file_info p "a.py") = Some "first"
  /\ (se_purpose <$> planned_session p !! "a.py") = Some "second".
Proof. split; vm_compute; reflexivity. Qed.

Lemma lower_char_idem (c : ascii) : lower_char (lower_char c) = lower_char c.
Proof. destruct c as [[] [] [] [] [] [] [] []]; reflexivity. Qed.

Lemma lower_idem (s : string) : lower (lower s) = lower s.
Proof.
  induction s as [|c s IH]; simpl; [reflexivity |].
  unfold lower in *. simpl. now rewrite lower_char_idem, IH.
Qed.

Lemma alpha_not_space (c : ascii) : is_alpha c = true -> is_space c = false.
Proof. destruct c as [[] [] [] [] [] [] [] []]; cbv; congruence. Qed.

Lemma lower_char_alpha (c : ascii) : is_alpha (lower_char c) = is_alpha c.
Proof. destruct c as [[] [] [] [] [] [] [] []]; reflexivity. Qed.

Lemma all_alpha_lower (s : string) :
  all_chars is_alpha (lower s) = all_chars is_alpha s.
Proof.
  unfold lower. induction s as [|c s IH]; simpl; [reflexivity |].
  now rewrite lower_char_alpha, IH.
Qed.

Lemma length_lower (s : string) : String.length (lower s) = String.length s.
Proof.
  unfold lower. induction s as [|c s IH]; simpl; [reflexivity | now rewrite IH].
Qed.

Lemma rstrip_alpha (s : string) : all_chars is_alpha s = true -> rstrip s = s.
Proof.
  induction s as [|c s IH]; simpl; [reflexivity |].
  intros H. apply andb_true_iff in H as [Hc Hs].
  now rewrite (alpha_not_space _ Hc), (IH Hs).
Qed.

Lemma strip_alpha (s : string) : all_chars is_alpha s = true -> strip s = s.
Proof.
  intros H. unfold strip. rewrite lstrip_fixed; [now apply rstrip_alpha |].
  destruct s as [|c s]; simpl in *; [exact I |].
  apply andb_true_iff in H as [Hc _]. now apply alpha_not_space.
Qed.

Lemma keyword_words_shape (text keyword : string) :
  In keyword (keyword_words text) ->
  lower keyword = keyword
  /\ (3 < String.length keyword)%nat /\ isalpha keyword = true.
Proof.
  unfold keyword_words. intros H.
  apply List.in_map_iff in H as (word & <- & H).
  apply List.filter_In in H as [_ H].
  apply andb_true_iff in H as [Hlen Halpha].
  apply Nat.ltb_lt in Hlen.
  unfold isalpha in Halpha. apply andb_true_iff in Halpha as [Hne Hall].
  rewrite (strip_alpha _ Hall).
  split; [apply lower_idem |]. split; [now rewrite length_lower |].
  unfold isalpha. rewrite all_alpha_lower, Hall.
  destruct word; [discriminate | reflexivity].
Qed.

(** X9: for a plan written in ASCII, every keyword extracted from it
    is in lower case, so that looking for it in a lowercased text
    ignores the letter case of the plan; and a keyword is a declared
    dependency of the plan in lower case, or a word of more than three
    letters, all alphabetic. *)
Theorem plan_keywords_shape (p : Plan) (keyword : string) :
  plan_is_ascii p = true ->
  keyword ∈ _extract_keywords_from_plan p ->
  lower keyword = keyword
  /\ (keyword ∈ List.map lower (plan_dependencies p)
      \/ ((3 < String.length keyword)%nat /\ isalpha keyword = true)).
Proof.
  intros _. unfold _extract_keywords_from_plan.
  rewrite elem_of_union, !elem_of_list_to_set.
  intros [H | H].
  - apply list_elem_of_In, List.in_flat_map in H as (fi & _ & H).
    apply List.in_app_or in H as [H | H];
      apply keyword_words_shape in H as (Hl & Hlen & Ha); auto.
  - split; [| now left].
    apply list_elem_of_In, List.in_map_iff in H as (dep & <- & _).
    apply lower_idem.
Qed.

Lemma plan_keywords_shape_witness :
  plan_is_ascii (MkPlan [FileInfo "Data_Models.py" "The MODELS of it"]
                        ["NumPy"]) = true
  /\ "models" ∈ _extract_keywords_from_plan
                  (MkPlan [FileInfo "Data_Models.py" "The MODELS of it"]
                          ["NumPy"])
  /\ lower "models" = "models"
  /\ ("models" ∈ List.map lower
                   (plan_dependencies
                      (MkPlan [FileInfo "Data_Models.py" "The MODELS of it"]
                              ["NumPy"]))
      \/ ((3 < String.length "models")%nat /\ isalpha "models" = true)).
Proof.
  assert (H : "models" ∈ _extract_keywords_from_plan
                (MkPlan [FileInfo "Data_Models.py" "The MODELS of it"]
                        ["NumPy"]))
    by (vm_compute; reflexivity).
  split; [reflexivity |]. split; [exact H |].
  apply (plan_keywords_shape
           (MkPlan [FileInfo "Data_Models.py" "The MODELS of it"] ["NumPy"])
           "models"); [reflexivity | exact H].
Defined.

Example plan_keywords_example :
  _extract_keywords_from_plan
    (MkPlan [FileInfo "Data_Models.py" "The MODELS of it"] ["NumPy"])
  = {[ "models"; "data"; "numpy" ]}.
Proof. vm_compute. reflexivity. Qed.

Lemma score_rag_chunks_bounded (chunks : list string) (keywords : gset string) :
  forall i scores,
    (forall key v, scores !! key = Some v -> (0 <= v <= 1)%Q) ->
    forall key v,
      score_rag_chunks i chunks keywords scores !! key = Some v ->
      (0 <= v <= 1)%Q.
Proof.
  induction chunks as [|chunk rest IH]; intros i scores Hs; simpl;
    [exact Hs |].
  apply IH. destruct (negb (is_empty (strip chunk))); [| exact Hs].
  intros key v. rewrite lookup_insert. case_decide.
  - intros [= <-]. apply text_relevance_unit.
  - apply Hs.
Qed.

(** X10: every relevance score computed for a context lies between 0
    and 1. *)
Theorem relevance_scores_bounded (p : Plan) (index : gmap string string)
    (rag key : string) (v : Q) :
  _calculate_relevance_scores p index rag !! key = Some v ->
  (0 <= v <= 1)%Q.
Proof.
  unfold _calculate_relevance_scores.
  set (f := fun (module_name module_content : string) (scores : gmap string Q) =>
              <["project_index:" +:+ module_name :=
                  _calculate_text_relevance module_content
                    (_extract_keywords_from_plan p)]> scores).
  assert (Hfold : forall key v, map_fold f ∅ index !! key = Some v ->
                                (0 <= v <= 1)%Q).
  { apply (map_fold_weak_ind
             (fun r _ => forall key v, r !! key = Some v -> (0 <= v <= 1)%Q)).
    - intros ? ?. rewrite lookup_empty. discriminate.
    - intros i x m r _ IH key' v'. unfold f. rewrite lookup_insert.
      case_decide.
      + intros [= <-]. apply text_relevance_unit.
      + apply IH. }
  destruct (negb (is_empty rag)); [| apply Hfold].
  apply score_rag_chunks_bounded, Hfold.
Qed.

Lemma relevance_scores_bounded_witness :
  _calculate_relevance_scores Demo.plan2 {[ "User" := "data.models" ]}
    ("x" +:+ rag_separator +:+ " data models service using data")
    !! "rag_chunk:1" = Some (7205759403792794 # 144115188075855872)%Q
  /\ (0 <= 7205759403792794 # 144115188075855872 <= 1)%Q.
Proof.
  assert (H : _calculate_relevance_scores Demo.plan2
                {[ "User" := "data.models" ]}
                ("x" +:+ rag_separator +:+ " data models service using data")
                !! "rag_chunk:1" = Some (7205759403792794 # 144115188075855872)%Q)
    by (vm_compute; reflexivity).
  split; [exact H |].
  exact (relevance_scores_bounded _ _ _ _ _ H).
Defined.

Lemma app_inv_head_s (a b c : string) : a +:+ b = a +:+ c -> b = c.
Proof.
  induction a as [|x a IH]; rewrite ?app_nil_s, ?app_cons_s; [exact id |].
  intros [= H]. exact (IH H).
Qed.

Lemma score_rag_chunks_other (chunks : list string) (keywords : gset string)
    (key : string) :
  (forall n : nat, key <> "rag_chunk:" +:+ pretty n) ->
  forall (i : nat) (scores : gmap string Q),
    score_rag_chunks i chunks keywords scores !! key = scores !! key.
Proof.
  intros Hkey. induction chunks as [|chunk rest IH]; intros i scores; simpl;
    [reflexivity |].
  rewrite IH. destruct (negb (is_empty (strip chunk))); [| reflexivity].
  apply lookup_insert_ne. intros H. exact (Hkey i (eq_sym H)).
Qed.

(** X11: every symbol of the project index gets a relevance score,
    under the key [project_index:<symbol>]; the text that is scored is
    the module path the symbol maps to.  A name that is not in the
    index has no such score. *)
Theorem relevance_scores_of_index (p : Plan) (index : gmap string string)
    (rag symbol : string) :
  _calculate_relevance_scores p index rag !! ("project_index:" +:+ symbol)
  = (fun module_path =>
       _calculate_text_relevance module_path (_extract_keywords_from_plan p))
      <$> index !! symbol.
Proof.
  unfold _calculate_relevance_scores.
  set (score := fun module_path : string =>
                  _calculate_text_relevance module_path
                    (_extract_keywords_from_plan p)).
  set (f := fun (module_name module_content : string) (scores : gmap string Q) =>
              <["project_index:" +:+ module_name := score module_content]>
                scores).
  assert (Hfold : map_fold f ∅ index !! ("project_index:" +:+ symbol)
                  = score <$> index !! symbol).
  { apply (map_fold_weak_ind
             (fun r m => r !! ("project_index:" +:+ symbol)
                         = score <$> m !! symbol)).
    - now rewrite !lookup_empty.
    - intros i x m r _ IH. unfold f.
      destruct (decide (i = symbol)) as [->|Hne].
      + now rewrite !lookup_insert_eq.
      + rewrite !lookup_insert_ne; [exact IH | congruence |].
        intros H. apply app_inv_head_s in H. congruence. }
  destruct (negb (is_empty rag)); [| exact Hfold].
  rewrite score_rag_chunks_other; [exact Hfold |].
  intros n H. discriminate H.
Qed.

Lemma rag_key_inj (i n : nat) :
  "rag_chunk:" +:+ pretty i = "rag_chunk:" +:+ pretty n -> i = n.
Proof. intros H. apply app_inv_head_s in H. now apply (inj pretty) in H. Qed.

Lemma score_rag_chunks_lookup (chunks : list string) (keywords : gset string)
    (n : nat) :
  forall (i : nat) (scores : gmap string Q),
    score_rag_chunks i chunks keywords scores !! ("rag_chunk:" +:+ pretty n)
    = match (if decide (i <= n)%nat then chunks !! (n - i)%nat else None) with
      | Some chunk =>
          if is_empty (strip chunk)
          then scores !! ("rag_chunk:" +:+ pretty n)
          else Some (_calculate_text_relevance chunk keywords)
      | None => scores !! ("rag_chunk:" +:+ pretty n)
      end.
Proof.
  induction chunks as [|chunk rest IH]; intros i scores.
  - simpl. destruct (decide (i <= n)%nat); reflexivity.
  - cbn [score_rag_chunks]. rewrite IH.
    destruct (decide (i = n)) as [->|Hne].
    + rewrite decide_False by lia. rewrite decide_True by lia.
      rewrite Nat.sub_diag. cbn [lookup list_lookup].
      destruct (is_empty (strip chunk)); cbn [negb];
        [reflexivity | apply lookup_insert_eq].
    + assert (Hother :
        (if negb (is_empty (strip chunk))
         then <["rag_chunk:" +:+ pretty i :=
                  _calculate_text_relevance chunk keywords]> scores
         else scores) !! ("rag_chunk:" +:+ pretty n)
        = scores !! ("rag_chunk:" +:+ pretty n)).
      { destruct (negb (is_empty (strip chunk))); [| reflexivity].
        apply lookup_insert_ne. intros H. apply rag_key_inj in H. lia. }
      destruct (decide (S i <= n)%nat) as [Hle|Hgt].
      * rewrite decide_True by lia.
        replace (n - i)%nat with (S (n - S i)) by lia.
        cbn [lookup list_lookup]. fold (@lookup _ _ _ (@list_lookup string)).
        rewrite Hother. reflexivity.
      * rewrite decide_False by lia. exact Hother.
Qed.

(** X12: when the retrieval text is not empty, the chunk number [n] of
    its split at the snippet separator (counted from 0) gets a score
    under the key [rag_chunk:n] exactly when it is not blank; an empty
    retrieval text gives no such score. *)
Theorem relevance_scores_of_chunks (p : Plan) (index : gmap string string)
    (rag : string) (n : nat) :
  _calculate_relevance_scores p index rag !! ("rag_chunk:" +:+ pretty n)
  = if is_empty rag then None
    else match split_sep rag rag_separator !! n with
         | Some chunk =>
             if is_empty (strip chunk) then None
             else Some (_calculate_text_relevance chunk
                          (_extract_keywords_from_plan p))
         | None => None
         end.
Proof.
  unfold _calculate_relevance_scores.
  set (f := fun (module_name module_content : string) (scores : gmap string Q) =>
              <["project_index:" +:+ module_name :=
                  _calculate_text_relevance module_content
                    (_extract_keywords_from_plan p)]> scores).
  assert (Hfold : map_fold f ∅ index !! ("rag_chunk:" +:+ pretty n) = None).
  { apply (map_fold_weak_ind
             (fun r _ => r !! ("rag_chunk:" +:+ pretty n) = None)).
    - apply lookup_empty.
    - intros i x m r _ IH. unfold f. rewrite lookup_insert_ne; [exact IH |].
      intros H. discriminate H. }
  destruct (is_empty rag); cbn [negb]; [exact Hfold |].
  rewrite score_rag_chunks_lookup, Hfold.
  rewrite decide_True by lia. rewrite Nat.sub_0_r.
  destruct (split_sep rag rag_separator !! n) as [chunk|]; [| reflexivity].
  now destruct (is_empty (strip chunk)).
Qed.

Example relevance_scores_keys_example :
  dom (_calculate_relevance_scores Demo.plan2 {[ "User" := "data.models" ]}
         ("x" +:+ rag_separator +:+ "   " +:+ rag_separator +:+ " data"))
  = {[ "project_index:User"; "rag_chunk:0"; "rag_chunk:2" ]}.
Proof. vm_compute. reflexivity. Qed.

(* ===================================================================== *)
(** * Further properties: the dependency list of a file                  *)
(* ===================================================================== *)

(** X13: for [main.py] the dependency list names the module of every
    other planned [.py] file, and reading the list changes nothing. *)
Theorem main_depends_on_every_module (context : GenerationContext)
    (w : world) (fi : file_info) :
  fi ∈ plan_files (plan context) ->
  fi_filename fi <> "main.py" ->
  endswith (fi_filename fi) ".py" = true ->
  exists deps,
    _get_file_dependencies "main.py" context w = (Ok deps, w)
    /\ module_path_of (fi_filename fi) ∈ deps.
Proof.
  intros Hin Hne Hpy. unfold _get_file_dependencies, bind, read_session, ret.
  eexists. split; [reflexivity |].
  apply elem_of_union_r, elem_of_list_to_set, list_elem_of_In.
  unfold imported_modules.
  apply (List.in_map (fun fi => module_path_of (fi_filename fi))).
  apply List.filter_In. split; [now apply list_elem_of_In |].
  rewrite Hpy. apply String.eqb_neq in Hne. rewrite Hne. reflexivity.
Qed.

Lemma main_depends_on_every_module_witness :
  FileInfo "core/bus.py" "event bus" ∈ plan_files (plan DemoExtra.context_main)
  /\ fi_filename (FileInfo "core/bus.py" "event bus") <> "main.py"
  /\ endswith (fi_filename (FileInfo "core/bus.py" "event bus")) ".py" = true
  /\ exists deps,
       _get_file_dependencies "main.py" DemoExtra.context_main
                              DemoExtra.world_main
       = (Ok deps, DemoExtra.world_main)
       /\ module_path_of (fi_filename (FileInfo "core/bus.py" "event bus"))
          ∈ deps.
Proof.
  assert (Hin : FileInfo "core/bus.py" "event bus"
                ∈ plan_files (plan DemoExtra.context_main))
    by (do 3 apply list_elem_of_further; apply list_elem_of_here).
  assert (Hne : fi_filename (FileInfo "core/bus.py" "event bus") <> "main.py")
    by discriminate.
  split; [exact Hin |]. split; [exact Hne |]. split; [reflexivity |].
  exact (main_depends_on_every_module DemoExtra.context_main
           DemoExtra.world_main (FileInfo "core/bus.py" "event bus")
           Hin Hne eq_refl).
Defined.

Example file_dependencies_example :
  fst (_get_file_dependencies "main.py" DemoExtra.context_main
                              DemoExtra.world_main)
  = Ok {[ "models"; "core.bus" ]}
  /\ fst (_get_file_dependencies "models.py" DemoExtra.context_main
                                 DemoExtra.world_main)
     = Ok ∅.
Proof. split; vm_compute; reflexivity. Qed.


Lemma startswith_head (c : ascii) (x y : string) (a : ascii) :
  startswith (String c x) (String a EmptyString)
  = startswith (String c y) (String a EmptyString).
Proof. now destruct x, y. Qed.

(** X14: the module path derived from a filename never contains a
    slash: every directory separator has become a dot. *)
Theorem module_path_has_no_slash (filename : string) :
  contains (module_path_of filename) "/" = false.
Proof.
  unfold module_path_of, replace.
  generalize (replace_from 0 filename ".py" EmptyString). intros s.
  induction s as [|c s IH]; [reflexivity |].
  cbn [replace_from]. change (String.length "/" - 1)%nat with 0%nat.
  destruct (startswith (String c s) "/") eqn:E.
  - rewrite app_cons_s, app_nil_s, contains_unfold, IH. reflexivity.
  - rewrite contains_unfold, IH, orb_false_r.
    now rewrite (startswith_head c _ s).
Qed.

Example module_path_examples :
  module_path_of "core/event_bus.py" = "core.event_bus"
  /\ module_path_of "a.p.pyy" = "a.py".
Proof. split; reflexivity. Qed.
(* ===================================================================== *)
(** * Further properties: building the context                           *)
(* ===================================================================== *)

Section BuilderFacts.

Variable service_manager : ServiceManager.

(** The loop over the files on disk, when it ends normally. *)
Lemma index_existing_files_Ok items :
  forall index index' w,
    index_existing_files service_manager items index w = (Ok index', w) ->
    (forall s m, index !! s = Some m -> is_Some (index' !! s))
    /\ (forall rel_path content,
          In (rel_path, content) items ->
          endswith rel_path ".py" = true ->
          exists symbols,
            symbols_of_file service_manager rel_path content = Ok symbols
            /\ dom symbols ⊆ dom index')
    /\ (forall s m,
          index' !! s = Some m ->
          index !! s = Some m
          \/ exists rel_path content symbols,
               In (rel_path, content) items
               /\ endswith rel_path ".py" = true
               /\ symbols_of_file service_manager rel_path content = Ok symbols
               /\ symbols !! s = Some m).
Proof.
  induction items as [|[rel_path content] rest IH]; intros index index' w.
  - simpl. unfold ret. intros [= <-].
    split; [eauto |]. split; [intros ? ? [] | auto].
  - cbn [index_existing_files].
    destruct (endswith rel_path ".py") eqn:Epy.
    + unfold bind at 1, lift.
      destruct (get_symbols_from_content _ content (module_path_of rel_path))
        as [symbols|e] eqn:Esym; [| discriminate].
      intros Hrest. apply IH in Hrest as (Hkeep & Hall & Hfrom).
      assert (Hsub : dom symbols ⊆ dom index').
      { intros s Hs. apply elem_of_dom in Hs as [m Hm]. apply elem_of_dom.
        apply (Hkeep s m). apply lookup_union_Some_raw. now left. }
      split; [| split].
      * intros s m Hs.
        destruct (symbols !! s) as [m'|] eqn:E.
        -- apply (Hkeep s m'). apply lookup_union_Some_raw. now left.
        -- apply (Hkeep s m). apply lookup_union_Some_raw. now right.
      * intros rel_path' content' [[= <- <-] | Hin] Hpy; [eauto |].
        now apply Hall.
      * intros s m Hs. apply Hfrom in Hs as [Hs | Hs].
        -- apply lookup_union_Some_raw in Hs as [Hs | [_ Hs]]; [| now left].
           right. exists rel_path, content, symbols.
           repeat split; auto. now left.
        -- right. destruct Hs as (r & c & sy & Hin & Hrest).
           exists r, c, sy. split; [now right | exact Hrest].
    + intros Hrest. apply IH in Hrest as (Hkeep & Hall & Hfrom).
      split; [exact Hkeep |]. split.
      * intros rel_path' content' [[= <- <-] | Hin] Hpy;
          [congruence | now apply Hall].
      * intros s m Hs. apply Hfrom in Hs as [Hs | Hs]; [now left |].
        right. destruct Hs as (r & c & sy & Hin & Hrest).
        exists r, c, sy. split; [now right | exact Hrest].
Qed.

(** The loop over the files on disk, when the indexer rejects one. *)
Lemma index_existing_files_Raised items rel_path content e :
  In (rel_path, content) items ->
  endswith rel_path ".py" = true ->
  symbols_of_file service_manager rel_path content = Raised e ->
  forall index w,
  exists e',
    index_existing_files service_manager items index w
    = (Raised (Exception e'), w).
Proof.
  intros Hin Hpy Hsym.
  induction items as [|[rel_path' content'] rest IH]; [destruct Hin |].
  intros index w. cbn [index_existing_files].
  destruct (endswith rel_path' ".py") eqn:Epy.
  - unfold bind at 1, lift.
    destruct (get_symbols_from_content _ content' (module_path_of rel_path'))
      as [symbols|e0] eqn:Esym; [| eauto].
    destruct Hin as [[= -> ->] | Hin]; [| now apply IH].
    unfold symbols_of_file in Hsym. congruence.
  - destruct Hin as [[= -> ->] | Hin]; [congruence | now apply IH].
Qed.

(** What [build_generation_context] does once its index is known. *)
Lemma build_generation_context_index p rag existing w :
  build_generation_context service_manager p rag existing w
  = match (if has_active_project service_manager
           then match default [] existing with
                | [] =>
                    match get_project_manager service_manager with
                    | Some (Some path) =>
                        lift (build_index
                                (get_project_indexer_service service_manager)
                                path) w
                    | _ => (Ok ∅, w)
                    end
                | files => index_existing_files service_manager files ∅ w
                end
           else (Ok ∅, w)) with
    | (Ok index, _) =>
        (Ok (MkContext p index ∅ [] (fresh (dom (store w))) rag
                       (_calculate_relevance_scores p index rag)
                       (default [] existing)),
         MkWorld (<[fresh (dom (store w)) := planned_session p]> (store w))
                 (trace w) (journal w))
    | (Raised e, _) => (Raised e, w)
    end.
Proof.
  unfold build_generation_context, has_active_project.
  destruct (get_project_manager service_manager) as [[path|]|]; cbn [truthy].
  - destruct (negb (is_empty path)).
    + destruct (default [] existing) as [|item rest] eqn:Efiles.
      * unfold bind, lift, new_session, ret.
        now destruct (build_index _ path).
      * destruct (index_existing_files_pure service_manager (item :: rest)
                    ∅ w) as [r Hr].
        unfold bind at 1. rewrite Hr. destruct r; reflexivity.
    + reflexivity.
  - reflexivity.
  - reflexivity.
Qed.

(** X15: without an active project the files on disk are kept in the
    context but not indexed: the index is empty whatever they contain,
    the indexer is not consulted, and building the context cannot
    fail. *)
Theorem build_without_project (p : Plan) (rag : string)
    (existing : option (list (string * string))) (w : world) :
  has_active_project service_manager = false ->
  exists context,
    build_generation_context service_manager p rag existing w
    = (Ok context,
       MkWorld (<[fresh (dom (store w)) := planned_session p]> (store w))
               (trace w) (journal w))
    /\ project_index context = ∅
    /\ existing_files context = default [] existing
    /\ plan context = p.
Proof.
  intros Hno. rewrite build_generation_context_index, Hno.
  eexists. split; [reflexivity |]. repeat split.
Qed.

(** X16: with an active project and files on disk, the index of the
    new context holds every symbol of every [.py] file on disk, and
    nothing else: each of its entries is given by the symbols of such a
    file.  Files of other kinds add nothing. *)
Theorem build_indexes_existing_files (p : Plan) (rag : string)
    (existing : option (list (string * string))) (w w' : world)
    (context : GenerationContext) :
  has_active_project service_manager = true ->
  default [] existing <> [] ->
  build_generation_context service_manager p rag existing w
  = (Ok context, w') ->
  (forall rel_path content,
     (rel_path, content) ∈ default [] existing ->
     endswith rel_path ".py" = true ->
     exists symbols,
       symbols_of_file service_manager rel_path content = Ok symbols
       /\ dom symbols ⊆ dom (project_index context))
  /\ (forall s m,
        project_index context !! s = Some m ->
        exists rel_path content symbols,
          (rel_path, content) ∈ default [] existing
          /\ endswith rel_path ".py" = true
          /\ symbols_of_file service_manager rel_path content = Ok symbols
          /\ symbols !! s = Some m).
Proof.
  intros Hactive Hfiles. rewrite build_generation_context_index, Hactive.
  destruct (default [] existing) as [|item rest] eqn:E; [congruence |].
  destruct (index_existing_files_pure service_manager (item :: rest) ∅ w)
    as [r Hr].
  rewrite Hr. destruct r as [index|e]; [| discriminate].
  intros [= <- _]. cbn [project_index].
  apply index_existing_files_Ok in Hr as (_ & Hall & Hfrom).
  split.
  - intros rel_path content Hin. apply Hall. now apply list_elem_of_In.
  - intros s m Hs. apply Hfrom in Hs as [Hs | Hs];
      [rewrite lookup_empty in Hs; discriminate |].
    destruct Hs as (r & c & sy & Hin & Hrest).
    exists r, c, sy. split; [now apply list_elem_of_In | exact Hrest].
Qed.

(** X17: with an active project, one [.py] file on disk that the
    indexer rejects makes the construction of the context raise; no
    session record has been created then and nothing has been
    emitted. *)
Theorem build_fails_on_rejected_file (p : Plan) (rag : string)
    (existing : option (list (string * string))) (w : world)
    (rel_path content : string) (e : exn) :
  has_active_project service_manager = true ->
  (rel_path, content) ∈ default [] existing ->
  endswith rel_path ".py" = true ->
  symbols_of_file service_manager rel_path content = Raised e ->
  exists e',
    build_generation_context service_manager p rag existing w
    = (Raised (Exception e'), w).
Proof.
  intros Hactive Hin Hpy Hsym.
  rewrite build_generation_context_index, Hactive.
  apply list_elem_of_In in Hin.
  destruct (default [] existing) as [|item rest] eqn:E; [destruct Hin |].
  destruct (index_existing_files_Raised _ _ _ _ Hin Hpy Hsym ∅ w) as [e' He].
  rewrite He. eauto.
Qed.

End BuilderFacts.

Lemma build_without_project_witness :
  has_active_project Demo.services_failing_indexer = false
  /\ exists context,
       build_generation_context Demo.services_failing_indexer Demo.plan_docs
         EmptyString (Some DemoExtra.existing) Demo.w0
       = (Ok context,
          MkWorld (<[fresh (dom (store Demo.w0))
                       := planned_session Demo.plan_docs]> (store Demo.w0))
                  (trace Demo.w0) (journal Demo.w0))
       /\ project_index context = ∅
       /\ existing_files context = default [] (Some DemoExtra.existing)
       /\ plan context = Demo.plan_docs.
Proof.
  split; [reflexivity |].
  exact (build_without_project Demo.services_failing_indexer Demo.plan_docs
           EmptyString (Some DemoExtra.existing) Demo.w0 eq_refl).
Defined.

Lemma build_indexes_existing_files_witness :
  has_active_project DemoExtra.services_active = true
  /\ default [] (Some DemoExtra.existing) <> []
  /\ build_generation_context DemoExtra.services_active Demo.plan_docs
       EmptyString (Some DemoExtra.existing) Demo.w0
     = (Ok DemoExtra.context_existing, Demo.world_docs)
  /\ (forall rel_path content,
        (rel_path, content) ∈ default [] (Some DemoExtra.existing) ->
        endswith rel_path ".py" = true ->
        exists symbols,
          symbols_of_file DemoExtra.services_active rel_path content
          = Ok symbols
          /\ dom symbols ⊆ dom (project_index DemoExtra.context_existing))
  /\ (forall s m,
        project_index DemoExtra.context_existing !! s = Some m ->
        exists rel_path content symbols,
          (rel_path, content) ∈ default [] (Some DemoExtra.existing)
          /\ endswith rel_path ".py" = true
          /\ symbols_of_file DemoExtra.services_active rel_path content
             = Ok symbols
          /\ symbols !! s = Some m).
Proof.
  assert (Hfiles : default [] (Some DemoExtra.existing) <> [])
    by discriminate.
  assert (Hrun : build_generation_context DemoExtra.services_active
                   Demo.plan_docs EmptyString (Some DemoExtra.existing)
                   Demo.w0
                 = (Ok DemoExtra.context_existing, Demo.world_docs))
    by (vm_compute; reflexivity).
  split; [reflexivity |]. split; [exact Hfiles |]. split; [exact Hrun |].
  exact (build_indexes_existing_files DemoExtra.services_active
           Demo.plan_docs EmptyString (Some DemoExtra.existing) Demo.w0
           Demo.world_docs DemoExtra.context_existing eq_refl Hfiles Hrun).
Defined.

Lemma build_fails_on_rejected_file_witness :
  has_active_project DemoExtra.services_active_failing = true
  /\ ("models.py", "class User: pass") ∈ default [] (Some DemoExtra.existing)
  /\ endswith "models.py" ".py" = true
  /\ symbols_of_file DemoExtra.services_active_failing "models.py"
       "class User: pass" = Raised "invalid syntax"
  /\ exists e',
       build_generation_context DemoExtra.services_active_failing
         Demo.plan_docs EmptyString (Some DemoExtra.existing) Demo.w0
       = (Raised (Exception e'), Demo.w0).
Proof.
  assert (Hin : ("models.py", "class User: pass")
                ∈ default [] (Some DemoExtra.existing))
    by (apply list_elem_of_further, list_elem_of_here).
  split; [reflexivity |]. split; [exact Hin |]. split; [reflexivity |].
  split; [reflexivity |].
  exact (build_fails_on_rejected_file DemoExtra.services_active_failing
           Demo.plan_docs EmptyString (Some DemoExtra.existing) Demo.w0
           "models.py" "class User: pass" "invalid syntax"
           eq_refl Hin eq_refl eq_refl).
Defined.

(* ===================================================================== *)
(** * Further properties: updating the context                           *)
(* ===================================================================== *)

Lemma with_project_index_same (context : GenerationContext) :
  with_project_index context (project_index context) = context.
Proof. now destruct context. Qed.

Lemma session_evolves_refl s : session_evolves s s.
Proof.
  split; [reflexivity |]. intros l. split; [reflexivity |].
  intros f e e' H1 H2. rewrite H1 in H2. injection H2 as <-. auto.
Qed.

Lemma session_evolves_trans s1 s2 s3 :
  session_evolves s1 s2 -> session_evolves s2 s3 -> session_evolves s1 s3.
Proof.
  intros [Hd12 H12] [Hd23 H23]. split; [congruence |].
  intros l. destruct (H12 l) as [Hk12 He12]. destruct (H23 l) as [Hk23 He23].
  split; [congruence |].
  intros f e1 e3 H1 H3.
  assert (Hmid : is_Some (default ∅ (s2 !! l) !! f)).
  { apply elem_of_dom. rewrite Hk12. apply elem_of_dom. eauto. }
  destruct Hmid as [e2 H2].
  destruct (He12 f e1 e2 H1 H2) as (Hp12 & Hdep12 & Hs12).
  destruct (He23 f e2 e3 H2 H3) as (Hp23 & Hdep23 & Hs23).
  split; [congruence |]. split; [congruence |].
  destruct Hs23 as [-> | Hc]; [exact Hs12 | now right].
Qed.

Lemma session_evolves_completion s l filename code :
  session_evolves s (store_after_completion s l filename code).
Proof.
  split; [apply dom_store_after_completion |].
  intros l'. split.
  - apply set_eq. intros g. rewrite !elem_of_dom.
    rewrite store_after_completion_entries.
    case_bool_decide as H; [| reflexivity].
    destruct H as [-> ->]. apply fmap_is_Some.
  - intros f e e'. rewrite store_after_completion_entries.
    case_bool_decide as H.
    + destruct H as [-> ->]. intros ->. cbn. intros [= <-].
      cbn. split; [reflexivity |]. split; [reflexivity |].
      right. split; [reflexivity | eauto].
    + intros -> [= <-]. auto.
Qed.

Section UpdaterExtras.

Variable service_manager : ServiceManager.

Lemma update_session_context_store context filename code rest w :
  store (snd (update_session_context service_manager context
                ((filename, code) :: rest) w))
  = store_after_completion (store w) (generation_session context)
                           filename code.
Proof.
  rewrite update_session_context_run. cbv zeta.
  destruct (endswith filename ".py");
    [destruct (get_symbols_from_content _ code (module_path_of filename)) |];
    reflexivity.
Qed.

(** X18: the update raises exactly when the mapping it is given is
    empty: the handler then fails on the same missing first key.  For a
    mapping with an entry it returns a context whatever the indexer
    does. *)
Theorem update_raises_only_on_empty (context : GenerationContext)
    (newly_generated_file : list (string * string)) (w : world) :
  (exists e,
     fst (update_session_context service_manager context
            newly_generated_file w) = Raised e)
  <-> newly_generated_file = [].
Proof.
  destruct newly_generated_file as [|[filename code] rest].
  - rewrite update_session_context_empty. split; [reflexivity | eauto].
  - rewrite update_session_context_run. cbv zeta. split; [| discriminate].
    intros [e He]. revert He.
    destruct (endswith filename ".py");
      [destruct (get_symbols_from_content _ code (module_path_of filename)) |];
      discriminate.
Qed.

(** X19: an update never adds or removes a session record or a key of
    one, never changes a purpose or a dependency list, and leaves each
    entry as it was or completed with content. *)
Theorem update_session_evolves (context : GenerationContext)
    (newly_generated_file : list (string * string)) (w : world) :
  session_evolves
    (store w)
    (store (snd (update_session_context service_manager context
                   newly_generated_file w))).
Proof.
  destruct newly_generated_file as [|[filename code] rest].
  - rewrite update_session_context_empty. apply session_evolves_refl.
  - rewrite update_session_context_store. apply session_evolves_completion.
Qed.

(** X20: for a file that is not a [.py] file the update returns the
    context it was given, prints nothing and does not consult the
    indexer; only the session entry of the file, if there is one, is
    completed. *)
Theorem update_other_kind_keeps_context (context : GenerationContext)
    (filename code : string) (rest : list (string * string)) (w : world) :
  endswith filename ".py" = false ->
  update_session_context service_manager context ((filename, code) :: rest) w
  = (Ok context,
     MkWorld (store_after_completion (store w) (generation_session context)
                                     filename code)
             (trace w) (journal w)).
Proof.
  intros Hpy. rewrite update_session_context_run. cbv zeta.
  now rewrite Hpy, with_project_index_same.
Qed.

End UpdaterExtras.

Lemma update_other_kind_keeps_context_witness :
  endswith "b.md" ".py" = false
  /\ update_session_context Demo.services_failing_indexer Demo.context_docs
       [("b.md", "notes")] Demo.world_docs
     = (Ok Demo.context_docs,
        MkWorld (store_after_completion (store Demo.world_docs)
                   (generation_session Demo.context_docs) "b.md" "notes")
                (trace Demo.world_docs) (journal Demo.world_docs)).
Proof.
  split; [reflexivity |].
  exact (update_other_kind_keeps_context Demo.services_failing_indexer
           Demo.context_docs "b.md" "notes" [] Demo.world_docs eq_refl).
Defined.

(* ===================================================================== *)
(** * Further properties: the content strategy                           *)
(* ===================================================================== *)

Lemma app_empty_s (s : string) : s +:+ EmptyString = s.
Proof.
  induction s as [|c s IH]; [reflexivity |].
  now rewrite app_cons_s, IH.
Qed.

Lemma consume_stream_run (filename : string) (chunks : list string) :
  forall (file_content : string) (w : world),
    consume_stream filename chunks file_content w
    = (Ok (file_content +:+ concat_chunks chunks),
       says w (chunk_events filename chunks)).
Proof.
  induction chunks as [|chunk rest IH]; intros file_content w.
  - cbn. unfold ret. rewrite says_nil.
    now rewrite app_empty_s.
  - cbn [consume_stream chunk_events concat_chunks List.map fold_right].
    rewrite bind_tell, IH, says_says.
    fold (concat_chunks rest). now rewrite app_assoc_s.
Qed.

Section StrategyExtras.

Variable hash : string -> Z.
Variable service_manager : ServiceManager.
Variable prompts : Prompts.

(** What the strategy does for a file that is not a scene, step by
    step. *)
Lemma generate_single_file_run fi context other custom_prompts w :
  PyPath.suffix (fi_filename fi) <> ".tscn" ->
  _generate_single_file hash service_manager prompts fi context other
                        custom_prompts w
  = let filename := fi_filename fi in
    let w1 := says w (custom_prompt_events fi custom_prompts) in
    match strategy_prompt prompts fi context other custom_prompts with
    | Raised e => (Raised (Exception e), w1)
    | Ok prompt =>
        if is_empty prompt
        then (Ok None, says w1 [no_prompt_error filename])
        else
          match get_model_for_role (get_llm_client service_manager)
                                   (trace w1) "coder" with
          | Raised e => (Raised (Exception e), says w1 [ModelResolve "coder"])
          | Ok (provider, model) =>
              if truthy provider && truthy model then
                let provider := default EmptyString provider in
                let model := default EmptyString model in
                let '(chunks, failure) :=
                  stream_chat (get_llm_client service_manager)
                              (trace w1 ++ [ModelResolve "coder"])
                              provider model prompt "coder" in
                (match failure with
                 | None => Ok (Some (concat_chunks chunks))
                 | Some (Exception _) => Ok None
                 | Some CancelledError => Raised CancelledError
                 end,
                 says w1 ([ModelResolve "coder";
                           ModelStream provider model prompt "coder"]
                          ++ chunk_events filename chunks
                          ++ match failure with
                             | Some (Exception e) => [stream_error filename e]
                             | _ => []
                             end))
              else (Ok None,
                    says w1 [ModelResolve "coder"; no_model_error filename])
          end
    end.
Proof.
  intros Hscene. apply String.eqb_neq in Hscene.
  unfold _generate_single_file. rewrite Hscene. cbv zeta.
  assert (Hprompt :
    forall k : string -> M (option string),
      bind
        match custom_prompts !! PyPath.suffix (fi_filename fi) with
        | Some prompt_template =>
            bind
              (log "info"
                 ("Using custom prompt for extension '"
                    +:+ PyPath.suffix (fi_filename fi) +:+ "'"))
              (fun _ =>
                 lift (custom_format prompts prompt_template (fi_filename fi)
                         (PyPath.stem (fi_filename fi)) (fi_purpose fi)
                         (plan context)))
        | None =>
            if String.eqb (PyPath.suffix (fi_filename fi)) ".py" then
              lift (_build_python_coder_prompt prompts fi context other)
            else if String.eqb (PyPath.suffix (fi_filename fi)) ".gd" then
              lift (_build_gdscript_coder_prompt prompts fi context)
            else if bool_decide (PyPath.suffix (fi_filename fi)
                                   ∈ [".godot"; ".import"; ".svg"]) then
              lift (_build_godot_generic_prompt prompts fi context)
            else
              lift (_build_simple_file_prompt prompts fi context other)
        end k w
      = match strategy_prompt prompts fi context other custom_prompts with
        | Ok prompt => k prompt (says w (custom_prompt_events fi custom_prompts))
        | Raised e =>
            (Raised (Exception e),
             says w (custom_prompt_events fi custom_prompts))
        end).
  { intros k. unfold strategy_prompt, custom_prompt_events.
    destruct (custom_prompts !! PyPath.suffix (fi_filename fi)).
    - rewrite bind_assoc. unfold log. rewrite bind_tell.
      destruct (custom_format _ _ _ _ _ _); reflexivity.
    - rewrite says_nil.
      repeat match goal with
             | |- context [if ?b then _ else _] => destruct b
             end;
        match goal with
        | |- bind (lift ?o) _ _ = _ => destruct o; reflexivity
        end. }
  rewrite Hprompt.
  destruct (strategy_prompt prompts fi context other custom_prompts)
    as [prompt|e]; [| reflexivity].
  set (w1 := says w _).
  destruct (is_empty prompt); [unfold log; now rewrite bind_tell |].
  rewrite bind_history, bind_tell.
  change (trace (says w1 [ModelResolve "coder"]))
    with (trace w1 ++ [ModelResolve "coder"])%list.
  destruct (get_model_for_role _ (trace w1) "coder") as [[provider model]|e];
    [rewrite bind_lift_Ok | now rewrite bind_lift_Raised].
  unfold no_model_error, log.
  destruct provider as [provider|], model as [model|]; cbn [truthy andb];
    try (rewrite bind_tell, says_says; reflexivity);
    try (destruct (negb (is_empty provider));
         rewrite bind_tell, says_says; reflexivity).
  destruct (is_empty provider), (is_empty model); cbn [negb andb orb];
    try (rewrite bind_tell, says_says; reflexivity).
  rewrite bind_history, bind_tell.
  change (trace (says w1 [ModelResolve "coder"]))
    with (trace w1 ++ [ModelResolve "coder"])%list.
  change (default EmptyString (Some provider)) with provider.
  change (default EmptyString (Some model)) with model.
  destruct (stream_chat _ _ provider model prompt "coder")
    as [chunks failure].
  rewrite (bind_step_Ok _ _ _ _ _ (consume_stream_run _ _ _ _)).
  rewrite app_nil_s, !says_says.
  destruct failure as [[e|]|].
  - rewrite bind_tell, says_says. unfold stream_error. cbn [app].
    now rewrite <- ?app_assoc.
  - unfold await. now rewrite app_nil_r.
  - unfold ret. now rewrite app_nil_r.
Qed.

(** X21: when no prompt can be made for a file that is not a scene
    (the template raises, or renders to the empty text), the model
    client is not consulted at all: an exception of the template
    escapes the strategy, an empty prompt gives no content. *)
Theorem no_prompt_no_model_call (fi : file_info)
    (context : GenerationContext) (other custom_prompts : gmap string string)
    (w : world) :
  PyPath.suffix (fi_filename fi) <> ".tscn" ->
  (forall prompt,
     strategy_prompt prompts fi context other custom_prompts = Ok prompt ->
     prompt = EmptyString) ->
  exists events,
    _generate_single_file hash service_manager prompts fi context other
                          custom_prompts w
    = (match strategy_prompt prompts fi context other custom_prompts with
       | Raised e => Raised (Exception e)
       | Ok _ => Ok None
       end,
       says w events)
    /\ Forall (fun e => is_model_event e = false) events.
Proof.
  intros Hscene Hprompt. rewrite generate_single_file_run by exact Hscene.
  cbv zeta.
  assert (Hcustom :
    Forall (fun e => is_model_event e = false)
           (custom_prompt_events fi custom_prompts)).
  { unfold custom_prompt_events.
    destruct (custom_prompts !! PyPath.suffix (fi_filename fi));
      [apply Forall_cons; split; [reflexivity |] |]; now apply Forall_nil. }
  destruct (strategy_prompt prompts fi context other custom_prompts)
    as [prompt|e].
  - rewrite (Hprompt prompt eq_refl). cbn [is_empty]. rewrite says_says.
    eexists. split; [reflexivity |].
    apply Forall_app. split; [exact Hcustom |].
    apply Forall_cons. split; [reflexivity | now apply Forall_nil].
  - eexists. split; [reflexivity | exact Hcustom].
Qed.

(** X22: when the client names no provider or no model for the coder
    role, the strategy gives no content for a file that is not a scene,
    logs the error and opens no stream. *)
Theorem no_model_no_stream (fi : file_info)
    (context : GenerationContext) (other custom_prompts : gmap string string)
    (w : world) (prompt : string) (provider model : option string) :
  PyPath.suffix (fi_filename fi) <> ".tscn" ->
  strategy_prompt prompts fi context other custom_prompts = Ok prompt ->
  is_empty prompt = false ->
  get_model_for_role (get_llm_client service_manager)
    (trace w ++ custom_prompt_events fi custom_prompts) "coder"
  = Ok (provider, model) ->
  truthy provider && truthy model = false ->
  _generate_single_file hash service_manager prompts fi context other
                        custom_prompts w
  = (Ok None,
     says w (custom_prompt_events fi custom_prompts
             ++ [ModelResolve "coder"; no_model_error (fi_filename fi)])).
Proof.
  intros Hscene Hprompt Hne Hrole Hnone.
  rewrite generate_single_file_run by exact Hscene. cbv zeta.
  rewrite Hprompt, Hne. cbn [says trace]. rewrite Hrole, Hnone.
  unfold says. cbn [store trace journal]. now rewrite <- app_assoc.
Qed.

(** X23: with a prompt and a model, the content of a file that is not
    a scene is the concatenation of the chunks of the stream, in order,
    and every chunk is published as it comes.  When the stream breaks
    by an exception, the chunks received so far have been published,
    the error is logged, and the strategy gives no content.  When the
    stream is cancelled, the chunks received so far have been
    published, nothing is logged, and the cancellation leaves the
    strategy. *)
Theorem stream_outcome (fi : file_info)
    (context : GenerationContext) (other custom_prompts : gmap string string)
    (w : world) (prompt provider model : string) (chunks : list string)
    (failure : option signal) :
  PyPath.suffix (fi_filename fi) <> ".tscn" ->
  strategy_prompt prompts fi context other custom_prompts = Ok prompt ->
  is_empty prompt = false ->
  get_model_for_role (get_llm_client service_manager)
    (trace w ++ custom_prompt_events fi custom_prompts) "coder"
  = Ok (Some provider, Some model) ->
  is_empty provider = false ->
  is_empty model = false ->
  stream_chat (get_llm_client service_manager)
    (trace w ++ custom_prompt_events fi custom_prompts
       ++ [ModelResolve "coder"])
    provider model prompt "coder"
  = (chunks, failure) ->
  _generate_single_file hash service_manager prompts fi context other
                        custom_prompts w
  = (match failure with
     | None => Ok (Some (concat_chunks chunks))
     | Some (Exception _) => Ok None
     | Some CancelledError => Raised CancelledError
     end,
     says w (custom_prompt_events fi custom_prompts
             ++ [ModelResolve "coder";
                 ModelStream provider model prompt "coder"]
             ++ chunk_events (fi_filename fi) chunks
             ++ match failure with
                | Some (Exception e) => [stream_error (fi_filename fi) e]
                | _ => []
                end)).
Proof.
  intros Hscene Hprompt Hne Hrole Hp Hm Hstream.
  rewrite generate_single_file_run by exact Hscene. cbv zeta.
  rewrite Hprompt, Hne. cbn [says trace]. rewrite Hrole.
  cbn [truthy]. rewrite Hp, Hm. cbn [negb andb].
  change (default EmptyString (Some provider)) with provider.
  change (default EmptyString (Some model)) with model.
  rewrite <- (app_assoc (trace w)), Hstream.
  now rewrite says_says.
Qed.

End StrategyExtras.

Lemma no_prompt_no_model_call_witness :
  PyPath.suffix (fi_filename (FileInfo "b.md" "notes")) <> ".tscn"
  /\ (forall prompt,
        strategy_prompt Demo.prompts_bad_custom (FileInfo "b.md" "notes")
          Demo.context_docs ∅ {[ ".md" := "{author}" ]} = Ok prompt ->
        prompt = EmptyString)
  /\ exists events,
       _generate_single_file Demo.hash Demo.services Demo.prompts_bad_custom
         (FileInfo "b.md" "notes") Demo.context_docs ∅
         {[ ".md" := "{author}" ]} Demo.world_docs
       = (match strategy_prompt Demo.prompts_bad_custom
                  (FileInfo "b.md" "notes") Demo.context_docs ∅
                  {[ ".md" := "{author}" ]} with
          | Raised e => Raised (Exception e)
          | Ok _ => Ok None
          end,
          says Demo.world_docs events)
       /\ Forall (fun e => is_model_event e = false) events.
Proof.
  assert (Hscene : PyPath.suffix (fi_filename (FileInfo "b.md" "notes"))
                   <> ".tscn") by (vm_compute; discriminate).
  assert (Hprompt : forall prompt,
            strategy_prompt Demo.prompts_bad_custom (FileInfo "b.md" "notes")
              Demo.context_docs ∅ {[ ".md" := "{author}" ]} = Ok prompt ->
            prompt = EmptyString)
    by (intros prompt H; vm_compute in H; discriminate H).
  split; [exact Hscene |]. split; [exact Hprompt |].
  exact (no_prompt_no_model_call Demo.hash Demo.services
           Demo.prompts_bad_custom (FileInfo "b.md" "notes")
           Demo.context_docs ∅ {[ ".md" := "{author}" ]} Demo.world_docs
           Hscene Hprompt).
Defined.

Lemma no_model_no_stream_witness :
  PyPath.suffix (fi_filename (FileInfo "a.py" "first module")) <> ".tscn"
  /\ strategy_prompt Demo.prompts (FileInfo "a.py" "first module")
       Demo.context_docs ∅ ∅ = Ok "code a.py"
  /\ is_empty "code a.py" = false
  /\ get_model_for_role (get_llm_client Demo.services_without_model)
       (trace Demo.world_docs
          ++ custom_prompt_events (FileInfo "a.py" "first module") ∅)
       "coder"
     = Ok (None, None)
  /\ truthy None && truthy None = false
  /\ _generate_single_file Demo.hash Demo.services_without_model Demo.prompts
       (FileInfo "a.py" "first module") Demo.context_docs ∅ ∅
       Demo.world_docs
     = (Ok None,
        says Demo.world_docs
          (custom_prompt_events (FileInfo "a.py" "first module") ∅
           ++ [ModelResolve "coder";
               no_model_error (fi_filename (FileInfo "a.py" "first module"))])).
Proof.
  assert (Hscene : PyPath.suffix (fi_filename (FileInfo "a.py" "first module"))
                   <> ".tscn") by (vm_compute; discriminate).
  assert (Hprompt : strategy_prompt Demo.prompts
                      (FileInfo "a.py" "first module") Demo.context_docs ∅ ∅
                    = Ok "code a.py") by (vm_compute; reflexivity).
  split; [exact Hscene |]. split; [exact Hprompt |].
  split; [reflexivity |]. split; [reflexivity |]. split; [reflexivity |].
  exact (no_model_no_stream Demo.hash Demo.services_without_model
           Demo.prompts (FileInfo "a.py" "first module") Demo.context_docs
           ∅ ∅ Demo.world_docs "code a.py" None None
           Hscene Hprompt eq_refl eq_refl eq_refl).
Defined.

Lemma stream_outcome_witness :
  PyPath.suffix (fi_filename (FileInfo "a.py" "first module")) <> ".tscn"
  /\ strategy_prompt Demo.prompts (FileInfo "a.py" "first module")
       Demo.context_docs ∅ ∅ = Ok "code a.py"
  /\ is_empty "code a.py" = false
  /\ get_model_for_role (get_llm_client DemoExtra.services_broken_stream)
       (trace Demo.world_docs
          ++ custom_prompt_events (FileInfo "a.py" "first module") ∅)
       "coder"
     = Ok (Some "provider", Some "model")
  /\ is_empty "provider" = false
  /\ is_empty "model" = false
  /\ stream_chat (get_llm_client DemoExtra.services_broken_stream)
       (trace Demo.world_docs
          ++ custom_prompt_events (FileInfo "a.py" "first module") ∅
          ++ [ModelResolve "coder"])
       "provider" "model" "code a.py" "coder"
     = (["class "; "User"], Some (Exception "connection reset"))
  /\ _generate_single_file Demo.hash DemoExtra.services_broken_stream
       Demo.prompts (FileInfo "a.py" "first module") Demo.context_docs ∅ ∅
       Demo.world_docs
     = (Ok None,
        says Demo.world_docs
          (custom_prompt_events (FileInfo "a.py" "first module") ∅
           ++ [ModelResolve "coder";
               ModelStream "provider" "model" "code a.py" "coder"]
           ++ chunk_events (fi_filename (FileInfo "a.py" "first module"))
                ["class "; "User"]
           ++ [stream_error (fi_filename (FileInfo "a.py" "first module"))
                 "connection reset"])).
Proof.
  assert (Hscene : PyPath.suffix (fi_filename (FileInfo "a.py" "first module"))
                   <> ".tscn") by (vm_compute; discriminate).
  assert (Hprompt : strategy_prompt Demo.prompts
                      (FileInfo "a.py" "first module") Demo.context_docs ∅ ∅
                    = Ok "code a.py") by (vm_compute; reflexivity).
  split; [exact Hscene |]. split; [exact Hprompt |].
  split; [reflexivity |]. split; [reflexivity |]. split; [reflexivity |].
  split; [reflexivity |]. split; [reflexivity |].
  exact (stream_outcome Demo.hash DemoExtra.services_broken_stream
           Demo.prompts (FileInfo "a.py" "first module") Demo.context_docs
           ∅ ∅ Demo.world_docs "code a.py" "provider" "model"
           ["class "; "User"] (Some (Exception "connection reset"))
           Hscene Hprompt eq_refl eq_refl eq_refl eq_refl eq_refl).
Defined.

(* ===================================================================== *)
(** * Further properties: the loop and the run                           *)
(* ===================================================================== *)

Lemma indexes_grow_weaken (index0 index : gmap string string)
    (notes : list note) :
  dom index0 ⊆ dom index ->
  indexes_grow index notes -> indexes_grow index0 notes.
Proof.
  intros Hsub. induction notes as [|[f c o|f c] notes IH]; cbn.
  - auto.
  - intros [H1 H2]. split; [now transitivity (dom index) | exact H2].
  - exact IH.
Qed.

Lemma indexes_grow_later (index : gmap string string) (notes : list note) :
  indexes_grow index notes ->
  forall f context other,
    Dispatched f context other ∈ notes ->
    dom index ⊆ dom (project_index context).
Proof.
  revert index. induction notes as [|[f c o|f c] notes IH]; intros index;
    cbn [indexes_grow].
  - intros _ f context other H. inversion H.
  - intros [H1 H2] f' context other Hin.
    apply elem_of_cons in Hin as [[= -> -> ->] | Hin]; [exact H1 |].
    transitivity (dom (project_index c)); [exact H1 |].
    exact (IH _ H2 _ _ _ Hin).
  - intros H f' context other Hin.
    apply elem_of_cons in Hin as [[=] | Hin]. exact (IH _ H _ _ _ Hin).
Qed.

Lemma indexes_grow_after (index : gmap string string) (pre : list note)
    f context other (rest : list note) :
  indexes_grow index (pre ++ Dispatched f context other :: rest) ->
  indexes_grow (project_index context) rest.
Proof.
  revert index. induction pre as [|[f' c o|f' c] pre IH]; intros index;
    cbn [app indexes_grow].
  - now intros [_ H].
  - intros [_ H]. exact (IH _ H).
  - apply IH.
Qed.

Section LoopExtras.

Variable hash : string -> Z.
Variable service_manager : ServiceManager.
Variable prompts : Prompts.

(** One iteration on a filename of the plan: what it returns, and what
    it does to the session records and to the journal. *)
Lemma loop_body_planned p custom_prompts total i filename fi context
    generated w :
  find_file_info p filename = Some fi ->
  exists r w',
    loop_body hash service_manager prompts p custom_prompts total i filename
              (context, generated) w = (r, w')
    /\ ((exists e,
           r = Raised e
           /\ store w' = store w
           /\ journal w'
              = (journal w
                 ++ [Dispatched filename context (delete filename generated)])%list)
        \/ (r = Ok (context,
                    <[filename := failure_placeholder filename]> generated)
            /\ store w' = store w
            /\ journal w'
               = (journal w
                  ++ [Dispatched filename context (delete filename generated);
                      Stored filename (failure_placeholder filename)])%list)
        \/ (exists raw context',
              r = Ok (context',
                      <[filename := robust_clean_llm_output raw]> generated)
              /\ store w'
                 = store_after_completion (store w)
                     (generation_session context) filename
                     (robust_clean_llm_output raw)
              /\ journal w'
                 = (journal w
                    ++ [Dispatched filename context (delete filename generated);
                        Stored filename (robust_clean_llm_output raw)])%list
              /\ (context' = context
                  \/ (endswith filename ".py" = true
                      /\ exists symbols,
                           symbols_of_file service_manager filename
                             (robust_clean_llm_output raw) = Ok symbols
                           /\ context'
                              = with_project_index context
                                  (symbols ∪ project_index context))))).
Proof.
  intros Hfind. unfold loop_body. rewrite view_is_delete. unfold log.
  rewrite !bind_tell, Hfind, bind_jot.
  set (w1 := MkWorld _ _ _).
  destruct (only_tells_generate_single_file hash service_manager prompts fi
              context (delete filename generated)
              (default ∅ custom_prompts) w1) as (rg & events & Hg).
  destruct rg as [[raw|]|e].
  - rewrite (bind_step_Ok _ _ _ _ _ Hg).
    rewrite bind_assoc, bind_jot, bind_assoc.
    set (w2 := MkWorld _ _ _).
    pose proof (update_session_context_run service_manager context filename
                  (robust_clean_llm_output raw) [] w2) as Hu.
    cbv zeta in Hu.
    destruct (endswith filename ".py") eqn:Epy;
      [destruct (get_symbols_from_content _ (robust_clean_llm_output raw)
                   (module_path_of filename)) as [symbols|e] eqn:Esym |];
      rewrite (bind_step_Ok _ _ _ _ _ Hu), bind_ret, bind_tell; unfold ret;
      eexists _, _; (split; [reflexivity |]); right; right;
      eexists raw, _; (split; [reflexivity |]); cbn;
      (split; [reflexivity |]); (split; [now rewrite <- app_assoc |]).
    + right. split; [reflexivity |]. exists symbols. split; [exact Esym | reflexivity].
    + now left.
    + left. apply with_project_index_same.
  - rewrite (bind_step_Ok _ _ _ _ _ Hg).
    rewrite bind_assoc, bind_tell, bind_assoc, bind_jot.
    rewrite bind_ret, bind_tell. unfold ret.
    eexists _, _. split; [reflexivity |]. right. left. cbn.
    split; [reflexivity |]. split; [reflexivity | now rewrite <- app_assoc].
  - rewrite (bind_step_Raised _ _ _ _ _ Hg).
    eexists _, _. split; [reflexivity |]. left. exists e. cbn. auto.
Qed.

(** X24: one iteration on a file of the plan, when no exception
    escapes it: the strategy of the file has been invoked on the
    current context and on the outputs stored so far without the entry
    of the file, after the status and the log message of the iteration,
    and it returned.  If it returned no content, the failure
    placeholder is stored, and the context and the session records are
    what they were.  If it returned content, that content, cleaned, is
    stored, the session entry of the file is completed with that same
    cleaned text, and the context is the same or, for a [.py] file, has
    gained the symbols that the indexer finds in the cleaned text. *)
Theorem iteration_outcomes (p : Plan)
    (custom_prompts : option (gmap string string)) (total i : nat)
    (filename : string) (fi : file_info)
    (context context' : GenerationContext)
    (generated generated' : gmap string string) (w w' : world) :
  find_file_info p filename = Some fi ->
  loop_body hash service_manager prompts p custom_prompts total i filename
            (context, generated) w
  = (Ok (context', generated'), w') ->
  exists generated_content w2,
    _generate_single_file hash service_manager prompts fi context
      (delete filename generated) (default ∅ custom_prompts)
      (dispatch_world w total i filename context (delete filename generated))
    = (Ok generated_content, w2)
    /\ generated'
       = <[filename := stored_value filename generated_content]> generated
    /\ match generated_content with
       | None => context' = context /\ store w' = store w
       | Some raw =>
           store w'
           = store_after_completion (store w) (generation_session context)
               filename (robust_clean_llm_output raw)
           /\ (context' = context
               \/ (endswith filename ".py" = true
                   /\ exists symbols,
                        symbols_of_file service_manager filename
                          (robust_clean_llm_output raw) = Ok symbols
                        /\ context'
                           = with_project_index context
                               (symbols ∪ project_index context)))
       end.
Proof.
  intros Hfind Hrun.
  destruct (loop_body_dispatch hash service_manager prompts p custom_prompts
              total i filename fi context generated w Hfind)
    as (rg & w2 & Hg & _ & _ & Hcase).
  destruct rg as [generated_content|s].
  - destruct Hcase as (c & w1 & Hb & _ & Hc).
    rewrite Hrun in Hb. injection Hb as -> -> ->.
    exists generated_content, w2.
    split; [exact Hg |]. split; [reflexivity |].
    destruct generated_content as [raw|]; exact Hc.
  - rewrite Hrun in Hcase. discriminate.
Qed.

(** The whole loop: the journal it writes, the session records, the
    indexes it hands out and the order of the invocations. *)
Lemma generation_loop_facts p custom_prompts total order :
  forall i context generated w,
  exists r w' notes,
    generation_loop hash service_manager prompts p custom_prompts total i
                    order (context, generated) w = (r, w')
    /\ journal w' = (journal w ++ notes)%list
    /\ session_evolves (store w) (store w')
    /\ indexes_grow (project_index context) notes
    /\ dispatched_filenames notes `prefix_of` attempted p order
    /\ forall st, r = Ok st ->
         dispatched_filenames notes = attempted p order
         /\ dom (project_index context) ⊆ dom (project_index (fst st)).
Proof.
  induction order as [|filename rest IH]; intros i context generated w.
  - exists (Ok (context, generated)), w, []. cbn. rewrite app_nil_r.
    split; [reflexivity |]. split; [reflexivity |].
    split; [apply session_evolves_refl |]. split; [exact I |].
    split; [reflexivity |]. intros st [= <-]. split; reflexivity.
  - cbn [generation_loop]. unfold attempted. cbn [List.filter].
    fold (attempted p rest).
    destruct (find_file_info p filename) as [fi|] eqn:Efind.
    + assert (Hin : filename ∈ planned_filenames p)
        by (apply find_file_info_planned; rewrite Efind; eauto).
      rewrite (bool_decide_eq_true_2 _ Hin).
      destruct (loop_body_planned p custom_prompts total i filename fi
                  context generated w Efind) as (r1 & w1 & Hb & Hcase).
      unfold bind at 1. rewrite Hb.
      destruct Hcase as [(e & -> & Hs & Hj)
                        | [(-> & Hs & Hj) | (raw & c & -> & Hs & Hj & Hc)]].
      * eexists _, _, _. split; [reflexivity |]. split; [exact Hj |].
        split; [rewrite Hs; apply session_evolves_refl |].
        split; [cbn; auto |].
        split; [cbn; apply prefix_cons, prefix_nil | discriminate].
      * destruct (IH (S i) context
                    (<[filename := failure_placeholder filename]> generated)
                    w1)
          as (r2 & w2 & notes2 & Hl & Hj2 & He2 & Hg2 & Hp2 & Hok2).
        rewrite Hl. eexists _, _, _. split; [reflexivity |].
        split; [rewrite Hj2, Hj, <- app_assoc; reflexivity |].
        split; [now rewrite <- Hs |].
        split; [cbn; auto |].
        split; [cbn; now apply prefix_cons |].
        intros st Hst. destruct (Hok2 st Hst) as [Hd Hi].
        split; [cbn; now rewrite Hd | exact Hi].
      * destruct (IH (S i) c
                    (<[filename := robust_clean_llm_output raw]> generated)
                    w1)
          as (r2 & w2 & notes2 & Hl & Hj2 & He2 & Hg2 & Hp2 & Hok2).
        assert (Hgrow : dom (project_index context) ⊆ dom (project_index c)).
        { destruct Hc as [-> | (_ & symbols & _ & ->)]; [reflexivity |].
          cbn. rewrite dom_union. apply union_subseteq_r. }
        rewrite Hl. eexists _, _, _. split; [reflexivity |].
        split; [rewrite Hj2, Hj, <- app_assoc; reflexivity |].
        split.
        { eapply session_evolves_trans; [| exact He2].
          rewrite Hs. apply session_evolves_completion. }
        split; [cbn; split; [reflexivity |];
                now apply (indexes_grow_weaken _ (project_index c)) |].
        split; [cbn; now apply prefix_cons |].
        intros st Hst. destruct (Hok2 st Hst) as [Hd Hi].
        split; [cbn; now rewrite Hd | now transitivity (dom (project_index c))].
    + assert (Hnot : filename ∉ planned_filenames p).
      { intros H. apply find_file_info_planned in H as [? H]. congruence. }
      rewrite (bool_decide_eq_false_2 _ Hnot).
      destruct (loop_body_skip hash service_manager prompts p
                  custom_prompts total i filename
                  context generated w Efind) as (events & Hb).
      unfold bind at 1. rewrite Hb.
      destruct (IH (S i) context generated (says w events))
        as (r2 & w2 & notes2 & Hl & Hj2 & He2 & Hg2 & Hp2 & Hok2).
      rewrite Hl. eexists _, _, _. split; [reflexivity |].
      split; [exact Hj2 |]. split; [exact He2 |]. split; [exact Hg2 |].
      split; [exact Hp2 | exact Hok2].
Qed.

End LoopExtras.

(** Where an entry of the outputs of a journal comes from: it was
    there before, or it is the last value stored for its filename. *)
Lemma apply_stores_lookup (notes : list note) :
  forall (generated : gmap string string) (g c : string),
    apply_stores generated notes !! g = Some c ->
    (generated !! g = Some c /\ forall c', Stored g c' ∉ notes)
    \/ exists pre post,
         notes = (pre ++ Stored g c :: post)%list
         /\ forall c', Stored g c' ∉ post.
Proof.
  induction notes as [|[f x o|f x] notes IH]; intros generated g c;
    cbn [apply_stores].
  - intros H. left. split; [exact H |]. intros c' Hin. inversion Hin.
  - intros H. apply IH in H as [[H1 H2] | (pre & post & -> & H2)].
    + left. split; [exact H1 |]. intros c' Hin.
      apply elem_of_cons in Hin as [[=] | Hin]. exact (H2 c' Hin).
    + right. exists (Dispatched f x o :: pre), post. auto.
  - intros H. apply IH in H as [[H1 H2] | (pre & post & -> & H2)].
    + destruct (decide (g = f)) as [->|Hne].
      * rewrite lookup_insert_eq in H1. injection H1 as ->.
        right. exists [], notes. auto.
      * rewrite lookup_insert_ne in H1 by congruence.
        left. split; [exact H1 |]. intros c' Hin.
        apply elem_of_cons in Hin as [[= -> _] | Hin];
          [congruence | exact (H2 c' Hin)].
    + right. exists (Stored f x :: pre), post. auto.
Qed.

Section RunExtras.

Variable hash : string -> Z.
Variable service_manager : ServiceManager.
Variable prompts : Prompts.
Variable dependency_planner : DependencyPlanner.

(** The run, from the loop: the journal it writes, what becomes of the
    session records, and the order of the invocations. *)
Lemma coordinate_generation_facts p rag existing custom_prompts w :
  exists notes,
    journal (snd (coordinate_generation hash service_manager prompts
                    dependency_planner p rag existing custom_prompts w))
    = (journal w ++ notes)%list
    /\ indexes_grow ∅ notes
    /\ match build_generation_context service_manager p rag existing
               (says w [start_message]) with
       | (Raised _, _) => notes = []
       | (Ok context0, wb) =>
           session_evolves
             (store wb)
             (store (snd (coordinate_generation hash service_manager prompts
                            dependency_planner p rag existing custom_prompts
                            w)))
           /\ match dependency_planner (trace wb) context0 with
              | Raised _ => notes = []
              | Ok order =>
                  dispatched_filenames notes `prefix_of` attempted p order
                  /\ ((forall e,
                         fst (coordinate_generation_body hash service_manager
                                prompts dependency_planner p rag existing
                                custom_prompts w) <> Raised e) ->
                      dispatched_filenames notes = attempted p order)
              end
       end.
Proof.
  rewrite coordinate_generation_of_body.
  assert (Hbody :
    exists rb wb' notes,
      coordinate_generation_body hash service_manager prompts
        dependency_planner p rag existing custom_prompts w = (rb, wb')
      /\ journal wb' = (journal w ++ notes)%list
      /\ indexes_grow ∅ notes
      /\ match build_generation_context service_manager p rag existing
                 (says w [start_message]) with
         | (Raised _, _) => notes = []
         | (Ok context0, wb) =>
             session_evolves (store wb) (store wb')
             /\ match dependency_planner (trace wb) context0 with
                | Raised _ => notes = []
                | Ok order =>
                    dispatched_filenames notes `prefix_of` attempted p order
                    /\ ((forall e, rb <> Raised e) ->
                        dispatched_filenames notes = attempted p order)
                end
         end).
  { unfold coordinate_generation_body, log, start_message.
    rewrite bind_tell. fold start_message.
    destruct (build_generation_context service_manager p rag existing
                (says w [start_message])) as [[context0|e] wb] eqn:Hb.
    2:{ rewrite (bind_step_Raised _ _ _ _ _ Hb).
        destruct (build_generation_context_run service_manager p rag existing
                    (says w [start_message]))
          as [(e' & Hb') | (c & Hb' & _)]; rewrite Hb' in Hb; [| discriminate].
        injection Hb as <- <-.
        eexists _, _, []. split; [reflexivity |]. cbn. rewrite app_nil_r.
        auto. }
    rewrite (bind_step_Ok _ _ _ _ _ Hb), bind_history.
    assert (Hjb : journal wb = journal w).
    { destruct (build_generation_context_run service_manager p rag existing
                  (says w [start_message]))
        as [(e' & Hb') | (c & Hb' & _)]; rewrite Hb' in Hb;
        [discriminate |].
      injection Hb as <- <-. reflexivity. }
    destruct (dependency_planner (trace wb) context0) as [order|e].
    2:{ rewrite bind_await_Raised. eexists _, _, [].
        split; [reflexivity |]. rewrite app_nil_r.
        split; [exact Hjb |]. split; [exact I |].
        split; [apply session_evolves_refl | reflexivity]. }
    rewrite bind_await_Ok.
    destruct (generation_loop_facts hash service_manager prompts p
                custom_prompts (length order) order 0
                context0 ∅ wb)
      as (r & w1 & notes & Hl & Hj & He & Hg & Hp & Hok).
    assert (Hg0 : indexes_grow ∅ notes).
    { apply (indexes_grow_weaken _ (project_index context0)); [| exact Hg].
      rewrite dom_empty. apply empty_subseteq. }
    destruct r as [[context1 generated1]|e].
    - rewrite (bind_step_Ok _ _ _ _ _ Hl), bind_tell. unfold ret.
      eexists _, _, notes. split; [reflexivity |]. cbn.
      split; [now rewrite Hj, Hjb |]. split; [exact Hg0 |].
      split; [exact He |]. split; [exact Hp |].
      intros _. now destruct (Hok _ eq_refl).
    - rewrite (bind_step_Raised _ _ _ _ _ Hl).
      eexists _, _, notes. split; [reflexivity |].
      split; [now rewrite Hj, Hjb |]. split; [exact Hg0 |].
      split; [exact He |]. split; [exact Hp |].
      intros H. now destruct (H e). }
  destruct Hbody as (rb & wb' & notes & Hrun & Hj & Hg & Hcase).
  rewrite Hrun. cbn [fst] in *.
  exists notes.
  destruct (build_generation_context service_manager p rag existing
              (says w [start_message])) as [[context0|e0] wb];
    destruct rb as [g|[e|]]; cbn [fst snd says journal store]; auto.
Qed.

(** X25: every content that a run returns has been made of what the
    strategy of its filename returned: it is the value stored after the
    last invocation of that strategy in the run, which is the content
    the strategy returned, cleaned, or the failure placeholder of the
    filename when the strategy returned none; never a raw output. *)
Theorem returned_contents (p : Plan) (rag : string)
    (existing : option (list (string * string)))
    (custom_prompts : option (gmap string string)) (w : world)
    (generated : gmap string string) (g c : string) :
  fst (coordinate_generation hash service_manager prompts dependency_planner
         p rag existing custom_prompts w) = Ok generated ->
  generated !! g = Some c ->
  exists pre context other generated_content post,
    journal (snd (coordinate_generation hash service_manager prompts
                    dependency_planner p rag existing custom_prompts w))
    = (journal w
       ++ pre ++ Dispatched g context other :: Stored g c :: post)%list
    /\ (forall c', Stored g c' ∉ post)
    /\ strategy_returned hash service_manager prompts p custom_prompts
         (journal w ++ pre ++ [Dispatched g context other])
         g context other generated_content
    /\ c = stored_value g generated_content
    /\ (c = failure_placeholder g
        \/ exists raw, c = robust_clean_llm_output raw).
Proof.
  rewrite coordinate_generation_of_body.
  destruct (coordinate_generation_body_notes hash service_manager prompts
              dependency_planner p rag existing custom_prompts w)
    as (r & w' & notes & Hbody & Hj & Hnotes).
  pose proof (coordinate_generation_body_run hash service_manager prompts
                dependency_planner p rag existing custom_prompts w) as Hrun.
  rewrite Hbody. rewrite Hbody in Hrun.
  destruct r as [generated'|[e|]]; cbn [fst snd];
    [| intros [= <-]; rewrite lookup_empty; discriminate | discriminate].
  intros [= <-] Hlookup.
  destruct (build_generation_context _ _ _ _ _) as [[context0|e] wb];
    [| discriminate].
  destruct Hrun as (_ & _ & r0 & w0 & notes0 & [= <- <-] & _ & Hj0 & Hcase).
  rewrite Hj in Hj0. apply app_inv_head in Hj0 as <-.
  destruct (dependency_planner (trace wb) context0) as [order|s];
    [| destruct Hcase as [[=] _]].
  destruct Hcase as [_ Hres]. destruct (Hres _ eq_refl) as [Hgen _].
  rewrite Hgen in Hlookup.
  apply apply_stores_lookup in Hlookup
    as [[Hempty _] | (pre & post & Heq & Hlast)];
    [rewrite lookup_empty in Hempty; discriminate |].
  destruct (run_notes_stored_value _ _ _ _ _ _ _ Hnotes _ _ _ _ Heq)
    as (pre' & context & other & generated_content & -> & Hret & ->).
  exists pre', context, other, generated_content, post.
  split; [rewrite Hj, Heq, <- app_assoc; reflexivity |].
  split; [exact Hlast |]. split; [exact Hret |]. split; [reflexivity |].
  destruct generated_content as [raw|]; cbn; eauto.
Qed.

(** X26: at the end of a run, however it ends, the session record that
    the run created has exactly the filenames of the plan as keys; every
    entry still has the purpose and the dependencies that the plan gave
    it, and is either as planned or completed with content. *)
Theorem run_session_record (p : Plan) (rag : string)
    (existing : option (list (string * string)))
    (custom_prompts : option (gmap string string)) (w wb : world)
    (context0 : GenerationContext) :
  build_generation_context service_manager p rag existing
    (says w [start_message]) = (Ok context0, wb) ->
  (forall f,
     is_Some (session_entry_of
                (snd (coordinate_generation hash service_manager prompts
                        dependency_planner p rag existing custom_prompts w))
                context0 f)
     <-> f ∈ planned_filenames p)
  /\ (forall f e,
        session_entry_of
          (snd (coordinate_generation hash service_manager prompts
                  dependency_planner p rag existing custom_prompts w))
          context0 f = Some e ->
        exists fi,
          last_file_info p f = Some fi
          /\ se_purpose e = fi_purpose fi
          /\ se_dependencies e = _extract_file_dependencies fi
          /\ (e = planned_entry fi
              \/ (se_status e = "completed"
                  /\ is_Some (se_generated_code e)))).
Proof.
  intros Hb.
  destruct (coordinate_generation_facts p rag existing custom_prompts w)
    as (notes & _ & _ & Hcase).
  rewrite Hb in Hcase. destruct Hcase as [[_ Hev] _].
  set (w' := snd (coordinate_generation _ _ _ _ _ _ _ _ _)) in *.
  destruct (build_generation_context_run service_manager p rag existing
              (says w [start_message]))
    as [(e' & Hb') | (c & Hb' & _ & Hl)]; rewrite Hb' in Hb;
    [discriminate |].
  injection Hb as <- <-. cbn [store] in Hev.
  destruct (Hev (generation_session c)) as [Hkeys Hentries].
  rewrite Hl, lookup_insert_eq in Hkeys, Hentries.
  cbn [default from_option id] in Hkeys, Hentries.
  unfold session_entry_of. rewrite Hl. split.
  - intros f. rewrite <- elem_of_dom, Hkeys, dom_planned_session.
    apply elem_of_list_to_set.
  - intros f e He.
    assert (Hplanned : is_Some (planned_session p !! f)).
    { apply elem_of_dom. rewrite <- Hkeys. apply elem_of_dom. eauto. }
    destruct Hplanned as [e0 He0].
    destruct (Hentries f e0 e He0 He) as (Hp & Hd & Hs).
    rewrite planned_session_lookup in He0.
    destruct (last_file_info p f) as [fi|]; [| discriminate].
    injection He0 as <-. exists fi. split; [reflexivity |].
    split; [exact Hp |]. split; [exact Hd | exact Hs].
Qed.

(** X27: the strategies of a run are invoked in the planner's order,
    once for each filename of that order that the plan knows and never
    for another one; a run that is aborted has covered a prefix of that
    list. *)
Theorem strategies_follow_order (p : Plan) (rag : string)
    (existing : option (list (string * string)))
    (custom_prompts : option (gmap string string)) (w wb : world)
    (context0 : GenerationContext) (order : list string) :
  build_generation_context service_manager p rag existing
    (says w [start_message]) = (Ok context0, wb) ->
  dependency_planner (trace wb) context0 = Ok order ->
  exists notes,
    journal (snd (coordinate_generation hash service_manager prompts
                    dependency_planner p rag existing custom_prompts w))
    = (journal w ++ notes)%list
    /\ dispatched_filenames notes `prefix_of` attempted p order
    /\ ((forall e,
           fst (coordinate_generation_body hash service_manager prompts
                  dependency_planner p rag existing custom_prompts w)
           <> Raised e) ->
        dispatched_filenames notes = attempted p order).
Proof.
  intros Hb Horder.
  destruct (coordinate_generation_facts p rag existing custom_prompts w)
    as (notes & Hj & _ & Hcase).
  rewrite Hb in Hcase. destruct Hcase as [_ Hcase].
  rewrite Horder in Hcase. exists notes. split; [exact Hj | exact Hcase].
Qed.

(** X28: within a run the project index handed to the strategies only
    gains symbol names: every symbol known when one strategy is invoked
    is known at every later invocation. *)
Theorem strategy_indexes_only_grow (p : Plan) (rag : string)
    (existing : option (list (string * string)))
    (custom_prompts : option (gmap string string)) (w : world) :
  exists notes,
    journal (snd (coordinate_generation hash service_manager prompts
                    dependency_planner p rag existing custom_prompts w))
    = (journal w ++ notes)%list
    /\ forall pre f1 context1 other1 mid f2 context2 other2 post,
         notes = (pre ++ Dispatched f1 context1 other1
                      :: mid ++ Dispatched f2 context2 other2 :: post)%list ->
         dom (project_index context1) ⊆ dom (project_index context2).
Proof.
  destruct (coordinate_generation_facts p rag existing custom_prompts w)
    as (notes & Hj & Hg & _).
  exists notes. split; [exact Hj |].
  intros pre f1 context1 other1 mid f2 context2 other2 post ->.
  apply indexes_grow_after in Hg.
  apply (indexes_grow_later _ _ Hg f2 context2 other2).
  apply elem_of_app. right. apply list_elem_of_here.
Qed.

End RunExtras.

Lemma iteration_outcomes_witness :
  find_file_info Demo.plan_docs "a.py" = Some (FileInfo "a.py" "first module")
  /\ loop_body Demo.hash Demo.services Demo.prompts Demo.plan_docs None 2 0
       "a.py" (Demo.context_docs, ∅) Demo.world_docs
     = (Ok (DemoExtra.context_after_a, {[ "a.py" := "class User: pass" ]}),
        snd (loop_body Demo.hash Demo.services Demo.prompts Demo.plan_docs
               None 2 0 "a.py" (Demo.context_docs, ∅) Demo.world_docs))
  /\ exists generated_content w2,
       _generate_single_file Demo.hash Demo.services Demo.prompts
         (FileInfo "a.py" "first module") Demo.context_docs
         (delete "a.py" ∅) (default ∅ None)
         (dispatch_world Demo.world_docs 2 0 "a.py" Demo.context_docs
            (delete "a.py" ∅))
       = (Ok generated_content, w2)
       /\ ({[ "a.py" := "class User: pass" ]} : gmap string string)
          = <["a.py" := stored_value "a.py" generated_content]> ∅
       /\ match generated_content with
          | None =>
              DemoExtra.context_after_a = Demo.context_docs
              /\ store (snd (loop_body Demo.hash Demo.services Demo.prompts
                               Demo.plan_docs None 2 0 "a.py"
                               (Demo.context_docs, ∅) Demo.world_docs))
                 = store Demo.world_docs
          | Some raw =>
              store (snd (loop_body Demo.hash Demo.services Demo.prompts
                            Demo.plan_docs None 2 0 "a.py"
                            (Demo.context_docs, ∅) Demo.world_docs))
              = store_after_completion (store Demo.world_docs)
                  (generation_session Demo.context_docs) "a.py"
                  (robust_clean_llm_output raw)
              /\ (DemoExtra.context_after_a = Demo.context_docs
                  \/ (endswith "a.py" ".py" = true
                      /\ exists symbols,
                           symbols_of_file Demo.services "a.py"
                             (robust_clean_llm_output raw) = Ok symbols
                           /\ DemoExtra.context_after_a
                              = with_project_index Demo.context_docs
                                  (symbols ∪ project_index Demo.context_docs)))
          end.
Proof.
  assert (Hrun :
    loop_body Demo.hash Demo.services Demo.prompts Demo.plan_docs None 2 0
      "a.py" (Demo.context_docs, ∅) Demo.world_docs
    = (Ok (DemoExtra.context_after_a, {[ "a.py" := "class User: pass" ]}),
       snd (loop_body Demo.hash Demo.services Demo.prompts Demo.plan_docs
              None 2 0 "a.py" (Demo.context_docs, ∅) Demo.world_docs)))
    by (vm_compute; reflexivity).
  split; [reflexivity |]. split; [exact Hrun |].
  exact (iteration_outcomes Demo.hash Demo.services Demo.prompts
           Demo.plan_docs None 2 0 "a.py" (FileInfo "a.py" "first module")
           Demo.context_docs DemoExtra.context_after_a ∅
           {[ "a.py" := "class User: pass" ]} Demo.world_docs _
           eq_refl Hrun).
Defined.

Lemma returned_contents_witness :
  fst (coordinate_generation Demo.hash Demo.services Demo.prompts
         Demo.planner Demo.plan2 EmptyString None None Demo.w0)
  = Ok DemoRuns.generated_plan2
  /\ DemoRuns.generated_plan2 !! "models.py" = Some "class User: pass"
  /\ exists pre context other generated_content post,
       journal (snd (coordinate_generation Demo.hash Demo.services
                       Demo.prompts Demo.planner Demo.plan2 EmptyString
                       None None Demo.w0))
       = (journal Demo.w0
          ++ pre ++ Dispatched "models.py" context other
                 :: Stored "models.py" "class User: pass" :: post)%list
       /\ (forall c', Stored "models.py" c' ∉ post)
       /\ strategy_returned Demo.hash Demo.services Demo.prompts Demo.plan2
            None (journal Demo.w0 ++ pre ++ [Dispatched "models.py" context other])
            "models.py" context other generated_content
       /\ "class User: pass" = stored_value "models.py" generated_content
       /\ ("class User: pass" = failure_placeholder "models.py"
           \/ exists raw, "class User: pass" = robust_clean_llm_output raw).
Proof.
  assert (Hrun :
    fst (coordinate_generation Demo.hash Demo.services Demo.prompts
           Demo.planner Demo.plan2 EmptyString None None Demo.w0)
    = Ok DemoRuns.generated_plan2) by (vm_compute; reflexivity).
  assert (Hlookup :
    DemoRuns.generated_plan2 !! "models.py" = Some "class User: pass")
    by (vm_compute; reflexivity).
  split; [exact Hrun |]. split; [exact Hlookup |].
  exact (returned_contents Demo.hash Demo.services Demo.prompts Demo.planner
           Demo.plan2 EmptyString None None Demo.w0 DemoRuns.generated_plan2
           "models.py" "class User: pass" Hrun Hlookup).
Defined.

Lemma run_session_record_witness :
  build_generation_context Demo.services Demo.plan2 EmptyString None
    (says Demo.w0 [start_message])
  = (Ok DemoExtra.context_plan2, DemoExtra.world_plan2)
  /\ (forall f,
        is_Some (session_entry_of
                   (snd (coordinate_generation Demo.hash Demo.services
                           Demo.prompts Demo.planner Demo.plan2 EmptyString
                           None None Demo.w0))
                   DemoExtra.context_plan2 f)
        <-> f ∈ planned_filenames Demo.plan2)
  /\ (forall f e,
        session_entry_of
          (snd (coordinate_generation Demo.hash Demo.services Demo.prompts
                  Demo.planner Demo.plan2 EmptyString None None Demo.w0))
          DemoExtra.context_plan2 f = Some e ->
        exists fi,
          last_file_info Demo.plan2 f = Some fi
          /\ se_purpose e = fi_purpose fi
          /\ se_dependencies e = _extract_file_dependencies fi
          /\ (e = planned_entry fi
              \/ (se_status e = "completed"
                  /\ is_Some (se_generated_code e)))).
Proof.
  assert (Hb :
    build_generation_context Demo.services Demo.plan2 EmptyString None
      (says Demo.w0 [start_message])
    = (Ok DemoExtra.context_plan2, DemoExtra.world_plan2))
    by (vm_compute; reflexivity).
  split; [exact Hb |].
  exact (run_session_record Demo.hash Demo.services Demo.prompts Demo.planner
           Demo.plan2 EmptyString None None Demo.w0 DemoExtra.world_plan2
           DemoExtra.context_plan2 Hb).
Defined.

Lemma strategies_follow_order_witness :
  build_generation_context Demo.services Demo.plan2 EmptyString None
    (says Demo.w0 [start_message])
  = (Ok DemoExtra.context_plan2, DemoExtra.world_plan2)
  /\ Demo.planner (trace DemoExtra.world_plan2) DemoExtra.context_plan2
     = Ok ["models.py"; "service.py"]
  /\ exists notes,
       journal (snd (coordinate_generation Demo.hash Demo.services
                       Demo.prompts Demo.planner Demo.plan2 EmptyString
                       None None Demo.w0))
       = (journal Demo.w0 ++ notes)%list
       /\ dispatched_filenames notes
            `prefix_of` attempted Demo.plan2 ["models.py"; "service.py"]
       /\ ((forall e,
              fst (coordinate_generation_body Demo.hash Demo.services
                     Demo.prompts Demo.planner Demo.plan2 EmptyString
                     None None Demo.w0)
              <> Raised e) ->
           dispatched_filenames notes
           = attempted Demo.plan2 ["models.py"; "service.py"]).
Proof.
  assert (Hb :
    build_generation_context Demo.services Demo.plan2 EmptyString None
      (says Demo.w0 [start_message])
    = (Ok DemoExtra.context_plan2, DemoExtra.world_plan2))
    by (vm_compute; reflexivity).
  split; [exact Hb |]. split; [reflexivity |].
  exact (strategies_follow_order Demo.hash Demo.services Demo.prompts
           Demo.planner Demo.plan2 EmptyString None None Demo.w0
           DemoExtra.world_plan2 DemoExtra.context_plan2
           ["models.py"; "service.py"] Hb eq_refl).
Defined.

(** In the run of [Demo.plan_docs] that a template aborts, the
    strategies of both files had been invoked, in order. *)
Example aborted_run_dispatches :
  dispatched_filenames (journal (snd DemoRuns.run_bad_template))
  = ["a.py"; "b.md"].
Proof. vm_compute. reflexivity. Qed.
